(** * go-llms: the stream decoders and the conversation engine

    A shallow embedding of
      - [openai/openai.go], [openai/types.go]: the index-delta decoder,
      - the [anthropic] decoder (typed event blocks),
      - [llms/llm.go]: the step loop of the conversation engine,
    followed by the properties of the specification that are stated about
    them.

    Conventions of the embedding.
      - A Go [string] and a [json.RawMessage] are byte sequences: [string].
      - A Go [int] is a 64-bit two's complement integer: a [Z] kept in range
        by [wrapInt].  [float64] is Rocq's primitive binary64 [float].
      - The response body read through [bufio.Scanner] is the list of its
        lines: what stands between the newlines.  [scanner.Text()] is the
        line without the carriage return it may end in ([bufio.dropCR]).
        The scanner gives up at a line that does not fit its buffer
        ([bufio.tooLong]): [Scan] then returns false, as it does at the end
        of the body.
        [json.Unmarshal] is a parameter of each decoder: it returns the
        decoded record or nothing when the line is malformed.
      - A range-over-func iterator is run against a consumer that never
        refuses a value: [Iter] returns every status it yields, each paired
        with the decoder as it is when the consumer sees that status, the
        decoder after the run, and how the run ended (completion or panic).
      - The engine is run under a context that is either done before the
        call or stays live for the whole call.  The goroutine of [step]
        then runs to completion before the select on [done] returns, so the
        two are sequenced. *)

From Stdlib Require Import ZArith String Ascii Floats Uint63 Lia.
From stdpp Require Import base strings gmap list.

Open Scope string_scope.
Open Scope list_scope.

(* The prices of the tables are decimal literals, read as the nearest
   binary64, as Go reads them. *)
Set Warnings "-inexact-float".

(** ** Go runtime values *)

(** The [error] values the modelled code builds. *)
Inductive error :=
| UnmarshalError (data : string)            (* the error of json.Unmarshal on data *)
| Wrap (msg : string) (cause : error)       (* fmt.Errorf(msg + ": %w", cause) *)
| UnexpectedStopReason (reason : string)    (* fmt.Errorf("unexpected stop reason: %q", reason) *)
| ContextError.                             (* ctx.Err() *)

(** The values the modelled code panics with. *)
Inductive panicValue :=
| PanicString (msg : string)                (* panic(msg) *)
| ToolNotFound (name : string)              (* panic(fmt.Sprintf("tool %q not found", name)) *)
| IndexOutOfRange (index : Z) (len : nat).  (* runtime error: index out of range *)

(** Go's [int] on a 64-bit platform. *)
Definition wrapInt (z : Z) : Z := ((z + 2 ^ 63) mod 2 ^ 64 - 2 ^ 63)%Z.

Definition addInt (a b : Z) : Z := wrapInt (a + b).

(** The conversion [float64(n)] of an [int]: the nearest binary64. *)
Definition float64_of_int (z : Z) : float :=
  if (0 <=? z)%Z then PrimFloat.of_uint63 (Uint63.of_Z z)
  else if (z =? - 2 ^ 63)%Z then (- 0x1p+63)%float
  else (- PrimFloat.of_uint63 (Uint63.of_Z (- z)))%float.

(** [strings.CutPrefix(s, prefix)]: the rest of [s], when [s] starts with
    [prefix]. *)
Fixpoint CutPrefix (s prefix : string) {struct s} : option string :=
  match prefix with
  | EmptyString => Some s
  | String c prefix' =>
      match s with
      | String d s' => if Ascii.eqb c d then CutPrefix s' prefix' else None
      | EmptyString => None
      end
  end.

(** [strings.HasPrefix(s, prefix)]. *)
Definition HasPrefix (s prefix : string) : bool :=
  match CutPrefix s prefix with Some _ => true | None => false end.

Module bufio.

(** Go's standard library: [bufio.MaxScanTokenSize], the size up to which
    the buffer of a [Scanner] made by [bufio.NewScanner] grows. *)
Definition MaxScanTokenSize : Z := 64 * 1024.

(** [Scanner.Scan] with [ScanLines] needs a line and its newline in the
    buffer together: at a line of [MaxScanTokenSize] bytes or more it stops
    with [ErrTooLong] and returns false. *)
Definition tooLong (line : string) : bool :=
  (MaxScanTokenSize <=? Z.of_nat (String.length line))%Z.

(** [dropCR]: the line without the carriage return it ends in, when it ends
    in one.  It is what [ScanLines] hands out for the line, and so what
    [scanner.Text()] returns. *)
Fixpoint dropCR (line : string) : string :=
  match line with
  | EmptyString => EmptyString
  | String c EmptyString => if Ascii.eqb c "013" then EmptyString else line
  | String c rest => String c (dropCR rest)
  end.

#[global] Arguments tooLong : simpl never.
#[global] Arguments dropCR : simpl never.

End bufio.

(** How the body of a scanner loop hands control back. *)
Inductive Flow :=
| Next                      (* continue, or the end of the body *)
| Break                     (* break *)
| Return                    (* return *)
| Panic (p : panicValue).   (* panic *)

(** How a run of an iterator ended. *)
Inductive Exit :=
| Completed
| Panicked (p : panicValue).

Module slices.

(** Go's standard library: [slices.SortStableFunc(x, cmp)] sorts [x] and keeps
    the original order of the elements that [cmp] calls equal.  It is the
    library's insertion sort (the one it runs on blocks of the slice): each
    element in turn moves left while it is less than its left neighbour.
    [insertLeft] works on the sorted prefix, last element first. *)
Fixpoint insertLeft {A : Type} (cmp : A -> A -> Z) (x : A) (sortedRev : list A) : list A :=
  match sortedRev with
  | y :: rest => if (cmp x y <? 0)%Z then y :: insertLeft cmp x rest else x :: sortedRev
  | [] => [x]
  end.

Definition SortStableFunc {A : Type} (x : list A) (cmp : A -> A -> Z) : list A :=
  rev (fold_left (fun sortedRev a => insertLeft cmp a sortedRev) x []).

End slices.

(** ** package content *)

Module content.

(** The content items: [*Text], [*ImageURL], [*JSON]. *)
Inductive Item :=
| Text (text : string)
| ImageURL (url : string)
| JSON (data : string).

Definition Content := list Item.

Definition FromText (text : string) : Content := [Text text].

Definition FromRawJSON (data : string) : Content := [JSON data].

(** Modelled from the spec: the content package is not part of the sources; [Content.Append].  "Append text
    fragment": the fragment extends the last item when that is a text item,
    and is a new text item otherwise. *)
Fixpoint Append (c : Content) (text : string) : Content :=
  match c with
  | [] => [Text text]
  | [Text t] => [Text (t +:+ text)]
  | item :: rest => item :: Append rest text
  end.

(** Modelled from the spec: the content package is not part of the sources; [Content.AddImage].  "Append
    image reference". *)
Definition AddImage (c : Content) (url : string) : Content := c ++ [ImageURL url].

(** [fmt.Sprintf] for a format whose only verbs are [%s] and whose arguments
    are strings. *)
Fixpoint Sprintf (format : string) (args : list string) : string :=
  match format with
  | String "%" (String "s" rest) =>
      match args with
      | a :: args' => a +:+ Sprintf rest args'
      | [] => "%!s(MISSING)" +:+ Sprintf rest []
      end
  | String c rest => String c (Sprintf rest args)
  | EmptyString => EmptyString
  end.

(** Modelled from the spec: the content package is not part of the sources; [content.Textf].  One text item
    holding the formatted text. *)
Definition Textf (format : string) (args : list string) : Content :=
  [Text (Sprintf format args)].

(** The text of a content value: its text items, in order. *)
Fixpoint fullText (c : Content) : string :=
  match c with
  | [] => ""
  | Text t :: rest => t +:+ fullText rest
  | _ :: rest => fullText rest
  end.

(** The image references of a content value, in order. *)
Fixpoint imageURLs (c : Content) : list string :=
  match c with
  | [] => []
  | ImageURL u :: rest => u :: imageURLs rest
  | _ :: rest => imageURLs rest
  end.

End content.

(** ** package tools (the interfaces the engine calls) *)

Module tools.

Record Image := { Name : string; URL : string }.

(** [tools.Result]: its methods [JSON()] and [Images()]. *)
Record Result := { JSON : string; Images : list Image }.

(** [tools.Tool], known to the engine by what its schema names. *)
Record Tool := { SchemaName : string }.

(** [*tools.Toolbox].  [Get] returns nil for a name it does not hold.  [Run]
    executes a tool: the status strings it reports through the runner's
    callback, in order, and its result. *)
Record Toolbox := {
  Get : string -> option Tool;
  Run : string -> string -> list string * Result
}.

End tools.

(** ** package llms: the data model and the provider interface *)

Module llms.

Record ToolCall := { ID : string; Name : string; Arguments : string }.

Record Message := {
  Role : string;
  Content : content.Content;
  ToolCalls : list ToolCall;
  ToolCallID : string
}.

(** The zero values [llms.ToolCall{}] and [llms.Message{}]. *)
Definition zeroToolCall : ToolCall := {| ID := ""; Name := ""; Arguments := "" |}.

Definition zeroMessage : Message :=
  {| Role := ""; Content := []; ToolCalls := []; ToolCallID := "" |}.

(** Field updates: [m.Role = r], [m.Content = c], [m.ToolCalls = tcs], and
    [tc.Arguments = append(tc.Arguments, data...)]. *)
Definition setRole (r : string) (m : Message) : Message :=
  {| Role := r; Content := Content m; ToolCalls := ToolCalls m; ToolCallID := ToolCallID m |}.

Definition setContent (c : content.Content) (m : Message) : Message :=
  {| Role := Role m; Content := c; ToolCalls := ToolCalls m; ToolCallID := ToolCallID m |}.

Definition setToolCalls (tcs : list ToolCall) (m : Message) : Message :=
  {| Role := Role m; Content := Content m; ToolCalls := tcs; ToolCallID := ToolCallID m |}.

Definition appendArguments (data : string) (tc : ToolCall) : ToolCall :=
  {| ID := ID tc; Name := Name tc; Arguments := Arguments tc +:+ data |}.

Inductive StreamStatus :=
| StreamStatusText
| StreamStatusToolCallBegin
| StreamStatusToolCallData
| StreamStatusToolCallReady.

(** The updates sent over the channel.  The tool of [ToolStatusUpdate] and
    [ToolDoneUpdate] is whatever [Toolbox.Get] returned, nil included. *)
Inductive Update :=
| TextUpdate (Text : string)
| ToolStartUpdate (Tool : tools.Tool)
| ToolStatusUpdate (Status : string) (Tool : option tools.Tool)
| ToolDoneUpdate (Result : tools.Result) (Tool : option tools.Tool)
| ErrorUpdate (Error : error).

(** What one run of [ProviderStream.Iter] produced. *)
Record IterResult (S : Type) := {
  yields : list (StreamStatus * S);
  final : S;
  exit : Exit
}.

Arguments yields {S} _.
Arguments final {S} _.
Arguments exit {S} _.

(** The interface [llms.ProviderStream]. *)
Class ProviderStream (S : Type) := {
  Err : S -> option error;
  streamMessage : S -> Message;          (* Message() *)
  Text : S -> string;
  streamToolCall : S -> ToolCall;        (* ToolCall() *)
  CostUSD : S -> float;
  Usage : S -> Z * Z;
  Iter : S -> IterResult S
}.

End llms.

(** ** package openai: the index-delta decoder *)

Module openai.

(** [types.go].  Only the fields the decoder reads are kept in
    [chatCompletionChunk]; [Content] is the string [Iter] assigns to
    [lastText], empty when the delta carries none. *)
Record toolCallFunction := { fnName : string; fnArguments : string }.

Record toolCallDelta := {
  Index : Z;
  deltaID : string;
  deltaType : string;
  Function : toolCallFunction
}.

Definition ToLLM (t : toolCallDelta) : llms.ToolCall :=
  {| llms.ID := deltaID t;
     llms.Name := fnName (Function t);
     llms.Arguments := fnArguments (Function t) |}.

Record chatCompletionDelta := {
  deltaRole : string;
  deltaContent : string;
  deltaToolCalls : list toolCallDelta
}.

Record chatCompletionChoice := {
  Delta : chatCompletionDelta;
  FinishReason : option string
}.

Record usage := {
  PromptTokens : Z;
  CompletionTokens : Z;
  TotalTokens : Z
}.

Record chatCompletionChunk := {
  Choices : list chatCompletionChoice;
  chunkUsage : option usage
}.

Record pricing := { inputCost : float; outputCost : float }.

Definition modelPricing : gmap string pricing :=
  list_to_map [
    (* GPT-4.5 models *)
    ("gpt-4.5-preview", {| inputCost := 75.00; outputCost := 150.00 |});
    ("gpt-4.5-preview-2025-02-27", {| inputCost := 75.00; outputCost := 150.00 |});
    (* GPT-4o models *)
    ("gpt-4o", {| inputCost := 2.50; outputCost := 10.00 |});
    ("gpt-4o-2024-08-06", {| inputCost := 2.50; outputCost := 10.00 |});
    ("gpt-4o-2024-11-20", {| inputCost := 2.50; outputCost := 10.00 |});
    ("gpt-4o-2024-05-13", {| inputCost := 5.00; outputCost := 15.00 |});
    ("gpt-4o-audio-preview", {| inputCost := 2.50; outputCost := 10.00 |});
    ("gpt-4o-audio-preview-2024-12-17", {| inputCost := 2.50; outputCost := 10.00 |});
    ("gpt-4o-audio-preview-2024-10-01", {| inputCost := 2.50; outputCost := 10.00 |});
    ("gpt-4o-realtime-preview", {| inputCost := 5.00; outputCost := 20.00 |});
    ("gpt-4o-realtime-preview-2024-12-17", {| inputCost := 5.00; outputCost := 20.00 |});
    ("gpt-4o-realtime-preview-2024-10-01", {| inputCost := 5.00; outputCost := 20.00 |});
    ("chatgpt-4o-latest", {| inputCost := 5.00; outputCost := 15.00 |});
    (* GPT-4o mini models *)
    ("gpt-4o-mini", {| inputCost := 0.15; outputCost := 0.60 |});
    ("gpt-4o-mini-2024-07-18", {| inputCost := 0.15; outputCost := 0.60 |});
    ("gpt-4o-mini-audio-preview", {| inputCost := 0.15; outputCost := 0.60 |});
    ("gpt-4o-mini-audio-preview-2024-12-17", {| inputCost := 0.15; outputCost := 0.60 |});
    ("gpt-4o-mini-realtime-preview", {| inputCost := 0.60; outputCost := 2.40 |});
    ("gpt-4o-mini-realtime-preview-2024-12-17", {| inputCost := 0.60; outputCost := 2.40 |});
    (* O1 models *)
    ("o1", {| inputCost := 15.00; outputCost := 60.00 |});
    ("o1-2024-12-17", {| inputCost := 15.00; outputCost := 60.00 |});
    ("o1-preview-2024-09-12", {| inputCost := 15.00; outputCost := 60.00 |});
    ("o1-pro", {| inputCost := 150.00; outputCost := 600.00 |});
    ("o1-pro-2025-03-19", {| inputCost := 150.00; outputCost := 600.00 |});
    ("o1-mini", {| inputCost := 1.10; outputCost := 4.40 |});
    ("o1-mini-2024-09-12", {| inputCost := 1.10; outputCost := 4.40 |});
    (* O3 models *)
    ("o3-mini", {| inputCost := 1.10; outputCost := 4.40 |});
    ("o3-mini-2025-01-31", {| inputCost := 1.10; outputCost := 4.40 |});
    (* GPT-4 Turbo models *)
    ("gpt-4-turbo", {| inputCost := 10.00; outputCost := 30.00 |});
    ("gpt-4-turbo-2024-04-09", {| inputCost := 10.00; outputCost := 30.00 |});
    ("gpt-4-0125-preview", {| inputCost := 10.00; outputCost := 30.00 |});
    ("gpt-4-1106-preview", {| inputCost := 10.00; outputCost := 30.00 |});
    ("gpt-4-1106-vision-preview", {| inputCost := 10.00; outputCost := 30.00 |});
    (* GPT-4 models *)
    ("gpt-4", {| inputCost := 30.00; outputCost := 60.00 |});
    ("gpt-4-0613", {| inputCost := 30.00; outputCost := 60.00 |});
    ("gpt-4-0314", {| inputCost := 30.00; outputCost := 60.00 |});
    ("gpt-4-32k", {| inputCost := 60.00; outputCost := 120.00 |});
    ("gpt-4-32k-0613", {| inputCost := 60.00; outputCost := 120.00 |});
    (* GPT-3.5 models *)
    ("gpt-3.5-turbo", {| inputCost := 0.50; outputCost := 1.50 |});
    ("gpt-3.5-turbo-0125", {| inputCost := 0.50; outputCost := 1.50 |});
    ("gpt-3.5-turbo-1106", {| inputCost := 1.00; outputCost := 2.00 |});
    ("gpt-3.5-turbo-0613", {| inputCost := 1.50; outputCost := 2.00 |});
    ("gpt-3.5-0301", {| inputCost := 1.50; outputCost := 2.00 |});
    ("gpt-3.5-turbo-instruct", {| inputCost := 1.50; outputCost := 2.00 |});
    ("gpt-3.5-turbo-16k-0613", {| inputCost := 3.00; outputCost := 4.00 |});
    (* Older models *)
    ("davinci-002", {| inputCost := 2.00; outputCost := 2.00 |});
    ("babbage-002", {| inputCost := 0.40; outputCost := 0.40 |})
  ].

(** [float64(in)*p.inputCost/1e6 + float64(out)*p.outputCost/1e6]. *)
Definition costUSD (p : pricing) (inputTokens outputTokens : Z) : float :=
  (float64_of_int inputTokens * inputCost p / 1e6
   + float64_of_int outputTokens * outputCost p / 1e6)%float.

(** [Stream].  [stream] holds the lines of the body not scanned yet. *)
Record Stream := {
  model : string;
  stream : list string;
  err : option error;
  message : llms.Message;
  lastText : string;
  streamUsage : option usage
}.

(** The stream [Generate] returns once the request succeeded:
    [&Stream{model: m.model, stream: resp.Body}]. *)
Definition newStream (m : string) (body : list string) : Stream :=
  {| model := m; stream := body; err := None; message := llms.zeroMessage;
     lastText := ""; streamUsage := None |}.

Definition Err (s : Stream) : option error := err s.

Definition Message (s : Stream) : llms.Message := message s.

Definition Text (s : Stream) : string := lastText s.

Definition ToolCall (s : Stream) : llms.ToolCall :=
  match last (llms.ToolCalls (message s)) with
  | None => llms.zeroToolCall
  | Some tc => tc
  end.

Definition Usage (s : Stream) : Z * Z :=
  match streamUsage s with
  | None => (0, 0)%Z
  | Some u => (PromptTokens u, CompletionTokens u)
  end.

Definition CostUSD (s : Stream) : float :=
  match modelPricing !! model s with
  | None => 0%float (* Unknown model *)
  | Some p => let '(inputTokens, outputTokens) := Usage s in costUSD p inputTokens outputTokens
  end.

(** Field updates. *)
Definition withStream (body : list string) (s : Stream) : Stream :=
  {| model := model s; stream := body; err := err s; message := message s;
     lastText := lastText s; streamUsage := streamUsage s |}.

Definition withErr (e : error) (s : Stream) : Stream :=
  {| model := model s; stream := stream s; err := Some e; message := message s;
     lastText := lastText s; streamUsage := streamUsage s |}.

Definition withUsage (u : usage) (s : Stream) : Stream :=
  {| model := model s; stream := stream s; err := err s; message := message s;
     lastText := lastText s; streamUsage := Some u |}.

Definition withLastText (t : string) (s : Stream) : Stream :=
  {| model := model s; stream := stream s; err := err s; message := message s;
     lastText := t; streamUsage := streamUsage s |}.

Definition withMessage (m : llms.Message) (s : Stream) : Stream :=
  {| model := model s; stream := stream s; err := err s; message := m;
     lastText := lastText s; streamUsage := streamUsage s |}.

(** What the body of the scanner loop did for one line: the statuses it
    yielded (each with the stream as the consumer sees it), the stream it
    left, and how it handed control back. *)
Record Outcome := {
  yielded : list (llms.StreamStatus * Stream);
  state : Stream;
  flow : Flow
}.

Section Decoder.

(** [json.Unmarshal([]byte(line), &chunk)]. *)
Variable unmarshal : string -> option chatCompletionChunk.

(** The part of the loop body that handles [delta.ToolCalls], [ys] being what
    the body yielded before it. *)
Definition toolCallStep (ys : list (llms.StreamStatus * Stream)) (s : Stream)
    (deltas : list toolCallDelta) : Outcome :=
  match deltas with
  | _ :: _ :: _ =>
      {| yielded := ys; state := s;
         flow := Panic (PanicString "received more than one tool call in a single chunk") |}
  | [] => {| yielded := ys; state := s; flow := Next |}
  | [toolDelta] =>
      let calls := llms.ToolCalls (message s) in
      if (Index toolDelta <? Z.of_nat (length calls))%Z then
        if negb (Index toolDelta =? Z.of_nat (length calls) - 1)%Z then
          {| yielded := ys; state := s; flow := Panic (PanicString "tool call index mismatch") |}
        else if (Index toolDelta <? 0)%Z then
          {| yielded := ys; state := s;
             flow := Panic (IndexOutOfRange (Index toolDelta) (length calls)) |}
        else
          let s' :=
            withMessage
              (llms.setToolCalls
                 (alter (llms.appendArguments (fnArguments (Function toolDelta)))
                        (Z.to_nat (Index toolDelta)) calls)
                 (message s)) s in
          {| yielded := ys ++ [(llms.StreamStatusToolCallData, s')]; state := s'; flow := Next |}
      else
        let ready :=
          if (0 <? Index toolDelta)%Z then [(llms.StreamStatusToolCallReady, s)] else [] in
        let s' := withMessage (llms.setToolCalls (calls ++ [ToLLM toolDelta]) (message s)) s in
        {| yielded := ys ++ ready ++ [(llms.StreamStatusToolCallBegin, s')];
           state := s'; flow := Next |}
  end.

(** The loop body from [delta := chunk.Choices[0].Delta] on. *)
Definition deltaStep (s : Stream) (delta : chatCompletionDelta) : Outcome :=
  let s1 :=
    if decide (deltaRole delta = "") then s
    else withMessage (llms.setRole (deltaRole delta) (message s)) s in
  let s2 := withLastText (deltaContent delta) s1 in
  if decide (lastText s2 = "") then toolCallStep [] s2 (deltaToolCalls delta)
  else
    let s3 :=
      withMessage
        (llms.setContent (content.Append (llms.Content (message s2)) (lastText s2)) (message s2))
        s2 in
    toolCallStep [(llms.StreamStatusText, s3)] s3 (deltaToolCalls delta).

(** The body of [for scanner.Scan()], for the line [scanner.Text()]. *)
Definition lineStep (s : Stream) (text : string) : Outcome :=
  match CutPrefix text "data: " with
  | None => {| yielded := []; state := s; flow := Next |}
  | Some line =>
      if decide (line = "[DONE]") then {| yielded := []; state := s; flow := Next |}
      else
        match unmarshal line with
        | None =>
            {| yielded := [];
               state := withErr (Wrap "error unmarshalling chunk" (UnmarshalError line)) s;
               flow := Break |}
        | Some chunk =>
            let s1 := match chunkUsage chunk with Some u => withUsage u s | None => s end in
            match Choices chunk with
            | [] => {| yielded := []; state := s1; flow := Next |}
            | choice :: _ => deltaStep s1 (Delta choice)
            end
        end
  end.

(** [for scanner.Scan() { ... }] over the lines left in [body].  [Scan]
    returns false at the end of the body, and at a line that is too long for
    the scanner, which stays unread with the lines after it. *)
Fixpoint scanLoop (body : list string) (s : Stream) : Outcome :=
  match body with
  | [] => {| yielded := []; state := withStream [] s; flow := Next |}
  | text :: rest =>
      if bufio.tooLong text
      then {| yielded := []; state := withStream (text :: rest) s; flow := Next |}
      else
        let o := lineStep (withStream rest s) (bufio.dropCR text) in
        match flow o with
        | Next =>
            let o' := scanLoop rest (state o) in
            {| yielded := yielded o ++ yielded o'; state := state o'; flow := flow o' |}
        | _ => o
        end
  end.

(** [Iter]: the scanner loop, the [ToolCallReady] that closes the last tool
    call, and the deferred [io.Copy(io.Discard, s.stream)], which reads the
    body to its end. *)
Definition Iter (s : Stream) : llms.IterResult Stream :=
  let o := scanLoop (stream s) s in
  match flow o with
  | Panic p =>
      {| llms.yields := yielded o; llms.final := withStream [] (state o);
         llms.exit := Panicked p |}
  | Return =>
      {| llms.yields := yielded o; llms.final := withStream [] (state o);
         llms.exit := Completed |}
  | Next | Break =>
      let ready :=
        if (0 <? length (llms.ToolCalls (message (state o))))%nat
        then [(llms.StreamStatusToolCallReady, state o)] else [] in
      {| llms.yields := yielded o ++ ready; llms.final := withStream [] (state o);
         llms.exit := Completed |}
  end.

(** The stream as a [llms.ProviderStream]. *)
Definition providerStream : llms.ProviderStream Stream := {|
  llms.Err := Err;
  llms.streamMessage := Message;
  llms.Text := Text;
  llms.streamToolCall := ToolCall;
  llms.CostUSD := CostUSD;
  llms.Usage := Usage;
  llms.Iter := Iter
|}.

End Decoder.

End openai.

(** ** package anthropic: the typed-event decoder *)

Module anthropic.

(** The declaration of [streamEvent] is not part of the sources: the records
    hold the fields [Iter] reads, a missing sub-record being its zero value. *)
Record eventUsage := { InputTokens : Z; OutputTokens : Z }.

Record eventMessage := { msgRole : string; msgUsage : option eventUsage }.

Record eventDelta := {
  deltaType : string;
  deltaText : string;
  PartialJSON : string;
  deltaUsage : option eventUsage;
  StopReason : string
}.

Record eventContentBlock := { blockType : string; blockID : string; blockName : string }.

Record streamEvent := {
  Type_ : string;
  evMessage : eventMessage;
  evDelta : eventDelta;
  ContentBlock : eventContentBlock
}.

Record pricing := { inputCost : float; outputCost : float }.

Definition modelPricing : gmap string pricing :=
  list_to_map [
    (* Claude 3.7 models *)
    ("claude-3-7-sonnet", {| inputCost := 3.00; outputCost := 15.00 |});
    (* Claude 3.5 models *)
    ("claude-3-5-sonnet", {| inputCost := 3.00; outputCost := 15.00 |});
    ("claude-3-5-haiku", {| inputCost := 0.80; outputCost := 4.00 |});
    (* Claude 3 models *)
    ("claude-3-opus", {| inputCost := 15.00; outputCost := 75.00 |});
    ("claude-3-sonnet", {| inputCost := 3.00; outputCost := 15.00 |});
    ("claude-3-haiku", {| inputCost := 0.25; outputCost := 1.25 |})
  ].

(** [float64(in)*p.inputCost/1e6 + float64(out)*p.outputCost/1e6]. *)
Definition costUSD (p : pricing) (inputTokens outputTokens : Z) : float :=
  (float64_of_int inputTokens * inputCost p / 1e6
   + float64_of_int outputTokens * outputCost p / 1e6)%float.

(** [Stream].  [stream] holds the lines of the body not scanned yet. *)
Record Stream := {
  model : string;
  stream : list string;
  err : option error;
  message : llms.Message;
  lastText : string;
  inputTokens : Z;
  outputTokens : Z
}.

(** The stream [Generate] returns once the request succeeded:
    [&Stream{model: m.model, stream: resp.Body}]. *)
Definition newStream (m : string) (body : list string) : Stream :=
  {| model := m; stream := body; err := None; message := llms.zeroMessage;
     lastText := ""; inputTokens := 0; outputTokens := 0 |}.

Definition Err (s : Stream) : option error := err s.

Definition Message (s : Stream) : llms.Message := message s.

Definition Text (s : Stream) : string := lastText s.

Definition ToolCall (s : Stream) : llms.ToolCall :=
  match last (llms.ToolCalls (message s)) with
  | None => llms.zeroToolCall
  | Some tc => tc
  end.

Definition Usage (s : Stream) : Z * Z := (inputTokens s, outputTokens s).

(** [for prefix, pricing := range modelPricing]: the first entry, in the
    order the range visits the map, whose key is a prefix of the model. *)
Fixpoint rangePrefix (entries : list (string * pricing)) (m : string) : option pricing :=
  match entries with
  | [] => None
  | (prefix, p) :: rest => if HasPrefix m prefix then Some p else rangePrefix rest m
  end.

(** [CostUSD].  Go leaves the order in which a range visits a map open:
    [order] is that order, some arrangement of the entries of
    [modelPricing]. *)
Definition CostUSD (order : list (string * pricing)) (s : Stream) : float :=
  (* First try exact model name *)
  match modelPricing !! model s with
  | Some p => costUSD p (inputTokens s) (outputTokens s)
  | None =>
      (* Then try prefix matching *)
      match rangePrefix order (model s) with
      | Some p => costUSD p (inputTokens s) (outputTokens s)
      | None => 0%float (* Default return 0 for unknown models *)
      end
  end.

(** Field updates. *)
Definition withStream (body : list string) (s : Stream) : Stream :=
  {| model := model s; stream := body; err := err s; message := message s;
     lastText := lastText s; inputTokens := inputTokens s; outputTokens := outputTokens s |}.

Definition withErr (e : error) (s : Stream) : Stream :=
  {| model := model s; stream := stream s; err := Some e; message := message s;
     lastText := lastText s; inputTokens := inputTokens s; outputTokens := outputTokens s |}.

Definition withLastText (t : string) (s : Stream) : Stream :=
  {| model := model s; stream := stream s; err := err s; message := message s;
     lastText := t; inputTokens := inputTokens s; outputTokens := outputTokens s |}.

Definition withMessage (m : llms.Message) (s : Stream) : Stream :=
  {| model := model s; stream := stream s; err := err s; message := m;
     lastText := lastText s; inputTokens := inputTokens s; outputTokens := outputTokens s |}.

(** [s.inputTokens += u.InputTokens; s.outputTokens += u.OutputTokens], when
    the event carries a usage. *)
Definition addUsage (u : option eventUsage) (s : Stream) : Stream :=
  match u with
  | None => s
  | Some u =>
      {| model := model s; stream := stream s; err := err s; message := message s;
         lastText := lastText s;
         inputTokens := addInt (inputTokens s) (InputTokens u);
         outputTokens := addInt (outputTokens s) (OutputTokens u) |}
  end.

Record Outcome := {
  yielded : list (llms.StreamStatus * Stream);
  state : Stream;
  flow : Flow
}.

Section Decoder.

(** [json.Unmarshal([]byte(line), &event)]. *)
Variable unmarshal : string -> option streamEvent.

(** [switch event.Type { ... }]. *)
Definition eventStep (s : Stream) (event : streamEvent) : Outcome :=
  if decide (Type_ event = "message_start") then
    let s1 := withMessage (llms.setRole (msgRole (evMessage event)) (message s)) s in
    {| yielded := []; state := addUsage (msgUsage (evMessage event)) s1; flow := Next |}
  else if decide (Type_ event = "content_block_delta") then
    if decide (deltaType (evDelta event) = "text_delta") then
      let s1 := withLastText (deltaText (evDelta event)) s in
      let s2 :=
        withMessage
          (llms.setContent (content.Append (llms.Content (message s1)) (lastText s1))
             (message s1)) s1 in
      {| yielded := [(llms.StreamStatusText, s2)]; state := s2; flow := Next |}
    else if decide (deltaType (evDelta event) = "input_json_delta") then
      let calls := llms.ToolCalls (message s) in
      match length calls with
      | O => {| yielded := []; state := s; flow := Panic (IndexOutOfRange (-1) 0) |}
      | S n =>
          let s1 :=
            withMessage
              (llms.setToolCalls
                 (alter (llms.appendArguments (PartialJSON (evDelta event))) n calls)
                 (message s)) s in
          {| yielded := [(llms.StreamStatusToolCallData, s1)]; state := s1; flow := Next |}
      end
    else {| yielded := []; state := s; flow := Next |}
  else if decide (Type_ event = "content_block_start") then
    if decide (blockType (ContentBlock event) = "tool_use") then
      let call :=
        {| llms.ID := blockID (ContentBlock event);
           llms.Name := blockName (ContentBlock event);
           llms.Arguments := "" |} in
      let s1 :=
        withMessage
          (llms.setToolCalls (llms.ToolCalls (message s) ++ [call]) (message s)) s in
      {| yielded := [(llms.StreamStatusToolCallBegin, s1)]; state := s1; flow := Next |}
    else {| yielded := []; state := s; flow := Next |}
  else if decide (Type_ event = "content_block_stop") then
    if (0 <? length (llms.ToolCalls (message s)))%nat then
      {| yielded := [(llms.StreamStatusToolCallReady, s)]; state := s; flow := Next |}
    else {| yielded := []; state := s; flow := Next |}
  else if decide (Type_ event = "message_delta") then
    let s1 := addUsage (deltaUsage (evDelta event)) s in
    let reason := StopReason (evDelta event) in
    if negb (bool_decide (reason = "")) && negb (bool_decide (reason = "tool_use"))
       && negb (bool_decide (reason = "end_turn"))
    then {| yielded := []; state := withErr (UnexpectedStopReason reason) s1; flow := Return |}
    else {| yielded := []; state := s1; flow := Next |}
  else if decide (Type_ event = "message_stop") then
    {| yielded := []; state := s; flow := Return |}
  else {| yielded := []; state := s; flow := Next |}.

(** The body of [for scanner.Scan()], for the line [scanner.Text()]. *)
Definition lineStep (s : Stream) (text : string) : Outcome :=
  match CutPrefix text "data: " with
  | None => {| yielded := []; state := s; flow := Next |}
  | Some line =>
      match unmarshal line with
      | None =>
          {| yielded := [];
             state := withErr (Wrap "error unmarshalling event" (UnmarshalError line)) s;
             flow := Break |}
      | Some event => eventStep s event
      end
  end.

(** [for scanner.Scan() { ... }] over the lines left in [body].  [Scan]
    returns false at the end of the body, and at a line that is too long for
    the scanner, which stays unread with the lines after it. *)
Fixpoint scanLoop (body : list string) (s : Stream) : Outcome :=
  match body with
  | [] => {| yielded := []; state := withStream [] s; flow := Next |}
  | text :: rest =>
      if bufio.tooLong text
      then {| yielded := []; state := withStream (text :: rest) s; flow := Next |}
      else
        let o := lineStep (withStream rest s) (bufio.dropCR text) in
        match flow o with
        | Next =>
            let o' := scanLoop rest (state o) in
            {| yielded := yielded o ++ yielded o'; state := state o'; flow := flow o' |}
        | _ => o
        end
  end.

(** [Iter]: the scanner loop and the deferred [io.Copy(io.Discard, s.stream)],
    which reads the body to its end. *)
Definition Iter (s : Stream) : llms.IterResult Stream :=
  let o := scanLoop (stream s) s in
  {| llms.yields := yielded o;
     llms.final := withStream [] (state o);
     llms.exit := match flow o with Panic p => Panicked p | _ => Completed end |}.

(** The stream as a [llms.ProviderStream], for a given order of the range
    over the price table. *)
Definition providerStream (order : list (string * pricing)) : llms.ProviderStream Stream := {|
  llms.Err := Err;
  llms.streamMessage := Message;
  llms.Text := Text;
  llms.streamToolCall := ToolCall;
  llms.CostUSD := CostUSD order;
  llms.Usage := Usage;
  llms.Iter := Iter
|}.

End Decoder.

End anthropic.

(** ** llms/llm.go: the conversation engine *)

Module llm.

Import llms.

(** What a step does, in the order it does it. *)
Inductive Event :=
| Sent (u : Update)                  (* updateChan <- u *)
| Printed (id name : string)         (* the warning of runToolCall: already run *)
| Ran (toolCall : ToolCall)          (* toolbox.Run(runner, toolCall.Name, toolCall.Arguments) *)
| Appended (m : Message).            (* l.messages = append(l.messages, m) *)

(** What [step] hands back: [(shouldContinue, err)], unless the goroutine
    that drains the stream panicked, which ends the process. *)
Inductive StepResult :=
| Returned (shouldContinue : bool) (err : option error)
| Crashed (p : panicValue).

(** How a chat call ended: the update channel was closed, or the process
    crashed. *)
Inductive ChatEnd :=
| Closed
| ProcessCrashed (p : panicValue)
| StillRunning.                      (* the model ran out of steps *)

(** The comparison [step] sorts the tool messages with. *)
Definition toolFirst (a b : Message) : Z :=
  if bool_decide (Role a = "tool") && negb (bool_decide (Role b = "tool")) then (-1)%Z
  else if negb (bool_decide (Role a = "tool")) && bool_decide (Role b = "tool") then 1%Z
  else 0%Z.

Section Engine.

Variable S : Type.
Context {PS : ProviderStream S}.

(** [LLM].  [provider] is [provider.Generate].  The toolbox is there (the
    engine was made with a tool).  The [debug] flag and the dump it asks for
    write a file and nothing else: they are left out. *)
Record LLM := {
  provider : option content.Content -> list Message -> tools.Toolbox -> S;
  messages : list Message;
  toolbox : tools.Toolbox;
  totalCost : float;
  SystemPrompt : option (unit -> content.Content)
}.

Record StepOutcome := {
  log : list Event;
  after : LLM;
  result : StepResult
}.

Record ChatOutcome := {
  chatLog : list Event;
  chatAfter : LLM;
  chatEnd : ChatEnd
}.

Definition withMessages (ms : list Message) (l : LLM) : LLM :=
  {| provider := provider l; messages := ms; toolbox := toolbox l;
     totalCost := totalCost l; SystemPrompt := SystemPrompt l |}.

Definition withTotalCost (c : float) (l : LLM) : LLM :=
  {| provider := provider l; messages := messages l; toolbox := toolbox l;
     totalCost := c; SystemPrompt := SystemPrompt l |}.

(** The message [runToolCall] adds for a result with images. *)
Definition imageMessage (images : list tools.Image) : list Message :=
  match images with
  | [] => []
  | first :: _ =>
      let text :=
        content.Textf
          "Here is %s. This is an automated message, not actually from the user."
          [tools.Name first] in
      [{| Role := "user";
          Content := fold_left content.AddImage (map tools.URL images) text;
          ToolCalls := [];
          ToolCallID := "" |}]
  end.

(** [runToolCall]: what it does and the messages it returns. *)
Definition runToolCall (l : LLM) (toolbox : tools.Toolbox) (toolCall : ToolCall)
    : list Event * list Message :=
  let warnings :=
    if decide (ID toolCall = "") then []
    else
      map (fun _ => Printed (ID toolCall) (Name toolCall))
          (filter (fun message => ToolCallID message = ID toolCall) (messages l)) in
  let t := tools.Get toolbox (Name toolCall) in
  let '(statuses, result) := tools.Run toolbox (Name toolCall) (Arguments toolCall) in
  let callID := if decide (ID toolCall = "") then Name toolCall else ID toolCall in
  let toolMessage :=
    {| Role := "tool";
       Content := content.FromRawJSON (tools.JSON result);
       ToolCalls := [];
       ToolCallID := callID |} in
  (warnings ++ [Ran toolCall]
     ++ map (fun status => Sent (ToolStatusUpdate status t)) statuses
     ++ [Sent (ToolDoneUpdate result t)],
   toolMessage :: imageMessage (tools.Images result)).

(** What the loop over [stream.Iter()] did: its events, the tool messages it
    gathered, and the panic that stopped it, if one did. *)
Record Drained := {
  events : list Event;
  toolMessages : list Message;
  panicked : option panicValue
}.

(** [for status := range stream.Iter() { switch status { ... } }], over the
    statuses the decoder yields.  [acc] is [toolMessages] so far. *)
Fixpoint drain (l : LLM) (ys : list (StreamStatus * S)) (acc : list Message) : Drained :=
  match ys with
  | [] => {| events := []; toolMessages := acc; panicked := None |}
  | (status, stream) :: rest =>
      match status with
      | StreamStatusText =>
          let d := drain l rest acc in
          {| events := Sent (TextUpdate (Text stream)) :: events d;
             toolMessages := toolMessages d; panicked := panicked d |}
      | StreamStatusToolCallBegin =>
          match tools.Get (toolbox l) (Name (streamToolCall stream)) with
          | None =>
              (* TODO: This should be handled more gracefully. *)
              {| events := []; toolMessages := acc;
                 panicked := Some (ToolNotFound (Name (streamToolCall stream))) |}
          | Some tool =>
              let d := drain l rest acc in
              {| events := Sent (ToolStartUpdate tool) :: events d;
                 toolMessages := toolMessages d; panicked := panicked d |}
          end
      | StreamStatusToolCallReady =>
          let '(evs, msgs) := runToolCall l (toolbox l) (streamToolCall stream) in
          let d := drain l rest (acc ++ msgs) in
          {| events := evs ++ events d;
             toolMessages := toolMessages d; panicked := panicked d |}
      | StreamStatusToolCallData => drain l rest acc
      end
  end.

(** The first lines of [step]: the system prompt, when there is one, and the
    call of [l.provider.Generate]. *)
Definition generate (l : LLM) : S :=
  let systemPrompt :=
    match SystemPrompt l with Some f => Some (f tt) | None => None end in
  provider l systemPrompt (messages l) (toolbox l).

(** [step], under a context that is not done while the step runs: the
    goroutine takes the [default] case at every status and leaves
    [streamErr] nil, and the select that ends [step] receives from [done]. *)
Definition step (l : LLM) : StepOutcome :=
  let stream := generate l in
  match Err stream with
  | Some e =>
      {| log := []; after := l;
         result := Returned false (Some (Wrap "LLM returned error response" e)) |}
  | None =>
      let it := Iter stream in
      let d := drain l (yields it) [] in
      match panicked d, exit it with
      | Some p, _ => {| log := events d; after := l; result := Crashed p |}
      | None, Panicked p => {| log := events d; after := l; result := Crashed p |}
      | None, Completed =>
          (* Add the fully assembled message plus tool call results to the
             message history. *)
          let received := streamMessage (final it) in
          (* Role "tool" must always come first. *)
          let sorted := slices.SortStableFunc (toolMessages d) toolFirst in
          let l1 := withMessages (messages l ++ [received]) l in
          let l2 := withMessages (messages l1 ++ sorted) l1 in
          let l3 := withTotalCost (totalCost l2 + CostUSD (final it))%float l2 in
          (* Return true if there were tool calls, since the LLM should look
             at the results. *)
          {| log := events d ++ Appended received :: map Appended sorted;
             after := l3;
             result := Returned (0 <? length (toolMessages d))%nat None |}
      end
  end.

(** The loop of [ChatUsingContent], for at most [steps] steps.  [ctxDone]
    tells whether the context is done when the call is made; a context that
    is live then stays live to the end of the call. *)
Fixpoint chatLoop (steps : nat) (ctxDone : bool) (l : LLM) : ChatOutcome :=
  match steps with
  | O => {| chatLog := []; chatAfter := l; chatEnd := StillRunning |}
  | Datatypes.S steps' =>
      if ctxDone then
        {| chatLog := [Sent (ErrorUpdate ContextError)]; chatAfter := l; chatEnd := Closed |}
      else
        let o := step l in
        match result o with
        | Crashed p =>
            {| chatLog := log o; chatAfter := after o; chatEnd := ProcessCrashed p |}
        | Returned _ (Some err) =>
            {| chatLog := log o ++ [Sent (ErrorUpdate err)]; chatAfter := after o;
               chatEnd := Closed |}
        | Returned false None =>
            {| chatLog := log o; chatAfter := after o; chatEnd := Closed |}
        | Returned true None =>
            let c := chatLoop steps' ctxDone (after o) in
            {| chatLog := log o ++ chatLog c; chatAfter := chatAfter c; chatEnd := chatEnd c |}
        end
  end.

(** [ChatUsingContent]. *)
Definition ChatUsingContent (steps : nat) (ctxDone : bool) (l : LLM)
    (message : content.Content) : ChatOutcome :=
  let user := {| Role := "user"; Content := message; ToolCalls := []; ToolCallID := "" |} in
  let c := chatLoop steps ctxDone (withMessages (messages l ++ [user]) l) in
  {| chatLog := Appended user :: chatLog c; chatAfter := chatAfter c; chatEnd := chatEnd c |}.

End Engine.

Arguments provider {S} _.
Arguments messages {S} _.
Arguments toolbox {S} _.
Arguments totalCost {S} _.
Arguments SystemPrompt {S} _.
Arguments log {S} _.
Arguments after {S} _.
Arguments result {S} _.
Arguments chatLog {S} _.
Arguments chatAfter {S} _.
Arguments chatEnd {S} _.
Arguments withMessages {S} _ _.
Arguments withTotalCost {S} _ _.
Arguments runToolCall {S} _ _ _.
Arguments drain {S _} _ _ _.
Arguments generate {S} _.
Arguments step {S _} _.
Arguments chatLoop {S _} _ _ _.
Arguments ChatUsingContent {S _} _ _ _ _.

End llm.

(** * Fixtures

    Concrete responses and tools, used to run the model.  The lines are
    written with a single quote where the JSON has a double quote.  The
    fixture decoders read the lines listed here and reject every other line,
    as [json.Unmarshal] rejects a record that is not JSON. *)

Module fixtures.

Definition oaDelta (role text : string) (tcs : list openai.toolCallDelta)
    (finish : option string) : openai.chatCompletionChunk :=
  {| openai.Choices :=
       [{| openai.Delta :=
             {| openai.deltaRole := role; openai.deltaContent := text;
                openai.deltaToolCalls := tcs |};
           openai.FinishReason := finish |}];
     openai.chunkUsage := None |}.

Definition oaCall (index : Z) (id name args : string) : openai.toolCallDelta :=
  {| openai.Index := index; openai.deltaID := id; openai.deltaType := "function";
     openai.Function := {| openai.fnName := name; openai.fnArguments := args |} |}.

Definition oaUsage (p c : Z) : openai.chatCompletionChunk :=
  {| openai.Choices := [];
     openai.chunkUsage :=
       Some {| openai.PromptTokens := p; openai.CompletionTokens := c;
               openai.TotalTokens := p + c |} |}.

Definition oaHello := "{'choices':[{'delta':{'role':'assistant','content':'Hello'}}]}".
Definition oaWorld := "{'choices':[{'delta':{'content':', world'}}]}".
Definition oaSearch :=
  "{'choices':[{'delta':{'tool_calls':[{'index':0,'id':'a','type':'function','function':{'name':'search','arguments':''}}]}}]}".
Definition oaSearchArgs :=
  "{'choices':[{'delta':{'tool_calls':[{'index':0,'function':{'arguments':'{}'}}]}}]}".
Definition oaRender :=
  "{'choices':[{'delta':{'tool_calls':[{'index':1,'id':'b','type':'function','function':{'name':'render','arguments':'{}'}}]}}]}".
Definition oaMissing :=
  "{'choices':[{'delta':{'tool_calls':[{'index':0,'id':'c','type':'function','function':{'name':'missing','arguments':'{}'}}]}}]}".
Definition oaRenderFirst :=
  "{'choices':[{'delta':{'tool_calls':[{'index':0,'id':'b','type':'function','function':{'name':'render','arguments':'{}'}}]}}]}".
Definition oaSearchSecond :=
  "{'choices':[{'delta':{'tool_calls':[{'index':1,'id':'a','type':'function','function':{'name':'search','arguments':'{}'}}]}}]}".
Definition oaLength := "{'choices':[{'delta':{},'finish_reason':'length'}]}".
Definition oaUsage1 :=
  "{'choices':[],'usage':{'prompt_tokens':10,'completion_tokens':5,'total_tokens':15}}".
Definition oaUsage2 :=
  "{'choices':[],'usage':{'prompt_tokens':3,'completion_tokens':4,'total_tokens':7}}".
(** A record cut short: not JSON. *)
Definition oaTruncated := "{'choices':[{'delta':{'content':'wor".

Definition openaiRecords : gmap string openai.chatCompletionChunk :=
  list_to_map [
    (oaHello, oaDelta "assistant" "Hello" [] None);
    (oaWorld, oaDelta "" ", world" [] None);
    (oaSearch, oaDelta "" "" [oaCall 0 "a" "search" ""] None);
    (oaSearchArgs, oaDelta "" "" [oaCall 0 "" "" "{}"] None);
    (oaRender, oaDelta "" "" [oaCall 1 "b" "render" "{}"] None);
    (oaMissing, oaDelta "" "" [oaCall 0 "c" "missing" "{}"] None);
    (oaRenderFirst, oaDelta "" "" [oaCall 0 "b" "render" "{}"] None);
    (oaSearchSecond, oaDelta "" "" [oaCall 1 "a" "search" "{}"] None);
    (oaLength, oaDelta "" "" [] (Some "length"));
    (oaUsage1, oaUsage 10 5);
    (oaUsage2, oaUsage 3 4)
  ].

Definition openaiUnmarshal (line : string) : option openai.chatCompletionChunk :=
  openaiRecords !! line.

Definition data (record : string) : string := "data: " +:+ record.

Definition anEvent (type : string) : anthropic.streamEvent :=
  {| anthropic.Type_ := type;
     anthropic.evMessage := {| anthropic.msgRole := ""; anthropic.msgUsage := None |};
     anthropic.evDelta :=
       {| anthropic.deltaType := ""; anthropic.deltaText := ""; anthropic.PartialJSON := "";
          anthropic.deltaUsage := None; anthropic.StopReason := "" |};
     anthropic.ContentBlock :=
       {| anthropic.blockType := ""; anthropic.blockID := ""; anthropic.blockName := "" |} |}.

Definition anStart (role : string) (i o : Z) : anthropic.streamEvent :=
  {| anthropic.Type_ := "message_start";
     anthropic.evMessage :=
       {| anthropic.msgRole := role;
          anthropic.msgUsage :=
            Some {| anthropic.InputTokens := i; anthropic.OutputTokens := o |} |};
     anthropic.evDelta := anthropic.evDelta (anEvent "");
     anthropic.ContentBlock := anthropic.ContentBlock (anEvent "") |}.

Definition anText (text : string) : anthropic.streamEvent :=
  {| anthropic.Type_ := "content_block_delta";
     anthropic.evMessage := anthropic.evMessage (anEvent "");
     anthropic.evDelta :=
       {| anthropic.deltaType := "text_delta"; anthropic.deltaText := text;
          anthropic.PartialJSON := ""; anthropic.deltaUsage := None;
          anthropic.StopReason := "" |};
     anthropic.ContentBlock := anthropic.ContentBlock (anEvent "") |}.

Definition anJSON (partial : string) : anthropic.streamEvent :=
  {| anthropic.Type_ := "content_block_delta";
     anthropic.evMessage := anthropic.evMessage (anEvent "");
     anthropic.evDelta :=
       {| anthropic.deltaType := "input_json_delta"; anthropic.deltaText := "";
          anthropic.PartialJSON := partial; anthropic.deltaUsage := None;
          anthropic.StopReason := "" |};
     anthropic.ContentBlock := anthropic.ContentBlock (anEvent "") |}.

Definition anToolUse (id name : string) : anthropic.streamEvent :=
  {| anthropic.Type_ := "content_block_start";
     anthropic.evMessage := anthropic.evMessage (anEvent "");
     anthropic.evDelta := anthropic.evDelta (anEvent "");
     anthropic.ContentBlock :=
       {| anthropic.blockType := "tool_use"; anthropic.blockID := id;
          anthropic.blockName := name |} |}.

Definition anMessageDelta (reason : string) (i o : Z) : anthropic.streamEvent :=
  {| anthropic.Type_ := "message_delta";
     anthropic.evMessage := anthropic.evMessage (anEvent "");
     anthropic.evDelta :=
       {| anthropic.deltaType := ""; anthropic.deltaText := ""; anthropic.PartialJSON := "";
          anthropic.deltaUsage :=
            Some {| anthropic.InputTokens := i; anthropic.OutputTokens := o |};
          anthropic.StopReason := reason |};
     anthropic.ContentBlock := anthropic.ContentBlock (anEvent "") |}.

Definition anMessageStart :=
  "{'type':'message_start','message':{'role':'assistant','usage':{'input_tokens':25,'output_tokens':1}}}".
Definition anHello :=
  "{'type':'content_block_delta','index':0,'delta':{'type':'text_delta','text':'Hello'}}".
Definition anWorld :=
  "{'type':'content_block_delta','index':0,'delta':{'type':'text_delta','text':', world'}}".
Definition anBye :=
  "{'type':'content_block_delta','index':2,'delta':{'type':'text_delta','text':'Bye'}}".
Definition anSearch :=
  "{'type':'content_block_start','index':1,'content_block':{'type':'tool_use','id':'a','name':'search'}}".
Definition anSearchArgs :=
  "{'type':'content_block_delta','index':1,'delta':{'type':'input_json_delta','partial_json':'{}'}}".
Definition anBlockStop := "{'type':'content_block_stop','index':1}".
Definition anEndTurn :=
  "{'type':'message_delta','delta':{'stop_reason':'end_turn'},'usage':{'output_tokens':15}}".
Definition anMaxTokens :=
  "{'type':'message_delta','delta':{'stop_reason':'max_tokens'},'usage':{'output_tokens':15}}".
Definition anMessageStop := "{'type':'message_stop'}".

Definition anthropicRecords : gmap string anthropic.streamEvent :=
  list_to_map [
    (anMessageStart, anStart "assistant" 25 1);
    (anHello, anText "Hello");
    (anWorld, anText ", world");
    (anBye, anText "Bye");
    (anSearch, anToolUse "a" "search");
    (anSearchArgs, anJSON "{}");
    (anBlockStop, anEvent "content_block_stop");
    (anEndTurn, anMessageDelta "end_turn" 0 15);
    (anMaxTokens, anMessageDelta "max_tokens" 0 15);
    (anMessageStop, anEvent "message_stop")
  ].

Definition anthropicUnmarshal (line : string) : option anthropic.streamEvent :=
  anthropicRecords !! line.

(** A response of the index-delta framing: a text, then two tool calls. *)
Definition twoCalls : list string :=
  [data oaHello; data oaWorld; data oaSearch; data oaSearchArgs; data oaRender;
   data oaUsage1; "data: [DONE]"].

(** A response of the typed-event framing: a text, a tool call, and a text
    after the tool call. *)
Definition toolThenText : list string :=
  [data anMessageStart; data anHello; data anSearch; data anSearchArgs;
   data anBlockStop; data anBye; data anEndTurn; data anMessageStop].

(** Responses of the index-delta framing with a malformed record: after a
    text, and after a tool call. *)
Definition truncatedAfterText : list string :=
  [data oaHello; data oaTruncated; data oaWorld].

Definition truncatedAfterCall : list string :=
  [data oaSearch; data oaSearchArgs; data oaTruncated].

(** A response of the index-delta framing that names a tool the toolbox does
    not hold. *)
Definition callsMissingTool : list string :=
  [data oaHello; data oaMissing; data oaWorld].

(** A response of the typed-event framing cut at the token limit, and one
    of the index-delta framing. *)
Definition stoppedAtMaxTokens : list string :=
  [data anMessageStart; data anHello; data anMaxTokens; data anWorld; data anMessageStop].

Definition finishedAtLength : list string :=
  [data oaHello; data oaLength; data oaUsage1; "data: [DONE]"].

(** Two tools.  [search] reports one status and returns a result without
    images; [render] returns a result with the image [chart.png]; any other
    name gets an error result. *)
Definition searchTool : tools.Tool := {| tools.SchemaName := "search" |}.
Definition renderTool : tools.Tool := {| tools.SchemaName := "render" |}.

Definition chart : tools.Image :=
  {| tools.Name := "chart.png"; tools.URL := "data:image/png;base64,AAAA" |}.

Definition toolbox : tools.Toolbox :=
  {| tools.Get := fun name =>
       if decide (name = "search") then Some searchTool
       else if decide (name = "render") then Some renderTool
       else None;
     tools.Run := fun name args =>
       if decide (name = "search") then
         (["searching"], {| tools.JSON := "{'hits':0}"; tools.Images := [] |})
       else if decide (name = "render") then
         ([], {| tools.JSON := "{'ok':true}"; tools.Images := [chart] |})
       else ([], {| tools.JSON := "{'error':'tool not found'}"; tools.Images := [] |}) |}.

Definition legend : tools.Image :=
  {| tools.Name := "legend.png"; tools.URL := "data:image/png;base64,BBBB" |}.

(** A toolbox with one tool, [plot], which returns a result with two
    images. *)
Definition plotter : tools.Toolbox :=
  {| tools.Get := fun name =>
       if decide (name = "plot") then Some {| tools.SchemaName := "plot" |} else None;
     tools.Run := fun name args =>
       if decide (name = "plot") then
         ([], {| tools.JSON := "{'ok':true}"; tools.Images := [chart; legend] |})
       else ([], {| tools.JSON := "{'error':'tool not found'}"; tools.Images := [] |}) |}.

(** A response of the index-delta framing that calls [render], then
    [search]. *)
Definition renderThenSearch : list string :=
  [data oaRenderFirst; data oaSearchSecond; "data: [DONE]"].

(** An engine whose provider answers every request with the same body. *)
Definition openaiEngine (body : list string) : llm.LLM openai.Stream :=
  {| llm.provider := fun _ _ _ => openai.newStream "gpt-4o" body;
     llm.messages := [];
     llm.toolbox := toolbox;
     llm.totalCost := 0%float;
     llm.SystemPrompt := None |}.

Definition anthropicEngine (body : list string) : llm.LLM anthropic.Stream :=
  {| llm.provider := fun _ _ _ => anthropic.newStream "claude-3-5-sonnet" body;
     llm.messages := [];
     llm.toolbox := toolbox;
     llm.totalCost := 0%float;
     llm.SystemPrompt := None |}.

(** Decoders that counted a million input tokens, for a model identifier
    that is not a key of the price table but starts with one. *)
Definition sonnetDated : anthropic.Stream :=
  {| anthropic.model := "claude-3-5-sonnet-20241022"; anthropic.stream := [];
     anthropic.err := None; anthropic.message := llms.zeroMessage;
     anthropic.lastText := ""; anthropic.inputTokens := 1000000;
     anthropic.outputTokens := 0 |}.

Definition turboPreview : openai.Stream :=
  openai.withUsage
    {| openai.PromptTokens := 1000000; openai.CompletionTokens := 0;
       openai.TotalTokens := 1000000 |}
    (openai.newStream "gpt-4-turbo-preview" []).

Definition openaiPS : llms.ProviderStream openai.Stream :=
  openai.providerStream openaiUnmarshal.

Definition anthropicPS : llms.ProviderStream anthropic.Stream :=
  anthropic.providerStream anthropicUnmarshal (map_to_list anthropic.modelPricing).

(** The statuses of [toolThenText]: those before the [ToolCallReady], the
    decoder at the [ToolCallReady], and those after it. *)
Definition toolThenTextYields : list (llms.StreamStatus * anthropic.Stream) :=
  llms.yields (anthropic.Iter anthropicUnmarshal (anthropic.newStream "claude-3-5-sonnet" toolThenText)).

Definition toolThenTextReady : anthropic.Stream :=
  match toolThenTextYields !! 3%nat with
  | Some y => y.2
  | None => anthropic.newStream "" []
  end.

End fixtures.

(** * Properties *)

(** ** Strings and content *)

Lemma string_app_cons (x : ascii) (a b : string) : String x a +:+ b = String x (a +:+ b).
Proof. reflexivity. Qed.

Lemma string_app_nil_l (a : string) : "" +:+ a = a.
Proof. reflexivity. Qed.

Lemma string_app_assoc (a b c : string) : (a +:+ b) +:+ c = a +:+ (b +:+ c).
Proof.
  induction a as [|x a IH]; [reflexivity|].
  rewrite !string_app_cons. f_equal. exact IH.
Qed.

Lemma string_app_nil_r (a : string) : a +:+ "" = a.
Proof.
  induction a as [|x a IH]; [reflexivity|].
  rewrite string_app_cons. f_equal. exact IH.
Qed.

Lemma fullText_Append (c : content.Content) (t : string) :
  content.fullText (content.Append c t) = content.fullText c +:+ t.
Proof.
  induction c as [|item rest IH]; simpl.
  - by rewrite string_app_nil_r.
  - destruct item as [t0| |]; destruct rest as [|item' rest']; simpl in *;
      rewrite ?string_app_nil_r, ?IH, ?string_app_assoc; try reflexivity.
Qed.

(** The concatenation of the [Text()] deltas of the [Text] statuses of a run,
    in the order they were yielded. *)
Definition textDeltas {S : Type} (text : S -> string)
    (ys : list (llms.StreamStatus * S)) : string :=
  foldr (fun y acc =>
           match y.1 with
           | llms.StreamStatusText => text y.2 +:+ acc
           | _ => acc
           end) "" ys.

Lemma textDeltas_app {S : Type} (text : S -> string) (a b : list (llms.StreamStatus * S)) :
  textDeltas text (a ++ b) = textDeltas text a +:+ textDeltas text b.
Proof.
  induction a as [|[st s] a IH]; simpl; [reflexivity|].
  destruct st; simpl; rewrite IH, ?string_app_assoc; reflexivity.
Qed.

(** ** The text of a turn (C9) *)

Section OpenAIText.

Variable unmarshal : string -> option openai.chatCompletionChunk.

Local Abbreviation messageText s := (content.fullText (llms.Content (openai.message s))).

Lemma openai_toolCallStep_text ys s deltas :
  let o := openai.toolCallStep ys s deltas in
  messageText (openai.state o) = messageText s
  /\ textDeltas openai.Text (openai.yielded o) = textDeltas openai.Text ys.
Proof.
  unfold openai.toolCallStep.
  destruct deltas as [|d [|d' ds]]; simpl; try (split; reflexivity).
  repeat case_match; simpl; rewrite ?textDeltas_app; simpl;
    rewrite ?string_app_nil_r; split; reflexivity.
Qed.

Lemma openai_deltaStep_text s delta :
  let o := openai.deltaStep s delta in
  messageText (openai.state o)
  = messageText s +:+ textDeltas openai.Text (openai.yielded o).
Proof.
  unfold openai.deltaStep. simpl.
  destruct (decide (openai.deltaContent delta = "")) as [He|He].
  - destruct (openai_toolCallStep_text []
               (openai.withLastText (openai.deltaContent delta)
                  (if decide (openai.deltaRole delta = "") then s
                   else openai.withMessage
                          (llms.setRole (openai.deltaRole delta) (openai.message s)) s))
               (openai.deltaToolCalls delta)) as [H1 H2].
    simpl in H1, H2. rewrite H1, H2. simpl. rewrite string_app_nil_r.
    case_decide; reflexivity.
  - match goal with |- context [openai.toolCallStep ?ys ?s' ?ds] =>
      destruct (openai_toolCallStep_text ys s' ds) as [H1 H2] end.
    simpl in H1, H2. rewrite H1, H2. simpl.
    rewrite fullText_Append, string_app_nil_r. case_decide; reflexivity.
Qed.

Lemma openai_lineStep_text s text :
  let o := openai.lineStep unmarshal s text in
  messageText (openai.state o)
  = messageText s +:+ textDeltas openai.Text (openai.yielded o).
Proof.
  unfold openai.lineStep. simpl.
  repeat case_match; simpl; rewrite ?string_app_nil_r; try reflexivity;
    match goal with |- context [openai.deltaStep ?s' ?d] =>
      rewrite (openai_deltaStep_text s' d) end; reflexivity.
Qed.

Lemma openai_scanLoop_text body s :
  let o := openai.scanLoop unmarshal body s in
  messageText (openai.state o)
  = messageText s +:+ textDeltas openai.Text (openai.yielded o).
Proof.
  revert s. induction body as [|text rest IH]; intros s; simpl.
  - by rewrite string_app_nil_r.
  - destruct (bufio.tooLong text); simpl; [by rewrite string_app_nil_r|].
    pose proof (openai_lineStep_text (openai.withStream rest s) (bufio.dropCR text)) as Hl.
    simpl in Hl.
    destruct (openai.flow (openai.lineStep unmarshal (openai.withStream rest s) (bufio.dropCR text)));
      simpl; try exact Hl.
    rewrite IH, Hl, textDeltas_app, string_app_assoc. reflexivity.
Qed.

Lemma openai_Iter_text s :
  let r := openai.Iter unmarshal s in
  content.fullText (llms.Content (openai.Message (llms.final r)))
  = messageText s +:+ textDeltas openai.Text (llms.yields r).
Proof.
  unfold openai.Iter. simpl.
  pose proof (openai_scanLoop_text (openai.stream s) s) as Hs. simpl in Hs.
  destruct (openai.flow (openai.scanLoop unmarshal (openai.stream s) s)); simpl;
    try exact Hs;
    rewrite textDeltas_app; case_match; simpl; rewrite string_app_nil_r; exact Hs.
Qed.

End OpenAIText.

Section AnthropicText.

Variable unmarshal : string -> option anthropic.streamEvent.

Local Abbreviation messageText s := (content.fullText (llms.Content (anthropic.message s))).

Lemma anthropic_addUsage_message u s :
  anthropic.message (anthropic.addUsage u s) = anthropic.message s.
Proof. destruct u; reflexivity. Qed.

Lemma anthropic_eventStep_text s event :
  let o := anthropic.eventStep s event in
  messageText (anthropic.state o)
  = messageText s +:+ textDeltas anthropic.Text (anthropic.yielded o).
Proof.
  unfold anthropic.eventStep. simpl.
  repeat case_match; simpl;
    rewrite ?anthropic_addUsage_message, ?fullText_Append, ?string_app_nil_r;
    reflexivity.
Qed.

Lemma anthropic_lineStep_text s text :
  let o := anthropic.lineStep unmarshal s text in
  messageText (anthropic.state o)
  = messageText s +:+ textDeltas anthropic.Text (anthropic.yielded o).
Proof.
  unfold anthropic.lineStep. simpl.
  repeat case_match; simpl; rewrite ?string_app_nil_r; try reflexivity.
  apply anthropic_eventStep_text.
Qed.

Lemma anthropic_scanLoop_text body s :
  let o := anthropic.scanLoop unmarshal body s in
  messageText (anthropic.state o)
  = messageText s +:+ textDeltas anthropic.Text (anthropic.yielded o).
Proof.
  revert s. induction body as [|text rest IH]; intros s; simpl.
  - by rewrite string_app_nil_r.
  - destruct (bufio.tooLong text); simpl; [by rewrite string_app_nil_r|].
    pose proof (anthropic_lineStep_text (anthropic.withStream rest s) (bufio.dropCR text)) as Hl.
    simpl in Hl.
    destruct (anthropic.flow (anthropic.lineStep unmarshal (anthropic.withStream rest s) (bufio.dropCR text)));
      simpl; try exact Hl.
    rewrite IH, Hl, textDeltas_app, string_app_assoc. reflexivity.
Qed.

Lemma anthropic_Iter_text s :
  let r := anthropic.Iter unmarshal s in
  content.fullText (llms.Content (anthropic.Message (llms.final r)))
  = messageText s +:+ textDeltas anthropic.Text (llms.yields r).
Proof.
  unfold anthropic.Iter. simpl. apply anthropic_scanLoop_text.
Qed.

End AnthropicText.

(** C9.  For a decoder as [Generate] returns it and any response body, the
    concatenation of the [Text()] deltas of the [Text] statuses the run
    yields, in order, is the full text content of the [Message()] the decoder
    holds after the run.  It holds for the index-delta decoder and for the
    typed-event decoder. *)
Theorem C9_text_deltas_concatenate_to_message_text :
  (forall (unmarshal : string -> option openai.chatCompletionChunk)
          (model : string) (body : list string),
      let r := openai.Iter unmarshal (openai.newStream model body) in
      textDeltas openai.Text (llms.yields r)
      = content.fullText (llms.Content (openai.Message (llms.final r))))
  /\ (forall (unmarshal : string -> option anthropic.streamEvent)
             (model : string) (body : list string),
         let r := anthropic.Iter unmarshal (anthropic.newStream model body) in
         textDeltas anthropic.Text (llms.yields r)
         = content.fullText (llms.Content (anthropic.Message (llms.final r)))).
Proof.
  split; intros unmarshal model body r; subst r.
  - rewrite openai_Iter_text. reflexivity.
  - rewrite anthropic_Iter_text. reflexivity.
Qed.

(** ** The batch of tool messages (C8, C10) *)

(** The order the specification asks for: the tool-role messages of the
    batch, in their order, then the other messages, in their order. *)
Definition toolMessagesFirst (batch : list llms.Message) : list llms.Message :=
  filter (fun m => llms.Role m = "tool") batch
  ++ filter (fun m => llms.Role m <> "tool") batch.

Lemma insertLeft_other (x : llms.Message) (sortedRev : list llms.Message) :
  llms.Role x <> "tool" ->
  slices.insertLeft llm.toolFirst x sortedRev = x :: sortedRev.
Proof.
  intros Hx. destruct sortedRev as [|y rest]; [reflexivity|].
  simpl. unfold llm.toolFirst.
  rewrite (bool_decide_eq_false_2 _ Hx). simpl.
  destruct (bool_decide (llms.Role y = "tool")); reflexivity.
Qed.

Lemma insertLeft_tool (x : llms.Message) (others toolsRev : list llms.Message) :
  llms.Role x = "tool" ->
  Forall (fun m => llms.Role m <> "tool") others ->
  Forall (fun m => llms.Role m = "tool") toolsRev ->
  slices.insertLeft llm.toolFirst x (others ++ toolsRev) = others ++ x :: toolsRev.
Proof.
  intros Hx Ho Ht. induction Ho as [|y others Hy Ho IH]; simpl.
  - destruct Ht as [|z toolsRev Hz Ht]; [reflexivity|].
    simpl. unfold llm.toolFirst.
    rewrite (bool_decide_eq_true_2 _ Hx), (bool_decide_eq_true_2 _ Hz). reflexivity.
  - unfold llm.toolFirst at 1.
    rewrite (bool_decide_eq_true_2 _ Hx), (bool_decide_eq_false_2 _ Hy). simpl.
    by rewrite IH.
Qed.

Lemma sort_fold_toolFirst (batch seen : list llms.Message) :
  fold_left (fun sortedRev a => slices.insertLeft llm.toolFirst a sortedRev) batch
    (rev (filter (fun m => llms.Role m <> "tool") seen)
     ++ rev (filter (fun m => llms.Role m = "tool") seen))
  = rev (filter (fun m => llms.Role m <> "tool") (seen ++ batch))
    ++ rev (filter (fun m => llms.Role m = "tool") (seen ++ batch)).
Proof.
  revert seen. induction batch as [|x batch IH]; intros seen.
  - by rewrite app_nil_r.
  - simpl. replace (seen ++ x :: batch) with ((seen ++ [x]) ++ batch)
      by (by rewrite <- app_assoc).
    rewrite <- IH. f_equal. rewrite !filter_app, !rev_app_distr.
    destruct (decide (llms.Role x = "tool")) as [Hx|Hx].
    + rewrite (filter_cons_True (fun m => llms.Role m = "tool") x []) by exact Hx.
      rewrite (filter_cons_False (fun m => llms.Role m <> "tool") x [])
        by (intros H; by apply H).
      rewrite !filter_nil. simpl.
      apply insertLeft_tool; [exact Hx | |].
      * apply Forall_forall. intros m Hm. apply list_elem_of_In, in_rev in Hm.
        apply list_elem_of_In, list_elem_of_filter in Hm. tauto.
      * apply Forall_forall. intros m Hm. apply list_elem_of_In, in_rev in Hm.
        apply list_elem_of_In, list_elem_of_filter in Hm. tauto.
    + rewrite (filter_cons_True (fun m => llms.Role m <> "tool") x []) by exact Hx.
      rewrite (filter_cons_False (fun m => llms.Role m = "tool") x []) by exact Hx.
      rewrite !filter_nil. simpl.
      apply insertLeft_other. exact Hx.
Qed.

(** The sort of [step] is the stable partition. *)
Lemma SortStableFunc_toolFirst (batch : list llms.Message) :
  slices.SortStableFunc batch llm.toolFirst = toolMessagesFirst batch.
Proof.
  unfold slices.SortStableFunc, toolMessagesFirst.
  pose proof (sort_fold_toolFirst batch []) as H. simpl in H. rewrite H.
  by rewrite rev_app_distr, !rev_involutive.
Qed.

Lemma fold_AddImage (urls : list string) (c : content.Content) :
  fold_left content.AddImage urls c = c ++ map content.ImageURL urls.
Proof.
  revert c. induction urls as [|u urls IH]; intros c; simpl.
  - by rewrite app_nil_r.
  - rewrite IH. unfold content.AddImage. by rewrite <- app_assoc.
Qed.

Lemma imageURLs_images (urls : list string) :
  content.imageURLs (map content.ImageURL urls) = urls.
Proof. induction urls as [|u urls IH]; simpl; [reflexivity | by rewrite IH]. Qed.

Section EngineBatch.

Variable S : Type.
Context {PS : llms.ProviderStream S}.

(** The batch of a step: the messages its tool calls produced, in the order
    the loop over the stream gathered them. *)
Definition stepBatch (l : llm.LLM S) : list llms.Message :=
  llm.toolMessages (llm.drain l (llms.yields (llms.Iter (llm.generate l))) []).

(** The assistant message of a step: the decoder's [Message()] after the
    run. *)
Definition stepReceived (l : llm.LLM S) : llms.Message :=
  llms.streamMessage (llms.final (llms.Iter (llm.generate l))).

(** The tool calls that are ready in a run: the decoder's [ToolCall()] at
    each [ToolCallReady] status, in the order of the statuses. *)
Definition readyCalls (ys : list (llms.StreamStatus * S)) : list llms.ToolCall :=
  omap (fun y =>
          match y.1 with
          | llms.StreamStatusToolCallReady => Some (llms.streamToolCall y.2)
          | _ => None
          end) ys.

(** The messages [runToolCall] returns for the tool calls that are ready in
    the run of a step, call after call. *)
Definition toolProduced (l : llm.LLM S) : list llms.Message :=
  concat (map (fun toolCall => (llm.runToolCall l (llm.toolbox l) toolCall).2)
              (readyCalls (llms.yields (llms.Iter (llm.generate l))))).

Lemma step_messages (l : llm.LLM S) :
  llm.messages (llm.after (llm.step l))
  = match llm.result (llm.step l) with
    | llm.Returned _ None =>
        llm.messages l ++ [stepReceived l] ++ toolMessagesFirst (stepBatch l)
    | _ => llm.messages l
    end.
Proof.
  unfold llm.step, stepReceived, stepBatch. cbv zeta.
  destruct (llms.Err (llm.generate l)); [reflexivity|].
  destruct (llm.panicked _); [reflexivity|].
  destruct (llms.exit _); [|reflexivity].
  simpl. rewrite SortStableFunc_toolFirst, <- app_assoc. reflexivity.
Qed.

Lemma runToolCall_messages (l : llm.LLM S) (toolbox : tools.Toolbox) (toolCall : llms.ToolCall) :
  let result := (tools.Run toolbox (llms.Name toolCall) (llms.Arguments toolCall)).2 in
  (llm.runToolCall l toolbox toolCall).2
  = {| llms.Role := "tool";
       llms.Content := content.FromRawJSON (tools.JSON result);
       llms.ToolCalls := [];
       llms.ToolCallID :=
         if decide (llms.ID toolCall = "") then llms.Name toolCall else llms.ID toolCall |}
    :: llm.imageMessage (tools.Images result).
Proof.
  unfold llm.runToolCall.
  destruct (tools.Run toolbox (llms.Name toolCall) (llms.Arguments toolCall)) as [statuses result].
  reflexivity.
Qed.

(** A loop that does not panic gathers what [runToolCall] returns at each
    [ToolCallReady] status, in order, and nothing else. *)
Lemma drain_toolMessages (l : llm.LLM S) ys acc :
  llm.panicked (llm.drain l ys acc) = None ->
  llm.toolMessages (llm.drain l ys acc)
  = acc ++ concat (map (fun toolCall => (llm.runToolCall l (llm.toolbox l) toolCall).2)
                       (readyCalls ys)).
Proof.
  revert acc. induction ys as [|[status stream] rest IH]; intros acc; simpl.
  - intros _. by rewrite app_nil_r.
  - destruct status; simpl.
    + apply IH.
    + destruct (tools.Get _ _); simpl; [apply IH | discriminate].
    + apply IH.
    + destruct (llm.runToolCall l (llm.toolbox l) (llms.streamToolCall stream))
        as [evs msgs] eqn:Hrun. simpl.
      intros Hp. rewrite (IH _ Hp), <- app_assoc. reflexivity.
Qed.

(** A step that returns without an error ran its loop to the end. *)
Lemma step_returned (l : llm.LLM S) (c : bool) :
  llm.result (llm.step l) = llm.Returned c None ->
  llm.panicked (llm.drain l (llms.yields (llms.Iter (llm.generate l))) []) = None.
Proof.
  unfold llm.step. cbv zeta.
  destruct (llms.Err (llm.generate l)); [discriminate|].
  destruct (llm.panicked _); [discriminate | reflexivity].
Qed.

Lemma step_toolProduced (l : llm.LLM S) (c : bool) :
  llm.result (llm.step l) = llm.Returned c None ->
  llm.messages (llm.after (llm.step l))
  = llm.messages l ++ [stepReceived l] ++ toolMessagesFirst (toolProduced l).
Proof.
  intros Hres. rewrite step_messages, Hres. unfold stepBatch, toolProduced.
  by rewrite (drain_toolMessages l _ [] (step_returned l c Hres)).
Qed.

End EngineBatch.

Arguments stepBatch {S _} _.
Arguments stepReceived {S _} _.
Arguments readyCalls {S _} _.
Arguments toolProduced {S _} _.

(** The message for the images of a result: none when there is no image, and
    otherwise exactly one message, of role user, which carries the reference
    of every image, in order. *)
Definition oneUserMessageWithImages (images : list tools.Image)
    (extra : list llms.Message) : Prop :=
  match images with
  | [] => extra = []
  | _ :: _ =>
      exists m, extra = [m] /\ llms.Role m = "user"
                /\ content.imageURLs (llms.Content m) = map tools.URL images
  end.

(** C8.  (1) A step that returns without an error has appended to the
    history the assistant message and then its batch of tool-produced
    messages (what [runToolCall] returned for the tool call of each
    [ToolCallReady] status, in the order of the statuses), ordered so that
    the tool-role messages come first and each of the two groups keeps its
    order: every message [runToolCall] returned is in the history.  (2) A
    tool call yields the tool-role message with the result, followed, when
    the result carries images, by one more message of role user that carries
    them: the tool-role message is always there. *)
Theorem C8_tool_messages_first_and_image_message_added
    (S : Type) (PS : llms.ProviderStream S) (l : llm.LLM S) :
  (forall c : bool,
      llm.result (llm.step l) = llm.Returned c None ->
      llm.messages (llm.after (llm.step l))
      = llm.messages l ++ [stepReceived l] ++ toolMessagesFirst (toolProduced l)
      /\ (forall toolCall : llms.ToolCall,
            toolCall ∈ readyCalls (llms.yields (llms.Iter (llm.generate l))) ->
            Forall (fun m => m ∈ llm.messages (llm.after (llm.step l)))
                   (llm.runToolCall l (llm.toolbox l) toolCall).2))
  /\ (forall (toolbox : tools.Toolbox) (toolCall : llms.ToolCall),
        let result := (tools.Run toolbox (llms.Name toolCall) (llms.Arguments toolCall)).2 in
        exists toolMessage extra,
          (llm.runToolCall l toolbox toolCall).2 = toolMessage :: extra
          /\ llms.Role toolMessage = "tool"
          /\ llms.Content toolMessage = content.FromRawJSON (tools.JSON result)
          /\ oneUserMessageWithImages (tools.Images result) extra).
Proof.
  split.
  - intros c Hres. pose proof (step_toolProduced S l c Hres) as Hmessages.
    split; [exact Hmessages|].
    intros toolCall Hready. apply Forall_forall. intros m Hm. rewrite Hmessages.
    apply elem_of_app. right. apply elem_of_app. right.
    assert (Hbatch : m ∈ toolProduced l).
    { unfold toolProduced. apply list_elem_of_In, in_concat.
      exists (llm.runToolCall l (llm.toolbox l) toolCall).2. split.
      - apply in_map_iff. exists toolCall. split; [reflexivity|].
        by apply list_elem_of_In.
      - by apply list_elem_of_In. }
    unfold toolMessagesFirst. apply elem_of_app.
    destruct (decide (llms.Role m = "tool")); [left | right];
      apply list_elem_of_filter; auto.
  - intros toolbox toolCall result.
    eexists _, _. split; [apply runToolCall_messages|].
    split; [reflexivity|]. split; [reflexivity|]. fold result.
    destruct (tools.Images result) as [|first rest] eqn:Himages; simpl.
    + reflexivity.
    + eexists. split; [reflexivity|]. split; [reflexivity|].
      simpl. rewrite fold_AddImage. simpl. by rewrite imageURLs_images.
Qed.

(** The step over [renderThenSearch]: [render] returns an image, so the
    batch is the result of [render], its image message, the result of
    [search]; the history gets the two results first. *)
Lemma C8_witness :
  let l := fixtures.openaiEngine fixtures.renderThenSearch in
  let o := llm.step (PS := fixtures.openaiPS) l in
  llm.result o = llm.Returned true None
  /\ map (fun m => (llms.Role m, llms.ToolCallID m)) (toolProduced (PS := fixtures.openaiPS) l)
     = [("tool", "b"); ("user", ""); ("tool", "a")]
  /\ llm.messages (llm.after o)
     = llm.messages l ++ [stepReceived (PS := fixtures.openaiPS) l]
       ++ toolMessagesFirst (toolProduced (PS := fixtures.openaiPS) l)
  /\ map (fun m => (llms.Role m, llms.ToolCallID m)) (llm.messages (llm.after o))
     = [("", ""); ("tool", "b"); ("tool", "a"); ("user", "")].
Proof.
  cbv zeta. split; [vm_compute; reflexivity|]. split; [vm_compute; reflexivity|].
  split; [|vm_compute; reflexivity].
  apply (proj1 (C8_tool_messages_first_and_image_message_added openai.Stream fixtures.openaiPS
                  (fixtures.openaiEngine fixtures.renderThenSearch)) true).
  vm_compute. reflexivity.
Defined.

(** The user message that names the image [first] and carries the
    references of [first] and of the images [rest], in order. *)
Definition namesFirstImage (first : tools.Image) (rest : list tools.Image) : llms.Message :=
  {| llms.Role := "user";
     llms.Content :=
       content.Text
         ("Here is " +:+ tools.Name first
          +:+ ". This is an automated message, not actually from the user.")
       :: map (fun image => content.ImageURL (tools.URL image)) (first :: rest);
     llms.ToolCalls := [];
     llms.ToolCallID := "" |}.

Lemma imageMessage_cons (first : tools.Image) (rest : list tools.Image) :
  llm.imageMessage (first :: rest) = [namesFirstImage first rest].
Proof.
  unfold llm.imageMessage, namesFirstImage. rewrite fold_AddImage, map_map. reflexivity.
Qed.

(** C10.  (1) For a tool call whose result carries one image or more,
    [runToolCall] returns the tool-role message and after it exactly one
    more message, of role user: its text names the first image only, and it
    carries the reference of every image of the result, in order.  (2) A
    step that returns without an error has appended that message to the
    history, for each tool call that was ready in its run. *)
Theorem C10_image_message_names_first_image_only :
  (forall (S : Type) (l : llm.LLM S) (toolbox : tools.Toolbox) (toolCall : llms.ToolCall)
          (first : tools.Image) (rest : list tools.Image),
      tools.Images (tools.Run toolbox (llms.Name toolCall) (llms.Arguments toolCall)).2
      = first :: rest ->
      exists toolMessage,
        (llm.runToolCall l toolbox toolCall).2 = [toolMessage; namesFirstImage first rest]
        /\ llms.Role toolMessage = "tool")
  /\ (forall (S : Type) (PS : llms.ProviderStream S) (l : llm.LLM S) (c : bool)
             (toolCall : llms.ToolCall) (first : tools.Image) (rest : list tools.Image),
         llm.result (llm.step l) = llm.Returned c None ->
         toolCall ∈ readyCalls (llms.yields (llms.Iter (llm.generate l))) ->
         tools.Images (tools.Run (llm.toolbox l) (llms.Name toolCall) (llms.Arguments toolCall)).2
         = first :: rest ->
         namesFirstImage first rest ∈ llm.messages (llm.after (llm.step l))).
Proof.
  split.
  - intros S l toolbox toolCall first rest Himages.
    eexists. rewrite runToolCall_messages. cbv zeta. rewrite Himages, imageMessage_cons.
    split; reflexivity.
  - intros S PS l c toolCall first rest Hres Hready Himages.
    rewrite (step_toolProduced S l c Hres).
    apply elem_of_app. right. apply elem_of_app. right.
    unfold toolMessagesFirst. apply elem_of_app. right.
    apply list_elem_of_filter. split; [discriminate|].
    unfold toolProduced. apply list_elem_of_In, in_concat.
    exists (llm.runToolCall l (llm.toolbox l) toolCall).2. split.
    + apply in_map_iff. exists toolCall. split; [reflexivity|]. by apply list_elem_of_In.
    + rewrite runToolCall_messages. cbv zeta. rewrite Himages, imageMessage_cons.
      right. left. reflexivity.
Qed.

(** The tool [plot] returns two images: the message names the first,
    [chart.png], and carries both.  The step over [renderThenSearch] appends
    the message for the image of [render]. *)
Lemma C10_witness :
  (exists toolMessage,
      (llm.runToolCall (fixtures.openaiEngine []) fixtures.plotter
         {| llms.ID := "p"; llms.Name := "plot"; llms.Arguments := "{}" |}).2
      = [toolMessage; namesFirstImage fixtures.chart [fixtures.legend]]
      /\ llms.Role toolMessage = "tool")
  /\ namesFirstImage fixtures.chart [fixtures.legend]
     = {| llms.Role := "user";
          llms.Content :=
            [content.Text
               "Here is chart.png. This is an automated message, not actually from the user.";
             content.ImageURL "data:image/png;base64,AAAA";
             content.ImageURL "data:image/png;base64,BBBB"];
          llms.ToolCalls := []; llms.ToolCallID := "" |}
  /\ namesFirstImage fixtures.chart []
     ∈ llm.messages
         (llm.after (llm.step (PS := fixtures.openaiPS)
                       (fixtures.openaiEngine fixtures.renderThenSearch))).
Proof.
  split; [|split].
  - apply (proj1 C10_image_message_names_first_image_only openai.Stream
             (fixtures.openaiEngine []) fixtures.plotter
             {| llms.ID := "p"; llms.Name := "plot"; llms.Arguments := "{}" |}
             fixtures.chart [fixtures.legend]).
    reflexivity.
  - reflexivity.
  - apply (proj2 C10_image_message_names_first_image_only openai.Stream fixtures.openaiPS
             (fixtures.openaiEngine fixtures.renderThenSearch) true
             {| llms.ID := "b"; llms.Name := "render"; llms.Arguments := "{}" |}
             fixtures.chart []).
    + vm_compute. reflexivity.
    + vm_compute. left.
    + reflexivity.
Defined.

(** ** When the tool calls run (C2) *)

(** The reading of the log the specification gives: no tool call runs before
    a message is appended to the history (the first message a step appends is
    the decoder's [Message()]). *)
Fixpoint runsOnlyAfterAppend (log : list llm.Event) : bool :=
  match log with
  | [] => true
  | llm.Appended _ :: _ => true
  | llm.Ran _ :: _ => false
  | _ :: rest => runsOnlyAfterAppend rest
  end.

Definition isAppended (e : llm.Event) : Prop :=
  match e with llm.Appended _ => True | _ => False end.

Section EngineOrder.

Variable S : Type.
Context {PS : llms.ProviderStream S}.

Lemma runToolCall_events (l : llm.LLM S) (toolbox : tools.Toolbox) (toolCall : llms.ToolCall) :
  llm.Ran toolCall ∈ (llm.runToolCall l toolbox toolCall).1
  /\ Forall (fun e => ~ isAppended e) (llm.runToolCall l toolbox toolCall).1.
Proof.
  unfold llm.runToolCall.
  destruct (tools.Run toolbox (llms.Name toolCall) (llms.Arguments toolCall)) as [statuses result].
  simpl. split.
  - apply elem_of_app. right. apply list_elem_of_here.
  - apply Forall_app. split.
    + case_decide; [constructor|]. apply Forall_forall. intros e He.
      apply list_elem_of_fmap in He as (m & -> & _). simpl. tauto.
    + constructor; [simpl; tauto|]. apply Forall_app. split.
      * apply Forall_forall. intros e He.
        apply list_elem_of_fmap in He as (m & -> & _). simpl. tauto.
      * repeat constructor. simpl. tauto.
Qed.

(** The loop over the statuses appends nothing to the history. *)
Lemma drain_appends_nothing (l : llm.LLM S) ys acc :
  Forall (fun e => ~ isAppended e) (llm.events (llm.drain l ys acc)).
Proof.
  revert acc. induction ys as [|[status stream] rest IH]; intros acc; simpl.
  - constructor.
  - destruct status; simpl.
    + constructor; [simpl; tauto | apply IH].
    + destruct (tools.Get _ _); simpl; [|constructor].
      constructor; [simpl; tauto | apply IH].
    + apply IH.
    + destruct (llm.runToolCall l (llm.toolbox l) (llms.streamToolCall stream))
        as [evs msgs] eqn:Hrun. simpl.
      apply Forall_app. split; [|apply IH].
      pose proof (runToolCall_events l (llm.toolbox l) (llms.streamToolCall stream)) as [_ H].
      by rewrite Hrun in H.
Qed.

(** The loop handles the statuses in order: what it does for a status comes
    after what it did for the statuses before it. *)
Lemma drain_app (l : llm.LLM S) pre post acc :
  llm.drain l (pre ++ post) acc
  = match llm.panicked (llm.drain l pre acc) with
    | Some p => llm.drain l pre acc
    | None =>
        let d := llm.drain l post (llm.toolMessages (llm.drain l pre acc)) in
        {| llm.events := llm.events (llm.drain l pre acc) ++ llm.events d;
           llm.toolMessages := llm.toolMessages d;
           llm.panicked := llm.panicked d |}
    end.
Proof.
  revert acc. induction pre as [|[status stream] pre IH]; intros acc; simpl.
  - by destruct (llm.drain l post acc).
  - destruct status; simpl.
    + rewrite IH. destruct (llm.panicked (llm.drain l pre acc)) eqn:Hp; simpl.
      * by rewrite Hp.
      * reflexivity.
    + destruct (tools.Get _ _); simpl; [|reflexivity].
      rewrite IH. destruct (llm.panicked (llm.drain l pre acc)) eqn:Hp; simpl.
      * by rewrite Hp.
      * reflexivity.
    + apply IH.
    + destruct (llm.runToolCall l (llm.toolbox l) (llms.streamToolCall stream))
        as [evs msgs]. simpl.
      rewrite IH. destruct (llm.panicked (llm.drain l pre (acc ++ msgs))) eqn:Hp; simpl.
      * by rewrite Hp.
      * by rewrite <- app_assoc.
Qed.

Lemma drain_ready (l : llm.LLM S) stream post acc :
  llm.drain l ((llms.StreamStatusToolCallReady, stream) :: post) acc
  = let run := llm.runToolCall l (llm.toolbox l) (llms.streamToolCall stream) in
    let d := llm.drain l post (acc ++ run.2) in
    {| llm.events := run.1 ++ llm.events d;
       llm.toolMessages := llm.toolMessages d;
       llm.panicked := llm.panicked d |}.
Proof.
  simpl. by destruct (llm.runToolCall l (llm.toolbox l) (llms.streamToolCall stream)).
Qed.

End EngineOrder.

(** The tool call of the [ToolCallReady] status that stands between [pre]
    and [post] is run inline: the log of the step is what the loop did for
    [pre], then the run of the tool call, then what the loop did for [post],
    and only then the appends to the history, the decoder's [Message()]
    first and the tool messages after it.  Nothing is appended before. *)
Definition runsInline {S : Type} {PS : llms.ProviderStream S} (l : llm.LLM S)
    (pre : list (llms.StreamStatus * S)) (stream : S)
    (post : list (llms.StreamStatus * S)) : Prop :=
  let before := llm.drain l pre [] in
  let run := llm.runToolCall l (llm.toolbox l) (llms.streamToolCall stream) in
  let later := llm.drain l post (llm.toolMessages before ++ run.2) in
  llm.log (llm.step l)
  = (llm.events before ++ run.1 ++ llm.events later)
    ++ llm.Appended (stepReceived l) :: map llm.Appended (toolMessagesFirst (stepBatch l))
  /\ llm.Ran (llms.streamToolCall stream) ∈ run.1
  /\ Forall (fun e => ~ isAppended e) (llm.events before ++ run.1 ++ llm.events later).

(** C2, as the code has it.  In a step that completes, the tool call of each
    [ToolCallReady] status is run inline, when the loop over the decoder's
    statuses reaches that status: after what the loop did for the statuses
    before it, before what it does for the statuses after it, and before
    the decoder's [Message()] is appended to the history.  Nothing is
    appended while the loop runs; only the messages the tool calls produced
    wait, and are appended after [Message()]. *)
Theorem C2_tool_calls_run_inline
    (S : Type) (PS : llms.ProviderStream S) (l : llm.LLM S) (c : bool)
    (pre post : list (llms.StreamStatus * S)) (stream : S) :
  llm.result (llm.step l) = llm.Returned c None ->
  llms.yields (llms.Iter (llm.generate l))
  = pre ++ (llms.StreamStatusToolCallReady, stream) :: post ->
  runsInline l pre stream post.
Proof.
  intros Hres Hys. unfold runsInline.
  set (before := llm.drain l pre []).
  set (run := llm.runToolCall l (llm.toolbox l) (llms.streamToolCall stream)).
  set (later := llm.drain l post (llm.toolMessages before ++ run.2)).
  assert (Hdrain : llm.drain l (llms.yields (llms.Iter (llm.generate l))) []
                   = {| llm.events := llm.events before ++ run.1 ++ llm.events later;
                        llm.toolMessages := llm.toolMessages later;
                        llm.panicked := llm.panicked later |}
                     /\ llm.panicked (llm.drain l (llms.yields (llms.Iter (llm.generate l))) [])
                        = None).
  { revert Hres. unfold llm.step. cbv zeta.
    destruct (llms.Err (llm.generate l)); [discriminate|].
    destruct (llm.panicked (llm.drain l (llms.yields (llms.Iter (llm.generate l))) []))
      eqn:Hp; [discriminate|].
    intros _. split; [|reflexivity].
    rewrite Hys, drain_app in Hp |- *. fold before in Hp |- *.
    destruct (llm.panicked before) eqn:Hb; [congruence|].
    rewrite drain_ready. reflexivity. }
  destruct Hdrain as [Hdrain Hnone].
  split; [|split].
  - revert Hres. unfold llm.step, stepReceived, stepBatch. cbv zeta.
    destruct (llms.Err (llm.generate l)); [discriminate|].
    rewrite Hnone.
    destruct (llms.exit (llms.Iter (llm.generate l))); [|discriminate].
    intros _. simpl. rewrite SortStableFunc_toolFirst, Hdrain. reflexivity.
  - apply runToolCall_events.
  - pose proof (drain_appends_nothing S l (llms.yields (llms.Iter (llm.generate l))) []) as H.
    by rewrite Hdrain in H.
Qed.

Lemma C2_witness :
  runsInline (PS := fixtures.anthropicPS) (fixtures.anthropicEngine fixtures.toolThenText)
    (take 3 fixtures.toolThenTextYields) fixtures.toolThenTextReady
    (drop 4 fixtures.toolThenTextYields).
Proof.
  apply (C2_tool_calls_run_inline _ fixtures.anthropicPS
           (fixtures.anthropicEngine fixtures.toolThenText) true).
  - vm_compute. reflexivity.
  - vm_compute. reflexivity.
Defined.

(** C2 as it is stated fails.  In the step over [toolThenText] the tool call
    runs (third event) before the text that follows it in the turn is
    received (sixth event) and before the decoder's [Message()] is appended
    (seventh event). *)
Lemma C2_counterexample :
  let o := llm.step (PS := fixtures.anthropicPS)
             (fixtures.anthropicEngine fixtures.toolThenText) in
  llm.result o = llm.Returned true None
  /\ runsOnlyAfterAppend (llm.log o) = false
  /\ llm.log o !! 2%nat
     = Some (llm.Ran {| llms.ID := "a"; llms.Name := "search"; llms.Arguments := "{}" |})
  /\ llm.log o !! 5%nat = Some (llm.Sent (llms.TextUpdate "Bye"))
  /\ llm.log o !! 6%nat
     = Some (llm.Appended
               {| llms.Role := "assistant";
                  llms.Content := [content.Text "HelloBye"];
                  llms.ToolCalls :=
                    [{| llms.ID := "a"; llms.Name := "search"; llms.Arguments := "{}" |}];
                  llms.ToolCallID := "" |}).
Proof. vm_compute. repeat split; reflexivity. Qed.

(** ** Errors of a step (C1, C3) *)

Section EngineErrors.

Variable S : Type.
Context {PS : llms.ProviderStream S}.

(** The only error [step] returns is the one the stream holds before the
    loop over its statuses starts. *)
Lemma step_error_only_from_generate (l : llm.LLM S) (c : bool) (e : error) :
  llm.result (llm.step l) = llm.Returned c (Some e) ->
  exists e0, llms.Err (llm.generate l) = Some e0
             /\ e = Wrap "LLM returned error response" e0 /\ c = false.
Proof.
  unfold llm.step. cbv zeta.
  destruct (llms.Err (llm.generate l)) as [e0|]; simpl.
  - intros [= <- <-]. eauto.
  - destruct (llm.panicked _); [discriminate|].
    destruct (llms.exit _); discriminate.
Qed.

(** A [ToolCallBegin] status whose tool the toolbox does not hold stops the
    loop with a panic. *)
Lemma drain_unknown_tool (l : llm.LLM S) pre stream post acc :
  llm.panicked (llm.drain l pre acc) = None ->
  tools.Get (llm.toolbox l) (llms.Name (llms.streamToolCall stream)) = None ->
  llm.panicked (llm.drain l (pre ++ (llms.StreamStatusToolCallBegin, stream) :: post) acc)
  = Some (ToolNotFound (llms.Name (llms.streamToolCall stream))).
Proof.
  intros Hpre Hget. rewrite drain_app, Hpre. simpl. by rewrite Hget.
Qed.

End EngineErrors.

(** The updates a log sends that are [ErrorUpdate]s. *)
Definition errorUpdates (log : list llm.Event) : list error :=
  omap (fun e => match e with llm.Sent (llms.ErrorUpdate err) => Some err | _ => None end) log.

(** C1 fails on the code.  The response [truncatedAfterText] has a malformed
    record after the text [Hello].  The decoder does its part: [Err()] is set
    and no status follows.  The step does not look at [Err()] again: it
    returns no error, appends the partial message to the history, and the
    chat call closes the channel without an [ErrorUpdate].  With
    [truncatedAfterCall] the step even asks for another step. *)
Theorem C1_decode_error_not_surfaced :
  let l := fixtures.openaiEngine fixtures.truncatedAfterText in
  let r := openai.Iter fixtures.openaiUnmarshal (llm.generate l) in
  let o := llm.step (PS := fixtures.openaiPS) l in
  let partial :=
    {| llms.Role := "assistant"; llms.Content := [content.Text "Hello"];
       llms.ToolCalls := []; llms.ToolCallID := "" |} in
  let chat :=
    llm.ChatUsingContent (PS := fixtures.openaiPS) 3 false l (content.FromText "Hi") in
  openai.Err (llms.final r)
  = Some (Wrap "error unmarshalling chunk" (UnmarshalError fixtures.oaTruncated))
  /\ map fst (llms.yields r) = [llms.StreamStatusText]
  /\ llm.result o = llm.Returned false None
  /\ llm.log o = [llm.Sent (llms.TextUpdate "Hello"); llm.Appended partial]
  /\ llm.messages (llm.after o) = [partial]
  /\ llm.chatEnd chat = llm.Closed
  /\ errorUpdates (llm.chatLog chat) = []
  /\ llm.result (llm.step (PS := fixtures.openaiPS)
                   (fixtures.openaiEngine fixtures.truncatedAfterCall))
     = llm.Returned true None.
Proof. vm_compute. repeat split; reflexivity. Qed.

(** C3 fails on the code.  The response [callsMissingTool] names the tool
    [missing], which the toolbox does not hold.  The step panics at the
    [ToolCallBegin] status: the process crashes, after the [TextUpdate] of the
    text before it, and no [ErrorUpdate] is sent. *)
Theorem C3_unknown_tool_panics :
  let l := fixtures.openaiEngine fixtures.callsMissingTool in
  let o := llm.step (PS := fixtures.openaiPS) l in
  let chat :=
    llm.ChatUsingContent (PS := fixtures.openaiPS) 3 false l (content.FromText "Hi") in
  tools.Get (llm.toolbox l) "missing" = None
  /\ llm.result o = llm.Crashed (ToolNotFound "missing")
  /\ llm.log o = [llm.Sent (llms.TextUpdate "Hello")]
  /\ llm.chatEnd chat = llm.ProcessCrashed (ToolNotFound "missing")
  /\ errorUpdates (llm.chatLog chat) = [].
Proof. vm_compute. repeat split; reflexivity. Qed.

(** ** Usage counters (C4) *)

Definition sumZ (l : list Z) : Z := foldr Z.add 0%Z l.

Lemma wrapInt_add_l (a b : Z) : wrapInt (wrapInt a + b) = wrapInt (a + b).
Proof.
  unfold wrapInt.
  replace ((a + 2 ^ 63) mod 2 ^ 64 - 2 ^ 63 + b + 2 ^ 63)%Z
    with ((a + 2 ^ 63) mod 2 ^ 64 + b)%Z by lia.
  rewrite Zplus_mod_idemp_l. do 2 f_equal. lia.
Qed.

Lemma wrapInt_idemp (a : Z) : wrapInt (wrapInt a) = wrapInt a.
Proof.
  pose proof (wrapInt_add_l a 0) as H. by rewrite !Z.add_0_r in H.
Qed.

(** Adding the reports one by one in [int] arithmetic gives their sum,
    wrapped once. *)
Lemma foldl_addInt (l : list Z) (a : Z) :
  wrapInt a = a -> foldl addInt a l = wrapInt (a + sumZ l).
Proof.
  revert a. induction l as [|x l IH]; intros a Ha; simpl.
  - by rewrite Z.add_0_r.
  - rewrite IH by apply wrapInt_idemp.
    unfold addInt. rewrite wrapInt_add_l. f_equal. lia.
Qed.

Section AnthropicUsage.

Variable unmarshal : string -> option anthropic.streamEvent.

(** The usage report a line of the typed-event framing carries: the usage of
    a [message_start] or of a [message_delta] record. *)
Definition anthropicUsageReport (text : string) : option anthropic.eventUsage :=
  match CutPrefix (bufio.dropCR text) "data: " with
  | None => None
  | Some line =>
      match unmarshal line with
      | None => None
      | Some event =>
          if decide (anthropic.Type_ event = "message_start")
          then anthropic.msgUsage (anthropic.evMessage event)
          else if decide (anthropic.Type_ event = "message_delta")
          then anthropic.deltaUsage (anthropic.evDelta event)
          else None
      end
  end.

Definition addReport (counters : Z * Z) (u : anthropic.eventUsage) : Z * Z :=
  (addInt counters.1 (anthropic.InputTokens u), addInt counters.2 (anthropic.OutputTokens u)).

Lemma anthropic_addUsage_stream u s :
  anthropic.stream (anthropic.addUsage u s) = anthropic.stream s.
Proof. destruct u; reflexivity. Qed.

Lemma anthropic_addUsage_Usage u s :
  anthropic.Usage (anthropic.addUsage u s)
  = match u with Some u => addReport (anthropic.Usage s) u | None => anthropic.Usage s end.
Proof. destruct u; reflexivity. Qed.

Lemma anthropic_lineStep_usage s text :
  let o := anthropic.lineStep unmarshal s (bufio.dropCR text) in
  anthropic.stream (anthropic.state o) = anthropic.stream s
  /\ anthropic.Usage (anthropic.state o)
     = match anthropicUsageReport text with
       | Some u => addReport (anthropic.Usage s) u
       | None => anthropic.Usage s
       end.
Proof.
  unfold anthropic.lineStep, anthropicUsageReport. cbv zeta.
  destruct (CutPrefix (bufio.dropCR text) "data: ") as [line|]; [|split; reflexivity].
  destruct (unmarshal line) as [event|]; [|split; reflexivity].
  unfold anthropic.eventStep. cbv zeta.
  repeat case_decide; try congruence;
    repeat case_match; simpl;
    rewrite ?anthropic_addUsage_stream; (split; [reflexivity|]);
    try reflexivity;
    try (unfold anthropic.Usage; simpl;
         match goal with |- context [anthropic.addUsage ?u ?s'] =>
           destruct u; reflexivity end).
Qed.

(** The loop reads a first part of the body and adds up the reports of the
    lines it read. *)
Lemma anthropic_scanLoop_usage body s :
  let o := anthropic.scanLoop unmarshal body s in
  exists read,
    body = read ++ anthropic.stream (anthropic.state o)
    /\ anthropic.Usage (anthropic.state o)
       = foldl addReport (anthropic.Usage s) (omap anthropicUsageReport read).
Proof.
  revert s. induction body as [|text rest IH]; intros s; simpl.
  - exists []. split; reflexivity.
  - destruct (bufio.tooLong text); simpl; [exists []; split; reflexivity|].
    destruct (anthropic_lineStep_usage (anthropic.withStream rest s) text) as [Hst Hus].
    cbv zeta in Hst, Hus. simpl in Hst.
    assert (Hone : foldl addReport (anthropic.Usage s) (omap anthropicUsageReport [text])
                   = anthropic.Usage
                       (anthropic.state
                          (anthropic.lineStep unmarshal (anthropic.withStream rest s) (bufio.dropCR text)))).
    { rewrite Hus. simpl. destruct (anthropicUsageReport text); reflexivity. }
    destruct (anthropic.flow (anthropic.lineStep unmarshal (anthropic.withStream rest s) (bufio.dropCR text)));
      try (exists [text]; rewrite Hst; split; [reflexivity | by rewrite Hone]).
    destruct (IH (anthropic.state
                    (anthropic.lineStep unmarshal (anthropic.withStream rest s) (bufio.dropCR text))))
      as (read & Hbody & Husage).
    exists (text :: read). simpl. split; [by rewrite <- Hbody|].
    rewrite Husage, <- Hone. simpl.
    destruct (anthropicUsageReport text); reflexivity.
Qed.

Lemma foldl_addReport (reports : list anthropic.eventUsage) (a b : Z) :
  foldl addReport (a, b) reports
  = (foldl addInt a (anthropic.InputTokens <$> reports),
     foldl addInt b (anthropic.OutputTokens <$> reports)).
Proof.
  revert a b. induction reports as [|u reports IH]; intros a b; simpl; [reflexivity|].
  unfold addReport at 2. simpl. apply IH.
Qed.

End AnthropicUsage.

Section OpenAIUsage.

Variable unmarshal : string -> option openai.chatCompletionChunk.

(** The usage report a line of the index-delta framing carries. *)
Definition openaiUsageReport (text : string) : option openai.usage :=
  match CutPrefix (bufio.dropCR text) "data: " with
  | None => None
  | Some line =>
      if decide (line = "[DONE]") then None
      else match unmarshal line with
           | None => None
           | Some chunk => openai.chunkUsage chunk
           end
  end.

Lemma openai_deltaStep_usage s delta :
  let o := openai.deltaStep s delta in
  openai.stream (openai.state o) = openai.stream s
  /\ openai.streamUsage (openai.state o) = openai.streamUsage s.
Proof.
  unfold openai.deltaStep, openai.toolCallStep. cbv zeta.
  repeat case_match; simpl; split; reflexivity.
Qed.

Lemma openai_lineStep_usage s text :
  let o := openai.lineStep unmarshal s (bufio.dropCR text) in
  openai.stream (openai.state o) = openai.stream s
  /\ openai.streamUsage (openai.state o)
     = match openaiUsageReport text with
       | Some u => Some u
       | None => openai.streamUsage s
       end.
Proof.
  unfold openai.lineStep, openaiUsageReport. cbv zeta.
  destruct (CutPrefix (bufio.dropCR text) "data: ") as [line|]; [|split; reflexivity].
  destruct (decide (line = "[DONE]")); [split; reflexivity|].
  destruct (unmarshal line) as [chunk|]; [|split; reflexivity].
  destruct (openai.Choices chunk) as [|choice others].
  - destruct (openai.chunkUsage chunk); split; reflexivity.
  - match goal with |- context [openai.deltaStep ?s' ?d] =>
      destruct (openai_deltaStep_usage s' d) as [H1 H2] end.
    cbv zeta in H1, H2. rewrite H1, H2.
    destruct (openai.chunkUsage chunk); split; reflexivity.
Qed.

Definition lastReport (start : option openai.usage) (reports : list openai.usage)
    : option openai.usage :=
  match last reports with Some u => Some u | None => start end.

Lemma lastReport_cons start u reports :
  lastReport start (u :: reports) = lastReport (Some u) reports.
Proof.
  unfold lastReport. destruct reports as [|u' reports]; [reflexivity|].
  rewrite last_cons. destruct (last (u' :: reports)) eqn:H; [reflexivity|].
  apply last_None in H. discriminate.
Qed.

(** The loop reads a first part of the body and keeps the last report of the
    lines it read. *)
Lemma openai_scanLoop_usage body s :
  let o := openai.scanLoop unmarshal body s in
  exists read,
    body = read ++ openai.stream (openai.state o)
    /\ openai.streamUsage (openai.state o)
       = lastReport (openai.streamUsage s) (omap openaiUsageReport read).
Proof.
  revert s. induction body as [|text rest IH]; intros s; simpl.
  - exists []. split; reflexivity.
  - destruct (bufio.tooLong text); simpl; [exists []; split; reflexivity|].
    destruct (openai_lineStep_usage (openai.withStream rest s) text) as [Hst Hus].
    cbv zeta in Hst, Hus. simpl in Hst, Hus.
    assert (Hone : lastReport (openai.streamUsage s) (omap openaiUsageReport [text])
                   = openai.streamUsage
                       (openai.state (openai.lineStep unmarshal (openai.withStream rest s) (bufio.dropCR text)))).
    { rewrite Hus. simpl. destruct (openaiUsageReport text); reflexivity. }
    destruct (openai.flow (openai.lineStep unmarshal (openai.withStream rest s) (bufio.dropCR text)));
      try (exists [text]; rewrite Hst; split; [reflexivity | by rewrite Hone]).
    destruct (IH (openai.state (openai.lineStep unmarshal (openai.withStream rest s) (bufio.dropCR text))))
      as (read & Hbody & Husage).
    exists (text :: read). simpl. split; [by rewrite <- Hbody|].
    rewrite Husage, <- Hone. simpl.
    destruct (openaiUsageReport text); [|reflexivity].
    exact (eq_sym (lastReport_cons _ _ _)).
Qed.

End OpenAIUsage.

Lemma wrapInt_in_range (z : Z) : (- 2 ^ 63 <= z < 2 ^ 63)%Z -> wrapInt z = z.
Proof. intros Hz. unfold wrapInt. rewrite Z.mod_small by lia. lia. Qed.

(** The counters of the typed-event decoder after a run over [body]: the
    loop read the lines [read] of the body, and each counter is the sum of
    the reports those lines carry, as an [int] holds it. *)
Definition sumsReports (unmarshal : string -> option anthropic.streamEvent)
    (model : string) (body : list string) : Prop :=
  let s := anthropic.newStream model body in
  exists read,
    body = read ++ anthropic.stream (anthropic.state (anthropic.scanLoop unmarshal body s))
    /\ let reports := omap (anthropicUsageReport unmarshal) read in
       anthropic.Usage (llms.final (anthropic.Iter unmarshal s))
       = (wrapInt (sumZ (anthropic.InputTokens <$> reports)),
          wrapInt (sumZ (anthropic.OutputTokens <$> reports))).

(** The counters of the index-delta decoder after a run over [body]: the
    loop read the lines [read] of the body, and the counters are those of the
    last report these lines carry, zero when they carry none. *)
Definition keepsLastReport (unmarshal : string -> option openai.chatCompletionChunk)
    (model : string) (body : list string) : Prop :=
  let s := openai.newStream model body in
  exists read,
    body = read ++ openai.stream (openai.state (openai.scanLoop unmarshal body s))
    /\ openai.Usage (llms.final (openai.Iter unmarshal s))
       = match last (omap (openaiUsageReport unmarshal) read) with
         | Some u => (openai.PromptTokens u, openai.CompletionTokens u)
         | None => (0, 0)%Z
         end.

(** C4, as the code has it.  The typed-event decoder adds every usage report
    it reads to its counters: [Usage()] is the sum of the reports.  The
    index-delta decoder replaces its usage with every report it reads:
    [Usage()] is the last report. *)
Theorem C4_usage_sum_or_last :
  (forall (unmarshal : string -> option anthropic.streamEvent) (model : string)
          (body : list string), sumsReports unmarshal model body)
  /\ (forall (unmarshal : string -> option openai.chatCompletionChunk) (model : string)
             (body : list string), keepsLastReport unmarshal model body).
Proof.
  split; intros unmarshal model body.
  - unfold sumsReports. cbv zeta.
    destruct (anthropic_scanLoop_usage unmarshal body (anthropic.newStream model body))
      as (read & Hbody & Husage).
    exists read. split; [exact Hbody|].
    unfold anthropic.Iter. simpl. unfold anthropic.Usage in *. simpl in *.
    rewrite Husage, foldl_addReport, !foldl_addInt by reflexivity.
    reflexivity.
  - unfold keepsLastReport. cbv zeta.
    destruct (openai_scanLoop_usage unmarshal body (openai.newStream model body))
      as (read & Hbody & Husage).
    exists read. split; [exact Hbody|].
    assert (Hfinal : openai.Usage (llms.final (openai.Iter unmarshal (openai.newStream model body)))
                     = openai.Usage
                         (openai.state
                            (openai.scanLoop unmarshal body (openai.newStream model body)))).
    { unfold openai.Iter. simpl.
      destruct (openai.flow _); reflexivity. }
    rewrite Hfinal. unfold openai.Usage. rewrite Husage. unfold lastReport. simpl.
    destruct (last _); reflexivity.
Qed.

(** C4 as it is stated fails for the index-delta decoder.  A response with
    two usage reports, (10, 5) and (3, 4): [Usage()] is the last report,
    (3, 4), and not their sum, (13, 9). *)
Lemma C4_counterexample :
  let body := [fixtures.data fixtures.oaUsage1; fixtures.data fixtures.oaUsage2] in
  let r := openai.Iter fixtures.openaiUnmarshal (openai.newStream "gpt-4o" body) in
  let reports := omap (openaiUsageReport fixtures.openaiUnmarshal) body in
  llms.exit r = Completed
  /\ openai.Err (llms.final r) = None
  /\ ((fun u => (openai.PromptTokens u, openai.CompletionTokens u)) <$> reports)
     = [(10, 5); (3, 4)]%Z
  /\ openai.Usage (llms.final r) = (3, 4)%Z
  /\ openai.Usage (llms.final r)
     <> (sumZ (openai.PromptTokens <$> reports), sumZ (openai.CompletionTokens <$> reports)).
Proof. vm_compute. repeat split; try reflexivity. discriminate. Qed.

Example usage_toolThenText :
  anthropic.Usage
    (llms.final (anthropic.Iter fixtures.anthropicUnmarshal
                   (anthropic.newStream "claude-3-5-sonnet" fixtures.toolThenText)))
  = (25, 16)%Z.
Proof. vm_compute. reflexivity. Qed.

(** ** The price lookup (C5) *)

(** The lookup the specification describes, over a price table: the entry of
    the model identifier itself; without one, the entry of the longest key
    that is a prefix of the identifier; without one, nothing. *)
Definition longer {P : Type} (best : option (string * P)) (entry : string * P)
    : option (string * P) :=
  match best with
  | Some b => if (String.length b.1 <? String.length entry.1)%nat then Some entry else best
  | None => Some entry
  end.

Definition knownPrefixes {P : Type} (table : gmap string P) (m : string)
    : list (string * P) :=
  filter (fun entry => HasPrefix m entry.1 = true) (map_to_list table).

Definition lookupPrice {P : Type} (table : gmap string P) (m : string) : option P :=
  match table !! m with
  | Some p => Some p
  | None => snd <$> foldl longer None (knownPrefixes table m)
  end.

Lemma HasPrefix_cons c m d p :
  HasPrefix (String c m) (String d p) = true <-> c = d /\ HasPrefix m p = true.
Proof.
  unfold HasPrefix. simpl. destruct (Ascii.eqb_spec d c) as [->|Hne].
  - tauto.
  - split; [discriminate|]. intros [-> _]. contradiction.
Qed.

(** Two prefixes of one string: one is a prefix of the other. *)
Lemma HasPrefix_comparable (m a b : string) :
  HasPrefix m a = true -> HasPrefix m b = true ->
  HasPrefix b a = true \/ HasPrefix a b = true.
Proof.
  revert a b. induction m as [|c m IH]; intros a b Ha Hb.
  - destruct a; [left; by destruct b | discriminate].
  - destruct a as [|x a]; [left; by destruct b|].
    destruct b as [|y b]; [right; reflexivity|].
    apply HasPrefix_cons in Ha as [-> Ha]. apply HasPrefix_cons in Hb as [-> Hb].
    destruct (IH a b Ha Hb); [left | right]; apply HasPrefix_cons; auto.
Qed.

Lemma rangePrefix_head (order : list (string * anthropic.pricing)) (m : string) :
  anthropic.rangePrefix order m
  = snd <$> head (filter (fun entry => HasPrefix m entry.1 = true) order).
Proof.
  induction order as [|[k p] order IH]; simpl; [reflexivity|].
  destruct (HasPrefix m k) eqn:Hk.
  - rewrite filter_cons_True by exact Hk. reflexivity.
  - rewrite filter_cons_False by (simpl; congruence). exact IH.
Qed.

(** No key of the typed-event decoder's price table is a prefix of another
    key. *)
Lemma anthropic_keys_prefix_free (k1 k2 : string) (p1 p2 : anthropic.pricing) :
  anthropic.modelPricing !! k1 = Some p1 ->
  anthropic.modelPricing !! k2 = Some p2 ->
  HasPrefix k2 k1 = true -> k1 = k2.
Proof.
  assert (Hkeys : forall k p, anthropic.modelPricing !! k = Some p ->
            k ∈ ["claude-3-7-sonnet"; "claude-3-5-sonnet"; "claude-3-5-haiku";
                 "claude-3-opus"; "claude-3-sonnet"; "claude-3-haiku"]).
  { intros k p Hk. unfold anthropic.modelPricing in Hk.
    apply elem_of_list_to_map_2 in Hk.
    apply (list_elem_of_fmap_2 fst) in Hk. exact Hk. }
  intros H1 H2. apply Hkeys in H1, H2. clear Hkeys.
  repeat (apply elem_of_cons in H1 as [->|H1]); [..|by apply elem_of_nil in H1];
    repeat (apply elem_of_cons in H2 as [->|H2]); try (by apply elem_of_nil in H2);
    first [ intros _; reflexivity | intros H; vm_compute in H; discriminate H ].
Qed.

(** At most one entry of the table has a key that is a prefix of a given
    model identifier. *)
Lemma anthropic_knownPrefixes_unique (m : string) :
  knownPrefixes anthropic.modelPricing m = []
  \/ exists entry, knownPrefixes anthropic.modelPricing m = [entry].
Proof.
  assert (Hnodup : NoDup (knownPrefixes anthropic.modelPricing m)).
  { apply NoDup_filter, NoDup_map_to_list. }
  destruct (knownPrefixes anthropic.modelPricing m) as [|[k1 p1] [|[k2 p2] rest]] eqn:Hk;
    [by left | right; eauto |].
  exfalso.
  assert (H1 : (k1, p1) ∈ knownPrefixes anthropic.modelPricing m)
    by (rewrite Hk; apply list_elem_of_here).
  assert (H2 : (k2, p2) ∈ knownPrefixes anthropic.modelPricing m)
    by (rewrite Hk; apply list_elem_of_further, list_elem_of_here).
  apply list_elem_of_filter in H1 as [Hp1 H1], H2 as [Hp2 H2].
  apply elem_of_map_to_list in H1, H2. simpl in Hp1, Hp2.
  assert (k1 = k2) as ->.
  { destruct (HasPrefix_comparable m k1 k2 Hp1 Hp2) as [H|H].
    - exact (anthropic_keys_prefix_free _ _ _ _ H1 H2 H).
    - symmetry. exact (anthropic_keys_prefix_free _ _ _ _ H2 H1 H). }
  assert (p1 = p2) as -> by congruence.
  apply NoDup_cons in Hnodup as [Hnotin _]. apply Hnotin, list_elem_of_here.
Qed.

(** Whatever the order of the range over the table, the loop of [CostUSD]
    finds what the lookup of the specification finds. *)
Lemma rangePrefix_lookup (order : list (string * anthropic.pricing)) (m : string) :
  order ≡ₚ map_to_list anthropic.modelPricing ->
  anthropic.rangePrefix order m
  = snd <$> foldl longer None (knownPrefixes anthropic.modelPricing m).
Proof.
  intros Hperm. rewrite rangePrefix_head.
  assert (Hf : filter (fun entry => HasPrefix m entry.1 = true) order
               ≡ₚ knownPrefixes anthropic.modelPricing m).
  { unfold knownPrefixes. by rewrite Hperm. }
  destruct (anthropic_knownPrefixes_unique m) as [Hnil|[entry Hone]].
  - rewrite Hnil in Hf |- *. apply Permutation_nil_r in Hf. by rewrite Hf.
  - rewrite Hone in Hf |- *. apply Permutation_singleton_r in Hf. by rewrite Hf.
Qed.

(** C5, as the code has it.  The typed-event decoder resolves the price by
    the exact model identifier first, then by a key of the table that is a
    prefix of the identifier (there is at most one, so the order of the range
    over the table does not matter), and its cost is 0 when there is neither.
    The index-delta decoder resolves the price by the exact model identifier
    only: its cost is 0 for every identifier that is not a key of its table. *)
Theorem C5_price_lookup
    (order : list (string * anthropic.pricing)) (a : anthropic.Stream) (o : openai.Stream) :
  order ≡ₚ map_to_list anthropic.modelPricing ->
  anthropic.CostUSD order a
  = match lookupPrice anthropic.modelPricing (anthropic.model a) with
    | Some p => anthropic.costUSD p (anthropic.inputTokens a) (anthropic.outputTokens a)
    | None => 0%float
    end
  /\ openai.CostUSD o
     = match openai.modelPricing !! openai.model o with
       | Some p => openai.costUSD p (openai.Usage o).1 (openai.Usage o).2
       | None => 0%float
       end.
Proof.
  intros Hperm. split.
  - unfold anthropic.CostUSD, lookupPrice.
    destruct (anthropic.modelPricing !! anthropic.model a); [reflexivity|].
    rewrite (rangePrefix_lookup order _ Hperm). reflexivity.
  - unfold openai.CostUSD. destruct (openai.modelPricing !! openai.model o); [|reflexivity].
    by destruct (openai.Usage o).
Qed.

Lemma C5_witness :
  anthropic.CostUSD (map_to_list anthropic.modelPricing) fixtures.sonnetDated
  = match lookupPrice anthropic.modelPricing (anthropic.model fixtures.sonnetDated) with
    | Some p =>
        anthropic.costUSD p (anthropic.inputTokens fixtures.sonnetDated)
          (anthropic.outputTokens fixtures.sonnetDated)
    | None => 0%float
    end
  /\ openai.CostUSD fixtures.turboPreview
     = match openai.modelPricing !! openai.model fixtures.turboPreview with
       | Some p =>
           openai.costUSD p (openai.Usage fixtures.turboPreview).1
             (openai.Usage fixtures.turboPreview).2
       | None => 0%float
       end.
Proof. apply C5_price_lookup. reflexivity. Defined.

(** The typed-event decoder prices a dated model by the key it starts with;
    a model no key is a prefix of costs 0. *)
Example cost_sonnetDated :
  anthropic.modelPricing !! "claude-3-5-sonnet-20241022" = None
  /\ anthropic.CostUSD (map_to_list anthropic.modelPricing) fixtures.sonnetDated = 3%float
  /\ anthropic.CostUSD (map_to_list anthropic.modelPricing)
       (anthropic.withStream [] (anthropic.newStream "gemini-pro" [])) = 0%float.
Proof. vm_compute. repeat split; reflexivity. Qed.

(** C5 as it is stated fails for the index-delta decoder.  The identifier
    [gpt-4-turbo-preview] is not a key of its table and starts with the key
    [gpt-4-turbo] (10 and 30 per million tokens): for a million input tokens
    the lookup of the specification gives 10, and [CostUSD] gives 0. *)
Lemma C5_counterexample :
  let o := fixtures.turboPreview in
  let price := {| openai.inputCost := 10; openai.outputCost := 30 |} in
  openai.modelPricing !! openai.model o = None
  /\ HasPrefix (openai.model o) "gpt-4-turbo" = true
  /\ openai.modelPricing !! "gpt-4-turbo" = Some price
  /\ lookupPrice openai.modelPricing (openai.model o) = Some price
  /\ openai.costUSD price (openai.Usage o).1 (openai.Usage o).2 = 10%float
  /\ openai.CostUSD o = 0%float
  /\ openai.CostUSD o
     <> match lookupPrice openai.modelPricing (openai.model o) with
        | Some p => openai.costUSD p (openai.Usage o).1 (openai.Usage o).2
        | None => 0%float
        end.
Proof.
  cbv zeta. repeat split; try (vm_compute; reflexivity).
  intros H. apply (f_equal PrimFloat.is_zero) in H. vm_compute in H. discriminate.
Qed.

(** ** Abnormal completion (C6) *)

Section AnthropicStop.

Variable unmarshal : string -> option anthropic.streamEvent.

(** The completion reason a line signals, when it is neither an ordinary
    stop ([end_turn]) nor a stop to call tools ([tool_use]): the stop reason
    of a [message_delta] record, when it has one. *)
Definition abnormalStop (text : string) : option string :=
  match CutPrefix (bufio.dropCR text) "data: " with
  | None => None
  | Some line =>
      match unmarshal line with
      | None => None
      | Some event =>
          let reason := anthropic.StopReason (anthropic.evDelta event) in
          if decide (anthropic.Type_ event = "message_delta") then
            if decide (reason = "") then None
            else if decide (reason = "tool_use") then None
            else if decide (reason = "end_turn") then None
            else Some reason
          else None
      end
  end.

Lemma anthropic_lineStep_abnormal s text reason :
  abnormalStop text = Some reason ->
  let o := anthropic.lineStep unmarshal s (bufio.dropCR text) in
  anthropic.yielded o = []
  /\ anthropic.flow o = Return
  /\ anthropic.err (anthropic.state o) = Some (UnexpectedStopReason reason).
Proof.
  unfold abnormalStop, anthropic.lineStep. cbv zeta.
  destruct (CutPrefix (bufio.dropCR text) "data: ") as [line|]; [|discriminate].
  destruct (unmarshal line) as [event|]; [|discriminate].
  destruct (decide (anthropic.Type_ event = "message_delta")) as [Ht|]; [|discriminate].
  repeat case_decide; try discriminate. intros [= <-].
  unfold anthropic.eventStep. cbv zeta. rewrite Ht.
  repeat (case_decide; [discriminate|]).
  destruct (decide ("message_delta" = "message_delta")); [|contradiction].
  rewrite !bool_decide_eq_false_2 by assumption. simpl. auto.
Qed.

(** When the loop reaches a line that signals an abnormal completion, it
    returns there: the error is set and the lines after it are not read. *)
Lemma anthropic_scanLoop_abnormal pre text post reason s :
  abnormalStop text = Some reason ->
  let o := anthropic.scanLoop unmarshal (pre ++ text :: post) s in
  length (anthropic.stream (anthropic.state o)) <= length post ->
  anthropic.flow o = Return
  /\ anthropic.err (anthropic.state o) = Some (UnexpectedStopReason reason)
  /\ anthropic.stream (anthropic.state o) = post.
Proof.
  intros Hab. revert s. induction pre as [|t pre IH]; intros s; simpl.
  - destruct (bufio.tooLong text); simpl; [lia|].
    destruct (anthropic_lineStep_abnormal (anthropic.withStream post s) text reason Hab)
      as (_ & Hfl & Herr).
    destruct (anthropic_lineStep_usage unmarshal (anthropic.withStream post s) text)
      as [Hst _].
    cbv zeta in Hfl, Herr, Hst. rewrite Hfl. auto.
  - destruct (bufio.tooLong t); simpl; [rewrite length_app; simpl; lia|].
    destruct (anthropic_lineStep_usage unmarshal
                (anthropic.withStream (pre ++ text :: post) s) t) as [Hst _].
    cbv zeta in Hst. simpl in Hst.
    destruct (anthropic.flow
                (anthropic.lineStep unmarshal
                   (anthropic.withStream (pre ++ text :: post) s) (bufio.dropCR t))) eqn:Hfl;
      try (rewrite Hst, length_app; simpl; lia).
    simpl. apply IH.
Qed.

End AnthropicStop.

(** The run of the typed-event decoder over a body in which the line [text],
    after the lines [pre], signals the abnormal completion [reason]: the run
    ends there with the error set, the line yields no status, and the lines
    [post] after it are not read. *)
Definition stopsWithError (unmarshal : string -> option anthropic.streamEvent)
    (s : anthropic.Stream) (text : string) (post : list string) (reason : string) : Prop :=
  let o := anthropic.scanLoop unmarshal (anthropic.stream s) s in
  let r := anthropic.Iter unmarshal s in
  anthropic.Err (llms.final r) = Some (UnexpectedStopReason reason)
  /\ llms.exit r = Completed
  /\ anthropic.flow o = Return
  /\ anthropic.stream (anthropic.state o) = post
  /\ (forall s', anthropic.yielded (anthropic.lineStep unmarshal s' (bufio.dropCR text)) = []).

(** X22.  In the typed-event decoder a [message_delta] record whose stop
    reason is neither empty, nor [end_turn], nor [tool_use] is a fatal decode
    error: when the loop reaches its line (the run did not end before it),
    iteration stops there and [Err()] is non-nil. *)
Theorem anthropic_abnormal_stop_is_fatal
    (unmarshal : string -> option anthropic.streamEvent) (s : anthropic.Stream)
    (pre : list string) (text : string) (post : list string) (reason : string) :
  anthropic.stream s = pre ++ text :: post ->
  abnormalStop unmarshal text = Some reason ->
  length (anthropic.stream (anthropic.state (anthropic.scanLoop unmarshal (anthropic.stream s) s)))
  <= length post ->
  stopsWithError unmarshal s text post reason.
Proof.
  intros Hbody Hab Hreach. unfold stopsWithError. cbv zeta.
  rewrite Hbody in Hreach |- *.
  destruct (anthropic_scanLoop_abnormal unmarshal pre text post reason s Hab Hreach)
    as (Hfl & Herr & Hst).
  unfold anthropic.Iter. cbv zeta. rewrite Hbody, Hfl. simpl.
  repeat split; try assumption.
  intros s'. by destruct (anthropic_lineStep_abnormal unmarshal s' text reason Hab).
Qed.

Lemma anthropic_abnormal_stop_witness :
  stopsWithError fixtures.anthropicUnmarshal
    (anthropic.newStream "claude-3-5-sonnet" fixtures.stoppedAtMaxTokens)
    (fixtures.data fixtures.anMaxTokens)
    [fixtures.data fixtures.anWorld; fixtures.data fixtures.anMessageStop]
    "max_tokens".
Proof.
  apply (anthropic_abnormal_stop_is_fatal fixtures.anthropicUnmarshal _
           [fixtures.data fixtures.anMessageStart; fixtures.data fixtures.anHello]).
  - reflexivity.
  - vm_compute. reflexivity.
  - vm_compute. lia.
Defined.

(** The index-delta decoder has no such check: it never reads the
    [finish_reason] of a choice. *)
Definition withFinishReason (reason : option string) (chunk : openai.chatCompletionChunk)
    : openai.chatCompletionChunk :=
  {| openai.Choices :=
       map (fun choice =>
              {| openai.Delta := openai.Delta choice; openai.FinishReason := reason |})
           (openai.Choices chunk);
     openai.chunkUsage := openai.chunkUsage chunk |}.

Section OpenAIFinishReason.

Variable unmarshal : string -> option openai.chatCompletionChunk.
Variable reason : option string.

Local Abbreviation unmarshal' := (fun line => withFinishReason reason <$> unmarshal line).

Lemma openai_lineStep_finish_reason s text :
  openai.lineStep unmarshal' s text = openai.lineStep unmarshal s text.
Proof.
  unfold openai.lineStep.
  destruct (CutPrefix text "data: ") as [line|]; [|reflexivity].
  destruct (decide (line = "[DONE]")); [reflexivity|].
  destruct (unmarshal line) as [chunk|]; [|reflexivity].
  simpl. by destruct (openai.Choices chunk).
Qed.

Lemma openai_scanLoop_finish_reason body s :
  openai.scanLoop unmarshal' body s = openai.scanLoop unmarshal body s.
Proof.
  revert s. induction body as [|text rest IH]; intros s; [reflexivity|].
  cbn [openai.scanLoop]. rewrite openai_lineStep_finish_reason.
  destruct (bufio.tooLong text); [reflexivity|].
  destruct (openai.flow _); try reflexivity. by rewrite IH.
Qed.

(** Whatever the completion reasons of the records are, the run is the
    same. *)
Lemma openai_Iter_finish_reason s :
  openai.Iter unmarshal' s = openai.Iter unmarshal s.
Proof. unfold openai.Iter. by rewrite openai_scanLoop_finish_reason. Qed.

End OpenAIFinishReason.

(** C6.  The index-delta decoder does not treat an abnormal completion
    reason as a decode error.  The second record of the response
    [finishedAtLength] signals the completion reason [length], which is
    neither an ordinary stop nor a stop to call tools: the decoder reads on
    to the end of the body (it takes the usage report of the line after),
    the run completes and [Err()] stays nil; the step that consumes it
    returns no error, and the chat call sends no [ErrorUpdate].  The
    typed-event decoder stops at the like record of [stoppedAtMaxTokens]
    with [Err()] set. *)
Theorem C6_openai_ignores_finish_reason :
  let s := openai.newStream "gpt-4o" fixtures.finishedAtLength in
  let r := openai.Iter fixtures.openaiUnmarshal s in
  let chat :=
    llm.ChatUsingContent (PS := fixtures.openaiPS) 3 false
      (fixtures.openaiEngine fixtures.finishedAtLength) (content.FromText "Hi") in
  ((fun chunk => openai.FinishReason <$> openai.Choices chunk)
     <$> fixtures.openaiUnmarshal fixtures.oaLength)
  = Some [Some "length"]
  /\ openai.Err (llms.final r) = None
  /\ llms.exit r = Completed
  /\ openai.stream (openai.state (openai.scanLoop fixtures.openaiUnmarshal (openai.stream s) s))
     = []
  /\ openai.Usage (llms.final r) = (10, 5)%Z
  /\ llm.result (llm.step (PS := fixtures.openaiPS)
                   (fixtures.openaiEngine fixtures.finishedAtLength))
     = llm.Returned false None
  /\ errorUpdates (llm.chatLog chat) = []
  /\ llm.chatEnd chat = llm.Closed
  /\ anthropic.Err
       (llms.final (anthropic.Iter fixtures.anthropicUnmarshal
                      (anthropic.newStream "claude-3-5-sonnet" fixtures.stoppedAtMaxTokens)))
     = Some (UnexpectedStopReason "max_tokens").
Proof. vm_compute. repeat split; reflexivity. Qed.

(** * Further properties of the decoders *)

(** ** The reader does not steer the decoders *)

Section OpenAIReader.

Variable unmarshal : string -> option openai.chatCompletionChunk.

(** An outcome with the reader of every stream in it replaced. *)
Definition openaiRestream (body : list string) (o : openai.Outcome) : openai.Outcome :=
  {| openai.yielded := map (fun y => (y.1, openai.withStream body y.2)) (openai.yielded o);
     openai.state := openai.withStream body (openai.state o);
     openai.flow := openai.flow o |}.

Lemma openai_toolCallStep_withStream body ys s deltas :
  openai.toolCallStep (map (fun y => (y.1, openai.withStream body y.2)) ys)
    (openai.withStream body s) deltas
  = openaiRestream body (openai.toolCallStep ys s deltas).
Proof.
  unfold openai.toolCallStep, openaiRestream. simpl.
  destruct deltas as [|d [|d' ds]]; simpl; try reflexivity.
  repeat case_match; simpl; rewrite ?map_app; reflexivity.
Qed.

Lemma openai_deltaStep_withStream body s delta :
  openai.deltaStep (openai.withStream body s) delta
  = openaiRestream body (openai.deltaStep s delta).
Proof.
  unfold openai.deltaStep. simpl.
  destruct (decide (openai.deltaContent delta = "")).
  - rewrite <- (openai_toolCallStep_withStream body []). simpl.
    case_decide; reflexivity.
  - rewrite <- (openai_toolCallStep_withStream body). simpl.
    case_decide; reflexivity.
Qed.

Lemma openai_lineStep_withStream body s text :
  openai.lineStep unmarshal (openai.withStream body s) text
  = openaiRestream body (openai.lineStep unmarshal s text).
Proof.
  unfold openai.lineStep.
  destruct (CutPrefix text "data: ") as [line|]; [|reflexivity].
  destruct (decide (line = "[DONE]")); [reflexivity|].
  destruct (unmarshal line) as [chunk|]; [|reflexivity].
  destruct (openai.Choices chunk) as [|choice others].
  - destruct (openai.chunkUsage chunk); reflexivity.
  - rewrite <- openai_deltaStep_withStream.
    destruct (openai.chunkUsage chunk); reflexivity.
Qed.

(** The loop sets the reader itself: the one it starts with is of no
    consequence. *)
Lemma openai_scanLoop_withStream body b s :
  openai.scanLoop unmarshal body (openai.withStream b s) = openai.scanLoop unmarshal body s.
Proof.
  destruct body as [|text rest]; [reflexivity|].
  cbn [openai.scanLoop]. destruct (bufio.tooLong text); reflexivity.
Qed.

End OpenAIReader.

Section AnthropicReader.

Variable unmarshal : string -> option anthropic.streamEvent.

Definition anthropicRestream (body : list string) (o : anthropic.Outcome)
    : anthropic.Outcome :=
  {| anthropic.yielded :=
       map (fun y => (y.1, anthropic.withStream body y.2)) (anthropic.yielded o);
     anthropic.state := anthropic.withStream body (anthropic.state o);
     anthropic.flow := anthropic.flow o |}.

Lemma anthropic_addUsage_withStream body u s :
  anthropic.addUsage u (anthropic.withStream body s)
  = anthropic.withStream body (anthropic.addUsage u s).
Proof. destruct u; reflexivity. Qed.

Lemma anthropic_eventStep_withStream body s event :
  anthropic.eventStep (anthropic.withStream body s) event
  = anthropicRestream body (anthropic.eventStep s event).
Proof.
  unfold anthropic.eventStep, anthropicRestream, anthropic.addUsage. simpl.
  repeat case_decide; simpl; try reflexivity;
    repeat case_match; simpl; reflexivity.
Qed.

Lemma anthropic_lineStep_withStream body s text :
  anthropic.lineStep unmarshal (anthropic.withStream body s) text
  = anthropicRestream body (anthropic.lineStep unmarshal s text).
Proof.
  unfold anthropic.lineStep.
  destruct (CutPrefix text "data: ") as [line|]; [|reflexivity].
  destruct (unmarshal line) as [event|]; [|reflexivity].
  apply anthropic_eventStep_withStream.
Qed.

Lemma anthropic_scanLoop_withStream body b s :
  anthropic.scanLoop unmarshal body (anthropic.withStream b s)
  = anthropic.scanLoop unmarshal body s.
Proof.
  destruct body as [|text rest]; [reflexivity|].
  cbn [anthropic.scanLoop]. destruct (bufio.tooLong text); reflexivity.
Qed.

End AnthropicReader.

(** ** Lines the decoders skip *)

(** A status as the consumer can observe it: the accessors of the decoder do
    not show its reader. *)
Definition openaiObserved (y : llms.StreamStatus * openai.Stream)
    : llms.StreamStatus * openai.Stream :=
  (y.1, openai.withStream [] y.2).

Definition anthropicObserved (y : llms.StreamStatus * anthropic.Stream)
    : llms.StreamStatus * anthropic.Stream :=
  (y.1, anthropic.withStream [] y.2).

(** The lines the index-delta decoder passes over: among those the scanner
    hands out, the ones that do not start with [data: ], and the [[DONE]]
    sentinel. *)
Definition openaiSkipped (text : string) : bool :=
  negb (bufio.tooLong text)
  && match CutPrefix (bufio.dropCR text) "data: " with
     | None => true
     | Some line => bool_decide (line = "[DONE]")
     end.

(** The lines the typed-event decoder passes over: among those the scanner
    hands out, the ones that do not start with [data: ]. *)
Definition anthropicSkipped (text : string) : bool :=
  negb (bufio.tooLong text)
  && match CutPrefix (bufio.dropCR text) "data: " with
     | None => true
     | Some _ => false
     end.

Section OpenAISkip.

Variable unmarshal : string -> option openai.chatCompletionChunk.

Lemma openai_lineStep_skipped s text :
  openaiSkipped text = true ->
  openai.lineStep unmarshal s (bufio.dropCR text)
  = {| openai.yielded := []; openai.state := s; openai.flow := Next |}.
Proof.
  unfold openaiSkipped, openai.lineStep. intros [_ H]%andb_true_iff. revert H.
  destruct (CutPrefix (bufio.dropCR text) "data: ") as [line|]; [|reflexivity].
  intros H. apply bool_decide_eq_true in H. by destruct (decide (line = "[DONE]")).
Qed.

Lemma openaiSkipped_short text : openaiSkipped text = true -> bufio.tooLong text = false.
Proof. unfold openaiSkipped. intros [H _]%andb_true_iff. by apply negb_true_iff. Qed.

Lemma openai_scanLoop_skip body s :
  let o := openai.scanLoop unmarshal body s in
  let o' := openai.scanLoop unmarshal (filter (fun t => openaiSkipped t = false) body) s in
  map openaiObserved (openai.yielded o') = map openaiObserved (openai.yielded o)
  /\ openai.withStream [] (openai.state o') = openai.withStream [] (openai.state o)
  /\ openai.flow o' = openai.flow o.
Proof.
  revert s. induction body as [|text rest IH]; intros s; [by cbv zeta|].
  destruct (openaiSkipped text) eqn:Hskip.
  - rewrite filter_cons_False by (rewrite Hskip; discriminate).
    destruct (IH s) as (Hy & Hs & Hf). cbv zeta. rewrite Hy, Hs, Hf.
    cbn [openai.scanLoop]. rewrite (openaiSkipped_short _ Hskip).
    rewrite openai_lineStep_skipped by exact Hskip.
    cbn [openai.flow openai.state openai.yielded app].
    rewrite openai_scanLoop_withStream. auto.
  - rewrite filter_cons_True by exact Hskip.
    set (rest' := filter (fun t => openaiSkipped t = false) rest) in *.
    cbv zeta. cbn [openai.scanLoop]. destruct (bufio.tooLong text); [by cbn|].
    rewrite !openai_lineStep_withStream.
    destruct (openai.lineStep unmarshal s (bufio.dropCR text)) as [ys st fl].
    unfold openaiRestream. cbn [openai.flow openai.state openai.yielded].
    assert (Hobs : forall b, map openaiObserved
                     (map (fun y => (y.1, openai.withStream b y.2)) ys)
                   = map openaiObserved ys).
    { intros b. rewrite map_map. apply map_ext. by intros [status stream]. }
    destruct fl; cbn [openai.flow openai.state openai.yielded]; rewrite ?Hobs; auto.
    rewrite !openai_scanLoop_withStream.
    destruct (IH st) as (Hy & Hs & Hf). fold rest' in Hy, Hs, Hf.
    rewrite !map_app, !Hobs, Hy, Hs, Hf. auto.
Qed.

End OpenAISkip.

(** X1.  The index-delta decoder passes over the lines that do not start with
    [data: ] and over the [[DONE]] sentinel, when they are shorter than
    [bufio.MaxScanTokenSize]: a run over the body without them yields the
    same statuses, with the same decoder at each, leaves the same decoder and
    ends the same way.  The sentinel does not end the run: the lines after
    it are read like the others. *)
Theorem openai_skipped_lines_change_nothing
    (unmarshal : string -> option openai.chatCompletionChunk) (s : openai.Stream) :
  let kept := filter (fun t => openaiSkipped t = false) (openai.stream s) in
  let r := openai.Iter unmarshal s in
  let r' := openai.Iter unmarshal (openai.withStream kept s) in
  map openaiObserved (llms.yields r') = map openaiObserved (llms.yields r)
  /\ llms.final r' = llms.final r
  /\ llms.exit r' = llms.exit r.
Proof.
  cbv zeta. unfold openai.Iter.
  change (openai.stream (openai.withStream ?b s)) with b.
  rewrite openai_scanLoop_withStream.
  destruct (openai_scanLoop_skip unmarshal (openai.stream s) s) as (Hy & Hs & Hf).
  cbv zeta in Hy, Hs, Hf.
  set (o' := openai.scanLoop unmarshal (filter _ (openai.stream s)) s) in *.
  set (o := openai.scanLoop unmarshal (openai.stream s) s) in *.
  assert (Hm : openai.message (openai.state o') = openai.message (openai.state o)).
  { change (openai.message (openai.withStream [] (openai.state o'))
            = openai.message (openai.withStream [] (openai.state o))). by rewrite Hs. }
  rewrite Hf, Hm.
  destruct (openai.flow o); cbn [llms.yields llms.final llms.exit];
    rewrite ?map_app, ?Hy, ?Hs; repeat split;
    case_match; cbn [map]; unfold openaiObserved; cbn [fst snd]; by rewrite ?Hs.
Qed.

Section AnthropicSkip.

Variable unmarshal : string -> option anthropic.streamEvent.

Lemma anthropic_lineStep_skipped s text :
  anthropicSkipped text = true ->
  anthropic.lineStep unmarshal s (bufio.dropCR text)
  = {| anthropic.yielded := []; anthropic.state := s; anthropic.flow := Next |}.
Proof.
  unfold anthropicSkipped, anthropic.lineStep. intros [_ H]%andb_true_iff. revert H.
  destruct (CutPrefix (bufio.dropCR text) "data: ") as [line|]; [discriminate|reflexivity].
Qed.

Lemma anthropicSkipped_short text :
  anthropicSkipped text = true -> bufio.tooLong text = false.
Proof. unfold anthropicSkipped. intros [H _]%andb_true_iff. by apply negb_true_iff. Qed.

Lemma anthropic_scanLoop_skip body s :
  let o := anthropic.scanLoop unmarshal body s in
  let o' := anthropic.scanLoop unmarshal (filter (fun t => anthropicSkipped t = false) body) s in
  map anthropicObserved (anthropic.yielded o') = map anthropicObserved (anthropic.yielded o)
  /\ anthropic.withStream [] (anthropic.state o') = anthropic.withStream [] (anthropic.state o)
  /\ anthropic.flow o' = anthropic.flow o.
Proof.
  revert s. induction body as [|text rest IH]; intros s; [by cbv zeta|].
  destruct (anthropicSkipped text) eqn:Hskip.
  - rewrite filter_cons_False by (rewrite Hskip; discriminate).
    destruct (IH s) as (Hy & Hs & Hf). cbv zeta. rewrite Hy, Hs, Hf.
    cbn [anthropic.scanLoop]. rewrite (anthropicSkipped_short _ Hskip).
    rewrite anthropic_lineStep_skipped by exact Hskip.
    cbn [anthropic.flow anthropic.state anthropic.yielded app].
    rewrite anthropic_scanLoop_withStream. auto.
  - rewrite filter_cons_True by exact Hskip.
    set (rest' := filter (fun t => anthropicSkipped t = false) rest) in *.
    cbv zeta. cbn [anthropic.scanLoop]. destruct (bufio.tooLong text); [by cbn|].
    rewrite !anthropic_lineStep_withStream.
    destruct (anthropic.lineStep unmarshal s (bufio.dropCR text)) as [ys st fl].
    unfold anthropicRestream. cbn [anthropic.flow anthropic.state anthropic.yielded].
    assert (Hobs : forall b, map anthropicObserved
                     (map (fun y => (y.1, anthropic.withStream b y.2)) ys)
                   = map anthropicObserved ys).
    { intros b. rewrite map_map. apply map_ext. by intros [status stream]. }
    destruct fl; cbn [anthropic.flow anthropic.state anthropic.yielded]; rewrite ?Hobs; auto.
    rewrite !anthropic_scanLoop_withStream.
    destruct (IH st) as (Hy & Hs & Hf). fold rest' in Hy, Hs, Hf.
    rewrite !map_app, !Hobs, Hy, Hs, Hf. auto.
Qed.

End AnthropicSkip.

(** X2.  The typed-event decoder passes over the lines that do not start with
    [data: ] (the [event: ] lines and the blank lines of the framing), when
    they are shorter than [bufio.MaxScanTokenSize]: a run over the body
    without them yields the same statuses, with the same decoder at each,
    leaves the same decoder and ends the same way. *)
Theorem anthropic_skipped_lines_change_nothing
    (unmarshal : string -> option anthropic.streamEvent) (s : anthropic.Stream) :
  let kept := filter (fun t => anthropicSkipped t = false) (anthropic.stream s) in
  let r := anthropic.Iter unmarshal s in
  let r' := anthropic.Iter unmarshal (anthropic.withStream kept s) in
  map anthropicObserved (llms.yields r') = map anthropicObserved (llms.yields r)
  /\ llms.final r' = llms.final r
  /\ llms.exit r' = llms.exit r.
Proof.
  cbv zeta. unfold anthropic.Iter.
  change (anthropic.stream (anthropic.withStream ?b s)) with b.
  rewrite anthropic_scanLoop_withStream.
  destruct (anthropic_scanLoop_skip unmarshal (anthropic.stream s) s) as (Hy & Hs & Hf).
  cbv zeta in Hy, Hs, Hf.
  cbn [llms.yields llms.final llms.exit]. rewrite Hy, Hs, Hf. auto.
Qed.

(** ** How a run ends *)

(** The scanner stopped at a line of [body] that is too long for it: that
    line and the lines after it are [left] unread. *)
Definition stopsAtLongLine (body left : list string) : Prop :=
  exists pre text post,
    body = pre ++ text :: post /\ bufio.tooLong text = true /\ left = text :: post.

Section AnthropicEndings.

Variable unmarshal : string -> option anthropic.streamEvent.

(** A line whose record [json.Unmarshal] rejects. *)
Definition anthropicMalformed (text : string) : option string :=
  match CutPrefix (bufio.dropCR text) "data: " with
  | None => None
  | Some line => match unmarshal line with None => Some line | Some _ => None end
  end.

(** A line whose record is a [message_stop]. *)
Definition isMessageStop (text : string) : bool :=
  match CutPrefix (bufio.dropCR text) "data: " with
  | None => false
  | Some line =>
      match unmarshal line with
      | None => false
      | Some event => bool_decide (anthropic.Type_ event = "message_stop")
      end
  end.

(** What can make the loop of the typed-event decoder leave at a line. *)
Definition anthropicLeaves (text : string) (before after : option error) : Prop :=
  (exists line, anthropicMalformed text = Some line
                /\ after = Some (Wrap "error unmarshalling event" (UnmarshalError line)))
  \/ (exists reason, abnormalStop unmarshal text = Some reason
                     /\ after = Some (UnexpectedStopReason reason))
  \/ (isMessageStop text = true /\ after = before).

Lemma anthropic_eventStep_flow s event :
  let o := anthropic.eventStep s event in
  match anthropic.flow o with
  | Next | Panic _ => anthropic.err (anthropic.state o) = anthropic.err s
  | Break => False
  | Return =>
      (anthropic.Type_ event = "message_delta"
       /\ anthropic.StopReason (anthropic.evDelta event) <> ""
       /\ anthropic.StopReason (anthropic.evDelta event) <> "tool_use"
       /\ anthropic.StopReason (anthropic.evDelta event) <> "end_turn"
       /\ anthropic.err (anthropic.state o)
          = Some (UnexpectedStopReason (anthropic.StopReason (anthropic.evDelta event))))
      \/ (anthropic.Type_ event = "message_stop"
          /\ anthropic.err (anthropic.state o) = anthropic.err s)
  end.
Proof.
  unfold anthropic.eventStep, anthropic.addUsage. cbv zeta.
  repeat case_decide; simpl; try reflexivity;
    repeat case_match; simpl; try reflexivity; try discriminate;
    try (right; split; [assumption | reflexivity]).
  all: left; repeat match goal with
       | H : negb _ && _ = true |- _ => apply andb_prop in H as [? ?]
       | H : _ && negb _ = true |- _ => apply andb_prop in H as [? ?]
       | H : negb (bool_decide _) = true |- _ =>
           apply negb_true_iff, bool_decide_eq_false in H
       end; auto.
Qed.

Lemma anthropic_lineStep_flow s text :
  let o := anthropic.lineStep unmarshal s (bufio.dropCR text) in
  match anthropic.flow o with
  | Next | Panic _ => anthropic.err (anthropic.state o) = anthropic.err s
  | Break | Return =>
      anthropicLeaves text (anthropic.err s) (anthropic.err (anthropic.state o))
  end.
Proof.
  unfold anthropic.lineStep, anthropicLeaves, anthropicMalformed, abnormalStop, isMessageStop.
  cbv zeta.
  destruct (CutPrefix (bufio.dropCR text) "data: ") as [line|]; [|reflexivity].
  destruct (unmarshal line) as [event|]; simpl; [|left; eauto].
  pose proof (anthropic_eventStep_flow s event) as H. cbv zeta in H.
  destruct (anthropic.flow (anthropic.eventStep s event)); try exact H; [contradiction|].
  destruct H as [(Ht & H1 & H2 & H3 & He)|[Ht He]].
  - right; left. exists (anthropic.StopReason (anthropic.evDelta event)).
    rewrite Ht. repeat (case_decide; try congruence). auto.
  - right; right. rewrite Ht. auto.
Qed.

Lemma anthropic_scanLoop_endings body s :
  let o := anthropic.scanLoop unmarshal body s in
  match anthropic.flow o with
  | Next =>
      (anthropic.stream (anthropic.state o) = []
       \/ stopsAtLongLine body (anthropic.stream (anthropic.state o)))
      /\ anthropic.err (anthropic.state o) = anthropic.err s
  | Panic _ => anthropic.err (anthropic.state o) = anthropic.err s
  | Break | Return =>
      exists pre text post,
        body = pre ++ text :: post
        /\ anthropic.stream (anthropic.state o) = post
        /\ anthropicLeaves text (anthropic.err s) (anthropic.err (anthropic.state o))
  end.
Proof.
  revert s. induction body as [|text rest IH]; intros s; [cbv zeta; simpl; auto|].
  cbv zeta. cbn [anthropic.scanLoop].
  destruct (bufio.tooLong text) eqn:Hlong.
  { cbn. split; [right; exists [], text, rest; auto | reflexivity]. }
  pose proof (anthropic_lineStep_flow (anthropic.withStream rest s) text) as Hl.
  destruct (anthropic_lineStep_usage unmarshal (anthropic.withStream rest s) text) as [Hst _].
  cbv zeta in Hl, Hst.
  change (anthropic.stream (anthropic.withStream rest s)) with rest in Hst.
  change (anthropic.err (anthropic.withStream rest s)) with (anthropic.err s) in Hl.
  destruct (anthropic.flow (anthropic.lineStep unmarshal (anthropic.withStream rest s) (bufio.dropCR text)))
    eqn:Hfl; rewrite ?Hfl; try exact Hl;
    try (exists [], text, rest; auto).
  cbn [anthropic.flow anthropic.state].
  specialize (IH (anthropic.state
                    (anthropic.lineStep unmarshal (anthropic.withStream rest s) (bufio.dropCR text)))).
  cbv zeta in IH. rewrite Hl in IH.
  destruct (anthropic.flow (anthropic.scanLoop unmarshal rest _)); try exact IH.
  - destruct IH as [[Hall|(pre & t & post & -> & Hlong' & Hleft)] He];
      (split; [|exact He]); [by left|].
    right. exists (text :: pre), t, post. auto.
  - destruct IH as (pre & t & post & -> & Hpost & Hleave).
    exists (text :: pre), t, post; auto.
  - destruct IH as (pre & t & post & -> & Hpost & Hleave).
    exists (text :: pre), t, post; auto.
Qed.

End AnthropicEndings.

(** How a run of the typed-event decoder over [body] ended, read off
    [Err()]: with an error, the loop left at a line of the body that holds a
    malformed record or signals an abnormal completion, and the error names
    it; without one, the run panicked, or the loop read the whole body, or
    the scanner stopped at a line too long for it, or the loop left at a
    [message_stop] record.  The lines after the line at which the loop left
    were not read. *)
Definition anthropicEnding (unmarshal : string -> option anthropic.streamEvent)
    (model : string) (body : list string) : Prop :=
  let s := anthropic.newStream model body in
  let left := anthropic.stream (anthropic.state (anthropic.scanLoop unmarshal body s)) in
  let r := anthropic.Iter unmarshal s in
  match anthropic.Err (llms.final r) with
  | Some e =>
      exists pre text post,
        body = pre ++ text :: post /\ left = post
        /\ ((exists line, anthropicMalformed unmarshal text = Some line
                          /\ e = Wrap "error unmarshalling event" (UnmarshalError line))
            \/ (exists reason, abnormalStop unmarshal text = Some reason
                               /\ e = UnexpectedStopReason reason))
  | None =>
      (exists p, llms.exit r = Panicked p)
      \/ left = []
      \/ stopsAtLongLine body left
      \/ (exists pre text post,
            body = pre ++ text :: post /\ left = post
            /\ isMessageStop unmarshal text = true)
  end.

(** X4.  A run of the typed-event decoder ends as [anthropicEnding] says:
    [Err()] is non-nil exactly when the loop stopped at a malformed record
    or at an abnormal stop reason, which the error names; with [Err()] nil,
    the run panicked, or the whole body was read, or the scanner stopped at
    a line of [bufio.MaxScanTokenSize] bytes or more, or the loop stopped at
    a [message_stop] record.  No line after the one that stopped the loop is
    read. *)
Theorem anthropic_run_ending
    (unmarshal : string -> option anthropic.streamEvent) (model : string)
    (body : list string) :
  anthropicEnding unmarshal model body.
Proof.
  unfold anthropicEnding. cbv zeta.
  pose proof (anthropic_scanLoop_endings unmarshal body (anthropic.newStream model body)) as H.
  cbv zeta in H. unfold anthropic.Iter, anthropic.Err.
  change (anthropic.stream (anthropic.newStream model body)) with body.
  cbn [llms.final llms.exit].
  change (anthropic.err (anthropic.withStream [] ?x)) with (anthropic.err x).
  change (anthropic.err (anthropic.newStream model body)) with (@None error) in H.
  destruct (anthropic.flow (anthropic.scanLoop unmarshal body _)).
  - destruct H as [[Hs|Hs] He]; rewrite He; auto.
  - destruct H as (pre & text & post & Hb & Hp & [(line & Hm & He)|[(reason & Ha & He)|[Hm He]]]);
      rewrite He; eauto 10.
  - destruct H as (pre & text & post & Hb & Hp & [(line & Hm & He)|[(reason & Ha & He)|[Hm He]]]);
      rewrite He; eauto 10.
  - rewrite H. eauto.
Qed.

Section OpenAIEndings.

Variable unmarshal : string -> option openai.chatCompletionChunk.

(** A line whose record [json.Unmarshal] rejects. *)
Definition openaiMalformed (text : string) : option string :=
  match CutPrefix (bufio.dropCR text) "data: " with
  | None => None
  | Some line =>
      if decide (line = "[DONE]") then None
      else match unmarshal line with None => Some line | Some _ => None end
  end.

Lemma openai_deltaStep_flow s delta :
  let o := openai.deltaStep s delta in
  openai.err (openai.state o) = openai.err s
  /\ openai.flow o <> Break /\ openai.flow o <> Return.
Proof.
  unfold openai.deltaStep, openai.toolCallStep. cbv zeta.
  repeat case_match; simpl; repeat split; congruence.
Qed.

Lemma openai_lineStep_flow s text :
  let o := openai.lineStep unmarshal s (bufio.dropCR text) in
  match openai.flow o with
  | Next | Panic _ => openai.err (openai.state o) = openai.err s
  | Break =>
      exists line, openaiMalformed text = Some line
                   /\ openai.err (openai.state o)
                      = Some (Wrap "error unmarshalling chunk" (UnmarshalError line))
  | Return => False
  end.
Proof.
  unfold openai.lineStep, openaiMalformed. cbv zeta.
  destruct (CutPrefix (bufio.dropCR text) "data: ") as [line|]; [|reflexivity].
  destruct (decide (line = "[DONE]")); [reflexivity|].
  destruct (unmarshal line) as [chunk|]; simpl; [|eauto].
  destruct (openai.Choices chunk) as [|choice others]; simpl.
  - by destruct (openai.chunkUsage chunk).
  - match goal with |- context [openai.deltaStep ?s' ?d] =>
      destruct (openai_deltaStep_flow s' d) as (He & Hb & Hr) end.
    cbv zeta in He, Hb, Hr.
    destruct (openai.flow _); try contradiction; rewrite He;
      by destruct (openai.chunkUsage chunk).
Qed.

Lemma openai_scanLoop_endings body s :
  let o := openai.scanLoop unmarshal body s in
  match openai.flow o with
  | Next =>
      (openai.stream (openai.state o) = []
       \/ stopsAtLongLine body (openai.stream (openai.state o)))
      /\ openai.err (openai.state o) = openai.err s
  | Panic _ => openai.err (openai.state o) = openai.err s
  | Break =>
      exists pre text post line,
        body = pre ++ text :: post
        /\ openai.stream (openai.state o) = post
        /\ openaiMalformed text = Some line
        /\ openai.err (openai.state o)
           = Some (Wrap "error unmarshalling chunk" (UnmarshalError line))
  | Return => False
  end.
Proof.
  revert s. induction body as [|text rest IH]; intros s; [cbv zeta; simpl; auto|].
  cbv zeta. cbn [openai.scanLoop].
  destruct (bufio.tooLong text) eqn:Hlong.
  { cbn. split; [right; exists [], text, rest; auto | reflexivity]. }
  pose proof (openai_lineStep_flow (openai.withStream rest s) text) as Hl.
  destruct (openai_lineStep_usage unmarshal (openai.withStream rest s) text) as [Hst _].
  cbv zeta in Hl, Hst.
  change (openai.stream (openai.withStream rest s)) with rest in Hst.
  change (openai.err (openai.withStream rest s)) with (openai.err s) in Hl.
  destruct (openai.flow (openai.lineStep unmarshal (openai.withStream rest s) (bufio.dropCR text)))
    eqn:Hfl; rewrite ?Hfl; try exact Hl.
  - cbn [openai.flow openai.state].
    specialize (IH (openai.state (openai.lineStep unmarshal (openai.withStream rest s) (bufio.dropCR text)))).
    cbv zeta in IH. rewrite Hl in IH.
    destruct (openai.flow (openai.scanLoop unmarshal rest _)); try exact IH.
    + destruct IH as [[Hall|(pre & t & post & -> & Hlong' & Hleft)] He];
        (split; [|exact He]); [by left|].
      right. exists (text :: pre), t, post. auto.
    + destruct IH as (pre & t & post & line & -> & Hpost & Hm & He).
      exists (text :: pre), t, post, line. auto.
  - destruct Hl as (line & Hm & He). exists [], text, rest, line. auto.
Qed.

End OpenAIEndings.

(** How a run of the index-delta decoder over [body] ended, read off
    [Err()]: with an error, the loop left at a line of the body that holds a
    malformed record, the error names it, and the lines after it were not
    read; without one, the run panicked, or the loop read the whole body, or
    the scanner stopped at a line too long for it. *)
Definition openaiEnding (unmarshal : string -> option openai.chatCompletionChunk)
    (model : string) (body : list string) : Prop :=
  let s := openai.newStream model body in
  let left := openai.stream (openai.state (openai.scanLoop unmarshal body s)) in
  let r := openai.Iter unmarshal s in
  match openai.Err (llms.final r) with
  | Some e =>
      exists pre text post line,
        body = pre ++ text :: post /\ left = post
        /\ openaiMalformed unmarshal text = Some line
        /\ e = Wrap "error unmarshalling chunk" (UnmarshalError line)
        /\ llms.exit r = Completed
  | None => (exists p, llms.exit r = Panicked p) \/ left = [] \/ stopsAtLongLine body left
  end.

(** X3.  A run of the index-delta decoder ends as [openaiEnding] says:
    [Err()] is non-nil exactly when the loop stopped at a malformed record,
    which the error names and after which no line is read; with [Err()] nil,
    the run panicked, or the whole body was read, or the scanner stopped at
    a line of [bufio.MaxScanTokenSize] bytes or more, which stays unread with
    the lines after it. *)
Theorem openai_run_ending
    (unmarshal : string -> option openai.chatCompletionChunk) (model : string)
    (body : list string) :
  openaiEnding unmarshal model body.
Proof.
  unfold openaiEnding. cbv zeta.
  pose proof (openai_scanLoop_endings unmarshal body (openai.newStream model body)) as H.
  cbv zeta in H. unfold openai.Iter, openai.Err.
  change (openai.stream (openai.newStream model body)) with body.
  change (openai.err (openai.newStream model body)) with (@None error) in H.
  destruct (openai.flow (openai.scanLoop unmarshal body _));
    cbn [llms.final llms.exit];
    change (openai.err (openai.withStream [] ?x)) with (openai.err x).
  - destruct H as [Hs He]. rewrite He. auto.
  - destruct H as (pre & text & post & line & Hb & Hp & Hm & He). rewrite He. eauto 10.
  - contradiction.
  - rewrite H. eauto.
Qed.

(** ** The tool calls of a turn *)

#[global] Instance StreamStatus_eq_dec : EqDecision llms.StreamStatus.
Proof. solve_decision. Defined.

(** The number of [ToolCallBegin] statuses among those yielded. *)
Definition countBegin {S : Type} (ys : list (llms.StreamStatus * S)) : nat :=
  length (filter (fun y => y.1 = llms.StreamStatusToolCallBegin) ys).

Lemma countBegin_app {S : Type} (a b : list (llms.StreamStatus * S)) :
  countBegin (a ++ b) = countBegin a + countBegin b.
Proof. unfold countBegin. by rewrite filter_app, length_app. Qed.

(** A tool call as it is later in the run: the same id and name, and
    arguments that were only added to. *)
Definition callGrows (a b : llms.ToolCall) : Prop :=
  llms.ID a = llms.ID b /\ llms.Name a = llms.Name b
  /\ exists data, llms.Arguments b = llms.Arguments a +:+ data.

(** Tool calls as they are later in the run: every call is still at its
    place, grown. *)
Definition callsGrow (old new : list llms.ToolCall) : Prop :=
  forall i a, old !! i = Some a -> exists b, new !! i = Some b /\ callGrows a b.

Lemma callGrows_refl a : callGrows a a.
Proof. repeat split. exists "". by rewrite string_app_nil_r. Qed.

Lemma callGrows_trans a b c : callGrows a b -> callGrows b c -> callGrows a c.
Proof.
  intros (Hi & Hn & d & Hd) (Hi' & Hn' & d' & Hd').
  repeat split; [congruence..|]. exists (d +:+ d'). by rewrite Hd', Hd, string_app_assoc.
Qed.

Lemma callsGrow_refl l : callsGrow l l.
Proof. intros i a Ha. eauto using callGrows_refl. Qed.

Lemma callsGrow_trans l1 l2 l3 : callsGrow l1 l2 -> callsGrow l2 l3 -> callsGrow l1 l3.
Proof.
  intros H12 H23 i a Ha. destruct (H12 i a Ha) as (b & Hb & Hab).
  destruct (H23 i b Hb) as (c & Hc & Hbc). eauto using callGrows_trans.
Qed.

Lemma callsGrow_snoc l tc : callsGrow l (l ++ [tc]).
Proof.
  intros i a Ha. exists a. split; [by apply lookup_app_l_Some | apply callGrows_refl].
Qed.

Lemma callsGrow_alter l i data : callsGrow l (alter (llms.appendArguments data) i l).
Proof.
  intros j a Ha. rewrite list_lookup_alter. case_decide as Hij.
  - subst j. rewrite Ha. simpl. eexists. split; [reflexivity|].
    repeat split. by exists data.
  - eauto using callGrows_refl.
Qed.

(** What a part of a run keeps, from the decoder it starts with to the one
    it leaves: the tool calls at every status it yields have grown from those
    at the start and grow into those at the end, and the number of tool calls
    rises by one for each [ToolCallBegin]. *)
Definition keepsCalls {S : Type} (calls : S -> list llms.ToolCall) (s : S)
    (ys : list (llms.StreamStatus * S)) (s' : S) : Prop :=
  callsGrow (calls s) (calls s')
  /\ Forall (fun y => callsGrow (calls s) (calls y.2) /\ callsGrow (calls y.2) (calls s')) ys
  /\ length (calls s') = length (calls s) + countBegin ys.

Lemma keepsCalls_nil {S : Type} (calls : S -> list llms.ToolCall) (s s' : S) :
  calls s' = calls s -> keepsCalls calls s [] s'.
Proof.
  intros H. unfold keepsCalls. rewrite H. simpl.
  split; [apply callsGrow_refl|]. split; [constructor | unfold countBegin; simpl; lia].
Qed.

Lemma keepsCalls_app {S : Type} (calls : S -> list llms.ToolCall) (s1 s2 s3 : S) ys1 ys2 :
  keepsCalls calls s1 ys1 s2 -> keepsCalls calls s2 ys2 s3 ->
  keepsCalls calls s1 (ys1 ++ ys2) s3.
Proof.
  intros (G1 & F1 & L1) (G2 & F2 & L2). split; [|split].
  - eauto using callsGrow_trans.
  - apply Forall_app. split.
    + eapply Forall_impl; [exact F1|]. intros y [? ?]. eauto using callsGrow_trans.
    + eapply Forall_impl; [exact F2|]. intros y [? ?]. eauto using callsGrow_trans.
  - rewrite countBegin_app. lia.
Qed.

Lemma keepsCalls_same {S : Type} (calls : S -> list llms.ToolCall) (s1 s1' s2 s2' : S) ys :
  calls s1' = calls s1 -> calls s2' = calls s2 ->
  keepsCalls calls s1 ys s2 -> keepsCalls calls s1' ys s2'.
Proof. unfold keepsCalls. intros -> ->. auto. Qed.

Lemma keepsCalls_one {S : Type} (calls : S -> list llms.ToolCall) (s s' : S)
    (status : llms.StreamStatus) :
  callsGrow (calls s) (calls s') ->
  length (calls s')
  = length (calls s)
    + match status with llms.StreamStatusToolCallBegin => 1 | _ => 0 end ->
  keepsCalls calls s [(status, s')] s'.
Proof.
  intros G L. split; [exact G|]. split.
  - repeat constructor; [exact G | apply callsGrow_refl].
  - rewrite L. unfold countBegin. simpl. by destruct status.
Qed.

Section OpenAICalls.

Variable unmarshal : string -> option openai.chatCompletionChunk.

Local Abbreviation calls := (fun s => llms.ToolCalls (openai.Message s)).

Lemma openai_toolCallStep_keeps ys s deltas :
  let o := openai.toolCallStep ys s deltas in
  exists new, openai.yielded o = ys ++ new /\ keepsCalls calls s new (openai.state o).
Proof.
  unfold openai.toolCallStep. cbv zeta.
  destruct deltas as [|d [|d' ds]]; cbn [openai.yielded openai.state];
    try (exists []; rewrite app_nil_r; split; [reflexivity | by apply keepsCalls_nil]).
  repeat case_match; cbn [openai.yielded openai.state];
    try (exists []; rewrite app_nil_r; split; [reflexivity | by apply keepsCalls_nil]).
  - eexists. split; [reflexivity|]. apply keepsCalls_one; simpl.
    + apply callsGrow_alter.
    + rewrite length_alter. (unfold openai.Message; lia).
  - eexists. split; [reflexivity|].
    eapply keepsCalls_app.
    + apply (keepsCalls_one calls s s); simpl; [apply callsGrow_refl | (unfold openai.Message; lia)].
    + apply keepsCalls_one; simpl; [apply callsGrow_snoc | rewrite length_app; simpl; (unfold openai.Message; lia)].
  - eexists. split; [reflexivity|]. simpl.
    apply keepsCalls_one; simpl; [apply callsGrow_snoc | rewrite length_app; simpl; (unfold openai.Message; lia)].
Qed.

Lemma openai_deltaStep_keeps s delta :
  let o := openai.deltaStep s delta in
  keepsCalls calls s (openai.yielded o) (openai.state o).
Proof.
  unfold openai.deltaStep. cbv zeta.
  set (s2 := openai.withLastText _ _).
  assert (H2 : calls s2 = calls s) by (subst s2; simpl; case_decide; reflexivity).
  destruct (decide (openai.lastText s2 = "")).
  - destruct (openai_toolCallStep_keeps [] s2 (openai.deltaToolCalls delta))
      as (new & Hy & Hk). cbv zeta in Hy, Hk. rewrite Hy. simpl.
    eapply keepsCalls_same; [symmetry; exact H2 | reflexivity | exact Hk].
  - set (s3 := openai.withMessage _ s2).
    assert (H3 : calls s3 = calls s) by (subst s3; simpl; exact H2).
    destruct (openai_toolCallStep_keeps [(llms.StreamStatusText, s3)] s3
                (openai.deltaToolCalls delta)) as (new & Hy & Hk).
    cbv zeta in Hy, Hk. rewrite Hy.
    eapply keepsCalls_app; [|exact Hk].
    apply keepsCalls_one; [rewrite H3; apply callsGrow_refl | rewrite H3; simpl; (unfold openai.Message; lia)].
Qed.

Lemma openai_lineStep_keeps s text :
  let o := openai.lineStep unmarshal s text in
  keepsCalls calls s (openai.yielded o) (openai.state o).
Proof.
  unfold openai.lineStep. cbv zeta.
  repeat case_match; cbn [openai.yielded openai.state];
    try (by apply keepsCalls_nil);
    (eapply keepsCalls_same; [| reflexivity | apply openai_deltaStep_keeps]); reflexivity.
Qed.

Lemma openai_scanLoop_keeps body s :
  let o := openai.scanLoop unmarshal body s in
  keepsCalls calls s (openai.yielded o) (openai.state o).
Proof.
  revert s. induction body as [|text rest IH]; intros s; cbv zeta; cbn [openai.scanLoop].
  - by apply keepsCalls_nil.
  - destruct (bufio.tooLong text); [by apply keepsCalls_nil|].
    pose proof (openai_lineStep_keeps (openai.withStream rest s) (bufio.dropCR text)) as Hl.
    cbv zeta in Hl.
    assert (Hl' : keepsCalls calls s
                    (openai.yielded (openai.lineStep unmarshal (openai.withStream rest s) (bufio.dropCR text)))
                    (openai.state (openai.lineStep unmarshal (openai.withStream rest s) (bufio.dropCR text))))
      by (eapply keepsCalls_same; [| reflexivity | exact Hl]; reflexivity).
    destruct (openai.flow (openai.lineStep unmarshal (openai.withStream rest s) (bufio.dropCR text)));
      try exact Hl'.
    cbn [openai.yielded openai.state]. eapply keepsCalls_app; [exact Hl' | apply IH].
Qed.

End OpenAICalls.

(** ** Readiness in the index-delta framing (C7) *)

(** The scanner loop reads the lines [pre] to the last and goes on: it
    leaves them by neither [break] nor a panic, and no line of them is too
    long for the scanner. *)
Definition readsThrough (unmarshal : string -> option openai.chatCompletionChunk)
    (pre : list string) (s : openai.Stream) : Prop :=
  let o := openai.scanLoop unmarshal pre s in
  openai.flow o = Next /\ openai.stream (openai.state o) = [].


Section OpenAIReady.

Variable unmarshal : string -> option openai.chatCompletionChunk.

Local Abbreviation calls s := (llms.ToolCalls (openai.message s)).





Lemma openaiObserved_withStream body (ys : list (llms.StreamStatus * openai.Stream)) :
  map openaiObserved (map (fun y => (y.1, openai.withStream body y.2)) ys)
  = map openaiObserved ys.
Proof. rewrite map_map. apply map_ext. by intros [status stream]. Qed.

(** The loop over [pre ++ rest], when it reads [pre] to the last line: what
    it yields over [pre], then the loop over [rest]. *)
Lemma openai_scanLoop_app pre rest s :
  let o1 := openai.scanLoop unmarshal pre s in
  openai.flow o1 = Next -> openai.stream (openai.state o1) = [] ->
  let o := openai.scanLoop unmarshal (pre ++ rest) s in
  let o2 := openai.scanLoop unmarshal rest (openai.state o1) in
  (exists seen,
      openai.yielded o = seen ++ openai.yielded o2
      /\ map openaiObserved seen = map openaiObserved (openai.yielded o1))
  /\ openai.state o = openai.state o2
  /\ openai.flow o = openai.flow o2.
Proof.
  revert s. induction pre as [|t pre' IH]; intros s; cbv zeta.
  - intros _ _. cbn [app openai.scanLoop openai.state openai.yielded].
    rewrite openai_scanLoop_withStream. split; [exists []; auto | auto].
  - cbn [app openai.scanLoop]. destruct (bufio.tooLong t).
    { cbn [openai.state openai.stream openai.withStream]. intros _ H. discriminate. }
    rewrite !openai_lineStep_withStream.
    destruct (openai.lineStep unmarshal s (bufio.dropCR t)) as [ys st fl].
    unfold openaiRestream. cbn [openai.flow openai.state openai.yielded].
    destruct fl; cbn [openai.flow openai.state openai.yielded]; try discriminate.
    rewrite !openai_scanLoop_withStream. intros Hf Hs.
    destruct (IH st Hf Hs) as ((seen & Hy & Hobs) & Hst & Hfl).
    split; [|split; assumption].
    exists (map (fun y => (y.1, openai.withStream (pre' ++ rest) y.2)) ys ++ seen).
    rewrite Hy, <- app_assoc. split; [reflexivity|].
    rewrite !map_app, Hobs, !openaiObserved_withStream. reflexivity.
Qed.





End OpenAIReady.





(** ** A line too long for the scanner *)

Example dropCR_drops_one_carriage_return :
  bufio.dropCR (String "a" (String "013" "")) = "a"
  /\ bufio.dropCR (String "a" (String "013" (String "013" ""))) = String "a" (String "013" "")
  /\ bufio.dropCR (String "013" "a") = String "013" "a"
  /\ bufio.dropCR "data: [DONE]" = "data: [DONE]".
Proof. repeat split; reflexivity. Qed.

Section AnthropicLongLine.

Variable unmarshal : string -> option anthropic.streamEvent.

Lemma anthropicObserved_withStream body (ys : list (llms.StreamStatus * anthropic.Stream)) :
  map anthropicObserved (map (fun y => (y.1, anthropic.withStream body y.2)) ys)
  = map anthropicObserved ys.
Proof. rewrite map_map. apply map_ext. by intros [status stream]. Qed.

(** The loop over [pre ++ rest], when it reads [pre] to the last line: what
    it yields over [pre], then the loop over [rest]. *)
Lemma anthropic_scanLoop_app pre rest s :
  let o1 := anthropic.scanLoop unmarshal pre s in
  anthropic.flow o1 = Next -> anthropic.stream (anthropic.state o1) = [] ->
  let o := anthropic.scanLoop unmarshal (pre ++ rest) s in
  let o2 := anthropic.scanLoop unmarshal rest (anthropic.state o1) in
  (exists seen,
      anthropic.yielded o = seen ++ anthropic.yielded o2
      /\ map anthropicObserved seen = map anthropicObserved (anthropic.yielded o1))
  /\ anthropic.state o = anthropic.state o2
  /\ anthropic.flow o = anthropic.flow o2.
Proof.
  revert s. induction pre as [|t pre' IH]; intros s; cbv zeta.
  - intros _ _. cbn [app anthropic.scanLoop anthropic.state anthropic.yielded].
    rewrite anthropic_scanLoop_withStream. split; [exists []; auto | auto].
  - cbn [app anthropic.scanLoop]. destruct (bufio.tooLong t).
    { cbn [anthropic.state anthropic.stream anthropic.withStream]. intros _ H. discriminate. }
    rewrite !anthropic_lineStep_withStream.
    destruct (anthropic.lineStep unmarshal s (bufio.dropCR t)) as [ys st fl].
    unfold anthropicRestream. cbn [anthropic.flow anthropic.state anthropic.yielded].
    destruct fl; cbn [anthropic.flow anthropic.state anthropic.yielded]; try discriminate.
    rewrite !anthropic_scanLoop_withStream. intros Hf Hs.
    destruct (IH st Hf Hs) as ((seen & Hy & Hobs) & Hst & Hfl).
    split; [|split; assumption].
    exists (map (fun y => (y.1, anthropic.withStream (pre' ++ rest) y.2)) ys ++ seen).
    rewrite Hy, <- app_assoc. split; [reflexivity|].
    rewrite !map_app, Hobs, !anthropicObserved_withStream. reflexivity.
Qed.

End AnthropicLongLine.

(** A line of [bufio.MaxScanTokenSize] bytes. *)
Definition longLine : string :=
  string_of_list_ascii (repeat "x"%char (Z.to_nat bufio.MaxScanTokenSize)).

(** X23.  The index-delta decoder at a line of [bufio.MaxScanTokenSize] bytes
    or more.  When the scanner loop reaches such a line the scanner gives
    up: the run is the run over the lines before it.  It yields the same
    statuses, with the same decoder at each, and leaves the same decoder;
    it completes, and it sets no error: the line and the lines after it are
    dropped without a trace. *)
Theorem openai_long_line_ends_the_run
    (unmarshal : string -> option openai.chatCompletionChunk) (s : openai.Stream)
    (pre : list string) (text : string) (post : list string) :
  openai.stream s = pre ++ text :: post ->
  readsThrough unmarshal pre s ->
  bufio.tooLong text = true ->
  let r := openai.Iter unmarshal s in
  let r0 := openai.Iter unmarshal (openai.withStream pre s) in
  map openaiObserved (llms.yields r) = map openaiObserved (llms.yields r0)
  /\ llms.final r = llms.final r0
  /\ llms.exit r = Completed
  /\ openai.Err (llms.final r) = openai.Err s.
Proof.
  intros Hbody [Hflow Hread] Hlong. cbv zeta. unfold openai.Iter.
  change (openai.stream (openai.withStream pre s)) with pre.
  rewrite Hbody, openai_scanLoop_withStream.
  destruct (openai_scanLoop_app unmarshal pre (text :: post) s Hflow Hread)
    as ((seen & Hy & Hobs) & Hst & Hfl).
  pose proof (openai_scanLoop_endings unmarshal pre s) as Hend. cbv zeta in Hend.
  rewrite Hflow in Hend. destruct Hend as [_ Herr].
  cbn [openai.scanLoop] in Hy, Hst, Hfl. rewrite Hlong in Hy, Hst, Hfl.
  cbn [openai.yielded openai.state openai.flow] in Hy, Hst, Hfl.
  rewrite app_nil_r in Hy. rewrite Hfl, Hflow. cbn [llms.yields llms.final llms.exit].
  rewrite Hy, Hst. cbn [openai.message openai.withStream].
  unfold openai.Err. repeat split; [|exact Herr].
  rewrite !map_app, Hobs. f_equal. by case_match.
Qed.

Lemma openai_long_line_witness :
  let body := [fixtures.data fixtures.oaHello; longLine; fixtures.data fixtures.oaTruncated] in
  let r := openai.Iter fixtures.openaiUnmarshal (openai.newStream "gpt-4o" body) in
  let r0 :=
    openai.Iter fixtures.openaiUnmarshal
      (openai.withStream [fixtures.data fixtures.oaHello] (openai.newStream "gpt-4o" body)) in
  (map openaiObserved (llms.yields r) = map openaiObserved (llms.yields r0)
   /\ llms.final r = llms.final r0
   /\ llms.exit r = Completed
   /\ openai.Err (llms.final r) = None)
  /\ map fst (llms.yields r) = [llms.StreamStatusText]
  /\ content.fullText (llms.Content (openai.Message (llms.final r))) = "Hello".
Proof.
  cbv zeta. split; [|split; vm_compute; reflexivity].
  apply (openai_long_line_ends_the_run fixtures.openaiUnmarshal
           (openai.newStream "gpt-4o"
              [fixtures.data fixtures.oaHello; longLine; fixtures.data fixtures.oaTruncated])
           [fixtures.data fixtures.oaHello] longLine [fixtures.data fixtures.oaTruncated]).
  - reflexivity.
  - split; vm_compute; reflexivity.
  - vm_compute. reflexivity.
Defined.

(** X24.  The typed-event decoder at a line of [bufio.MaxScanTokenSize]
    bytes or more: as for the index-delta decoder, the run is the run over
    the lines before that line, it completes, and it sets no error. *)
Theorem anthropic_long_line_ends_the_run
    (unmarshal : string -> option anthropic.streamEvent) (s : anthropic.Stream)
    (pre : list string) (text : string) (post : list string) :
  anthropic.stream s = pre ++ text :: post ->
  (let o := anthropic.scanLoop unmarshal pre s in
   anthropic.flow o = Next /\ anthropic.stream (anthropic.state o) = []) ->
  bufio.tooLong text = true ->
  let r := anthropic.Iter unmarshal s in
  let r0 := anthropic.Iter unmarshal (anthropic.withStream pre s) in
  map anthropicObserved (llms.yields r) = map anthropicObserved (llms.yields r0)
  /\ llms.final r = llms.final r0
  /\ llms.exit r = Completed
  /\ anthropic.Err (llms.final r) = anthropic.Err s.
Proof.
  intros Hbody [Hflow Hread] Hlong. cbv zeta. unfold anthropic.Iter.
  change (anthropic.stream (anthropic.withStream pre s)) with pre.
  rewrite Hbody, anthropic_scanLoop_withStream.
  destruct (anthropic_scanLoop_app unmarshal pre (text :: post) s Hflow Hread)
    as ((seen & Hy & Hobs) & Hst & Hfl).
  pose proof (anthropic_scanLoop_endings unmarshal pre s) as Hend. cbv zeta in Hend.
  rewrite Hflow in Hend. destruct Hend as [_ Herr].
  cbn [anthropic.scanLoop] in Hy, Hst, Hfl. rewrite Hlong in Hy, Hst, Hfl.
  cbn [anthropic.yielded anthropic.state anthropic.flow] in Hy, Hst, Hfl.
  rewrite app_nil_r in Hy. rewrite Hfl, Hflow. cbn [llms.yields llms.final llms.exit].
  rewrite Hy, Hst. unfold anthropic.Err. repeat split; [exact Hobs | exact Herr].
Qed.

Lemma anthropic_long_line_witness :
  let body :=
    [fixtures.data fixtures.anMessageStart; fixtures.data fixtures.anHello; longLine;
     fixtures.data fixtures.anMaxTokens] in
  let r := anthropic.Iter fixtures.anthropicUnmarshal (anthropic.newStream "claude-3-5-sonnet" body) in
  let r0 :=
    anthropic.Iter fixtures.anthropicUnmarshal
      (anthropic.withStream [fixtures.data fixtures.anMessageStart; fixtures.data fixtures.anHello]
         (anthropic.newStream "claude-3-5-sonnet" body)) in
  (map anthropicObserved (llms.yields r) = map anthropicObserved (llms.yields r0)
   /\ llms.final r = llms.final r0
   /\ llms.exit r = Completed
   /\ anthropic.Err (llms.final r) = None)
  /\ map fst (llms.yields r) = [llms.StreamStatusText].
Proof.
  cbv zeta. split; [|vm_compute; reflexivity].
  apply (anthropic_long_line_ends_the_run fixtures.anthropicUnmarshal
           (anthropic.newStream "claude-3-5-sonnet"
              [fixtures.data fixtures.anMessageStart; fixtures.data fixtures.anHello; longLine;
               fixtures.data fixtures.anMaxTokens])
           [fixtures.data fixtures.anMessageStart; fixtures.data fixtures.anHello]
           longLine [fixtures.data fixtures.anMaxTokens]).
  - reflexivity.
  - split; vm_compute; reflexivity.
  - vm_compute. reflexivity.
Defined.

(** X5.  Over a run of the index-delta decoder the tool calls only grow: at every
    status the decoder yields, each tool call it holds has the id and the
    name it keeps to the end of the run and arguments that are a prefix of
    its final arguments; the tool calls the decoder started with are kept in
    the same way; and the message gains exactly one tool call for each
    [ToolCallBegin] status. *)
Theorem openai_tool_calls_only_grow
    (unmarshal : string -> option openai.chatCompletionChunk) (s : openai.Stream) :
  let r := openai.Iter unmarshal s in
  keepsCalls (fun s => llms.ToolCalls (openai.Message s)) s (llms.yields r) (llms.final r).
Proof.
  cbv zeta. unfold openai.Iter.
  pose proof (openai_scanLoop_keeps unmarshal (openai.stream s) s) as H. cbv zeta in H.
  assert (Hkeep : forall o : openai.Outcome,
            keepsCalls (fun s => llms.ToolCalls (openai.Message s)) s
              (openai.yielded o) (openai.state o) ->
            keepsCalls (fun s => llms.ToolCalls (openai.Message s)) s
              (openai.yielded o) (openai.withStream [] (openai.state o)))
    by (intros o Ho; eapply keepsCalls_same; [reflexivity | | exact Ho]; reflexivity).
  assert (Hready : forall o : openai.Outcome,
            keepsCalls (fun s => llms.ToolCalls (openai.Message s)) s
              (openai.yielded o) (openai.state o) ->
            keepsCalls (fun s => llms.ToolCalls (openai.Message s)) s
              (openai.yielded o ++ [(llms.StreamStatusToolCallReady, openai.state o)])
              (openai.withStream [] (openai.state o))).
  { intros o Ho. eapply keepsCalls_app; [exact Ho|].
    eapply keepsCalls_same; [reflexivity | |
      apply (keepsCalls_one _ (openai.state o) (openai.state o)
               llms.StreamStatusToolCallReady)]; simpl;
      [reflexivity | apply callsGrow_refl | unfold openai.Message; lia]. }
  destruct (openai.flow (openai.scanLoop unmarshal (openai.stream s) s));
    cbn [llms.yields llms.final]; try (by apply Hkeep);
    case_match; rewrite ?app_nil_r; auto.
Qed.

Section AnthropicCalls.

Variable unmarshal : string -> option anthropic.streamEvent.

Local Abbreviation calls := (fun s => llms.ToolCalls (anthropic.Message s)).

Lemma anthropic_eventStep_keeps s event :
  let o := anthropic.eventStep s event in
  keepsCalls calls s (anthropic.yielded o) (anthropic.state o).
Proof.
  unfold anthropic.eventStep, anthropic.addUsage. cbv zeta.
  repeat case_decide; repeat case_match; cbn [anthropic.yielded anthropic.state];
    try (by apply keepsCalls_nil);
    apply keepsCalls_one; simpl;
    rewrite ?length_alter, ?length_app; simpl;
    first [ apply callsGrow_refl | apply callsGrow_alter | apply callsGrow_snoc | (unfold anthropic.Message; lia) ].
Qed.

Lemma anthropic_lineStep_keeps s text :
  let o := anthropic.lineStep unmarshal s text in
  keepsCalls calls s (anthropic.yielded o) (anthropic.state o).
Proof.
  unfold anthropic.lineStep. cbv zeta.
  repeat case_match; cbn [anthropic.yielded anthropic.state];
    try (by apply keepsCalls_nil). apply anthropic_eventStep_keeps.
Qed.

Lemma anthropic_scanLoop_keeps body s :
  let o := anthropic.scanLoop unmarshal body s in
  keepsCalls calls s (anthropic.yielded o) (anthropic.state o).
Proof.
  revert s. induction body as [|text rest IH]; intros s; cbv zeta; cbn [anthropic.scanLoop].
  - by apply keepsCalls_nil.
  - destruct (bufio.tooLong text); [by apply keepsCalls_nil|].
    pose proof (anthropic_lineStep_keeps (anthropic.withStream rest s) (bufio.dropCR text)) as Hl.
    cbv zeta in Hl.
    assert (Hl' : keepsCalls calls s
                    (anthropic.yielded
                       (anthropic.lineStep unmarshal (anthropic.withStream rest s) (bufio.dropCR text)))
                    (anthropic.state
                       (anthropic.lineStep unmarshal (anthropic.withStream rest s) (bufio.dropCR text))))
      by (eapply keepsCalls_same; [| reflexivity | exact Hl]; reflexivity).
    destruct (anthropic.flow (anthropic.lineStep unmarshal (anthropic.withStream rest s) (bufio.dropCR text)));
      try exact Hl'.
    cbn [anthropic.yielded anthropic.state]. eapply keepsCalls_app; [exact Hl' | apply IH].
Qed.

End AnthropicCalls.

(** X6.  Over a run of the typed-event decoder the tool calls only grow, as they
    do for the index-delta decoder, and the message gains exactly one tool
    call for each [ToolCallBegin] status. *)
Theorem anthropic_tool_calls_only_grow
    (unmarshal : string -> option anthropic.streamEvent) (s : anthropic.Stream) :
  let r := anthropic.Iter unmarshal s in
  keepsCalls (fun s => llms.ToolCalls (anthropic.Message s)) s (llms.yields r) (llms.final r).
Proof.
  cbv zeta. unfold anthropic.Iter. cbn [llms.yields llms.final].
  eapply keepsCalls_same; [reflexivity | | apply anthropic_scanLoop_keeps]. reflexivity.
Qed.

(** * Further properties of the engine *)

(** The texts of the [TextUpdate]s a log sends, concatenated in order. *)
Definition textSent (log : list llm.Event) : string :=
  foldr (fun e acc =>
           match e with llm.Sent (llms.TextUpdate t) => t +:+ acc | _ => acc end) "" log.

(** The number of [ToolCallReady] statuses among those yielded. *)
Definition countReady {S : Type} (ys : list (llms.StreamStatus * S)) : nat :=
  length (filter (fun y => y.1 = llms.StreamStatusToolCallReady) ys).

(** The warnings a log prints. *)
Definition warnings (log : list llm.Event) : list (string * string) :=
  omap (fun e => match e with llm.Printed id name => Some (id, name) | _ => None end) log.

Lemma textSent_app a b : textSent (a ++ b) = textSent a +:+ textSent b.
Proof.
  induction a as [|e a IH]; simpl; [reflexivity|].
  destruct e as [[]| | |]; simpl; rewrite IH, ?string_app_assoc; reflexivity.
Qed.

Lemma errorUpdates_app a b : errorUpdates (a ++ b) = errorUpdates a ++ errorUpdates b.
Proof. unfold errorUpdates. apply omap_app. Qed.

Section EngineMore.

Variable S : Type.
Context {PS : llms.ProviderStream S}.

Lemma runToolCall_quiet (l : llm.LLM S) toolbox toolCall :
  textSent (llm.runToolCall l toolbox toolCall).1 = ""
  /\ errorUpdates (llm.runToolCall l toolbox toolCall).1 = []
  /\ 1 <= length (llm.runToolCall l toolbox toolCall).2.
Proof.
  unfold llm.runToolCall.
  destruct (tools.Run toolbox (llms.Name toolCall) (llms.Arguments toolCall)) as [statuses result].
  cbn [fst snd]. split; [|split; [|simpl; lia]].
  - rewrite !textSent_app. simpl.
    assert (H1 : forall (A : Type) (f : A -> llm.Event) (xs : list A),
              (forall x, match f x with llm.Sent (llms.TextUpdate _) => False | _ => True end) ->
              textSent (map f xs) = "").
    { intros A f xs Hf. induction xs as [|x xs IH]; simpl; [reflexivity|].
      specialize (Hf x). destruct (f x) as [[]| | |]; try contradiction; exact IH. }
    case_decide; rewrite ?H1 by (intros; exact I); reflexivity.
  - rewrite !errorUpdates_app. simpl.
    assert (H1 : forall (A : Type) (f : A -> llm.Event) (xs : list A),
              (forall x, match f x with llm.Sent (llms.ErrorUpdate _) => False | _ => True end) ->
              errorUpdates (map f xs) = []).
    { intros A f xs Hf. induction xs as [|x xs IH]; simpl; [reflexivity|].
      specialize (Hf x). unfold errorUpdates in *. simpl.
      destruct (f x) as [[]| | |]; try contradiction; exact IH. }
    case_decide; rewrite ?H1 by (intros; exact I); reflexivity.
Qed.

(** What the loop over the statuses sends and gathers, when it does not
    panic: a [TextUpdate] for each [Text] status and no [ErrorUpdate]; a
    message or more for each [ToolCallReady] status, and none without one. *)
Lemma drain_summary (l : llm.LLM S) ys acc :
  let d := llm.drain l ys acc in
  errorUpdates (llm.events d) = []
  /\ (llm.panicked d = None ->
      textSent (llm.events d) = textDeltas llms.Text ys
      /\ length acc + countReady ys <= length (llm.toolMessages d)
      /\ (countReady ys = 0 -> llm.toolMessages d = acc)).
Proof.
  revert acc. induction ys as [|[status stream] ys IH]; intros acc; cbv zeta.
  - simpl. split; [reflexivity|]. intros _. unfold countReady. simpl.
    split; [reflexivity|]. split; [lia | reflexivity].
  - destruct status; simpl.
    + destruct (IH acc) as [He Hp]. cbv zeta in He, Hp. split; [exact He|].
      intros Hn. destruct (Hp Hn) as (Ht & Hl & Hz). rewrite Ht. auto.
    + destruct (tools.Get _ _); simpl; [|split; [reflexivity | discriminate]].
      destruct (IH acc) as [He Hp]. cbv zeta in He, Hp. split; [exact He|].
      intros Hn. destruct (Hp Hn) as (Ht & Hl & Hz). auto.
    + apply IH.
    + destruct (runToolCall_quiet l (llm.toolbox l) (llms.streamToolCall stream))
        as (Hq & Hqe & Hlen).
      destruct (llm.runToolCall l (llm.toolbox l) (llms.streamToolCall stream))
        as [evs msgs]. cbn [fst snd] in *. simpl.
      destruct (IH (acc ++ msgs)) as [He Hp]. cbv zeta in He, Hp.
      split; [by rewrite errorUpdates_app, Hqe, He|].
      intros Hn. destruct (Hp Hn) as (Ht & Hl & Hz).
      rewrite textSent_app, Hq, Ht. rewrite length_app in Hl.
      unfold countReady in *. simpl in *.
      split; [reflexivity|]. split; [lia | lia].
Qed.

End EngineMore.

Section EngineTheorems.

Variable S : Type.
Context {PS : llms.ProviderStream S}.

Lemma step_sends_no_error (l : llm.LLM S) : errorUpdates (llm.log (llm.step l)) = [].
Proof.
  unfold llm.step. cbv zeta.
  destruct (llms.Err (llm.generate l)); [reflexivity|].
  destruct (drain_summary S l (llms.yields (llms.Iter (llm.generate l))) []) as [He _].
  cbv zeta in He.
  destruct (llm.panicked _); [exact He|].
  destruct (llms.exit _); [|exact He].
  cbn [llm.log]. rewrite errorUpdates_app, He. simpl.
  unfold errorUpdates. simpl. induction (slices.SortStableFunc _ _); [reflexivity | exact IHl0].
Qed.

Lemma step_prefix (l : llm.LLM S) :
  llm.messages l `prefix_of` llm.messages (llm.after (llm.step l)).
Proof.
  rewrite step_messages. destruct (llm.result (llm.step l)) as [c [e|]|p];
    try reflexivity. by apply prefix_app_r.
Qed.

Lemma chatLoop_prefix steps ctxDone (l : llm.LLM S) :
  llm.messages l `prefix_of` llm.messages (llm.chatAfter (llm.chatLoop steps ctxDone l)).
Proof.
  revert l. induction steps as [|steps IH]; intros l; simpl; [reflexivity|].
  destruct ctxDone; [reflexivity|].
  pose proof (step_prefix l) as Hp.
  destruct (llm.result (llm.step l)) as [[|] [e|]|p]; simpl; try exact Hp.
  etransitivity; [exact Hp | apply IH].
Qed.

End EngineTheorems.

(** X8.  The history only grows.  A step leaves the messages it found in place,
    whatever its result, and so does a chat call: after it the history starts
    with the old history followed by the user's message. *)
Theorem history_is_append_only
    (S : Type) (PS : llms.ProviderStream S) (l : llm.LLM S)
    (steps : nat) (ctxDone : bool) (message : content.Content) :
  llm.messages l `prefix_of` llm.messages (llm.after (llm.step l))
  /\ llm.messages l
     ++ [{| llms.Role := "user"; llms.Content := message;
            llms.ToolCalls := []; llms.ToolCallID := "" |}]
     `prefix_of`
     llm.messages (llm.chatAfter (llm.ChatUsingContent steps ctxDone l message)).
Proof.
  split; [apply step_prefix|].
  unfold llm.ChatUsingContent. cbn [llm.chatAfter].
  apply (chatLoop_prefix S steps ctxDone
           (llm.withMessages (llm.messages l ++ [_]) l)).
Qed.

(** X10.  A step that completes asks for another step exactly when the decoder
    yielded a [ToolCallReady] status. *)
Theorem step_continues_iff_tool_call_ready
    (S : Type) (PS : llms.ProviderStream S) (l : llm.LLM S) :
  match llm.result (llm.step l) with
  | llm.Returned shouldContinue None =>
      shouldContinue
      = negb (countReady (llms.yields (llms.Iter (llm.generate l))) =? 0)%nat
  | _ => True
  end.
Proof.
  unfold llm.step. cbv zeta.
  destruct (llms.Err (llm.generate l)); [exact I|].
  destruct (drain_summary S l (llms.yields (llms.Iter (llm.generate l))) []) as [_ Hp].
  cbv zeta in Hp.
  destruct (llm.panicked _); [exact I|].
  destruct (llms.exit _); [|exact I].
  cbn [llm.result]. destruct (Hp eq_refl) as (_ & Hl & Hz). simpl in Hl.
  destruct (countReady _) as [|n].
  - rewrite (Hz eq_refl). reflexivity.
  - simpl. apply Nat.ltb_lt. lia.
Qed.

Lemma step_textSent (S : Type) (PS : llms.ProviderStream S) (l : llm.LLM S) (c : bool) :
  llm.result (llm.step l) = llm.Returned c None ->
  textSent (llm.log (llm.step l))
  = textDeltas llms.Text (llms.yields (llms.Iter (llm.generate l))).
Proof.
  unfold llm.step. cbv zeta.
  destruct (llms.Err (llm.generate l)); [discriminate|].
  destruct (drain_summary S l (llms.yields (llms.Iter (llm.generate l))) []) as [_ Hp].
  cbv zeta in Hp.
  destruct (llm.panicked _); [discriminate|].
  destruct (llms.exit _); [|discriminate].
  intros _. cbn [llm.log]. destruct (Hp eq_refl) as (Ht & _ & _).
  rewrite textSent_app, Ht. simpl.
  assert (Hq : textSent (map llm.Appended (slices.SortStableFunc
                 (llm.toolMessages
                    (llm.drain l (llms.yields (llms.Iter (llm.generate l))) []))
                 llm.toolFirst)) = "").
  { induction (slices.SortStableFunc _ _) as [|m ms IH]; [reflexivity | exact IH]. }
  rewrite Hq. apply string_app_nil_r.
Qed.

(** X11.  In a step that completes over a response of the index-delta framing, the
    texts of the [TextUpdate]s sent, concatenated, are the text of the
    assistant message the step appends to the history. *)
Theorem openai_step_text_sent_is_text_stored
    (unmarshal : string -> option openai.chatCompletionChunk)
    (l : llm.LLM openai.Stream) (model : string) (body : list string) (c : bool) :
  llm.generate l = openai.newStream model body ->
  llm.result (llm.step (PS := openai.providerStream unmarshal) l) = llm.Returned c None ->
  textSent (llm.log (llm.step (PS := openai.providerStream unmarshal) l))
  = content.fullText
      (llms.Content (stepReceived (PS := openai.providerStream unmarshal) l))
  /\ stepReceived (PS := openai.providerStream unmarshal) l
     ∈ llm.messages (llm.after (llm.step (PS := openai.providerStream unmarshal) l)).
Proof.
  intros Hg Hr. split.
  - rewrite (step_textSent _ _ l c Hr). unfold stepReceived. rewrite Hg.
    cbn [llms.Iter llms.Text llms.streamMessage openai.providerStream].
    by rewrite openai_Iter_text.
  - rewrite step_messages, Hr. apply elem_of_app. right. apply list_elem_of_here.
Qed.

Lemma openai_step_text_witness :
  textSent (llm.log (llm.step (PS := openai.providerStream fixtures.openaiUnmarshal)
                       (fixtures.openaiEngine fixtures.twoCalls)))
  = content.fullText
      (llms.Content (stepReceived (PS := openai.providerStream fixtures.openaiUnmarshal)
                       (fixtures.openaiEngine fixtures.twoCalls)))
  /\ stepReceived (PS := openai.providerStream fixtures.openaiUnmarshal)
       (fixtures.openaiEngine fixtures.twoCalls)
     ∈ llm.messages
         (llm.after (llm.step (PS := openai.providerStream fixtures.openaiUnmarshal)
                       (fixtures.openaiEngine fixtures.twoCalls))).
Proof.
  apply (openai_step_text_sent_is_text_stored fixtures.openaiUnmarshal
           (fixtures.openaiEngine fixtures.twoCalls) "gpt-4o" fixtures.twoCalls true).
  - reflexivity.
  - vm_compute. reflexivity.
Defined.

(** X12.  The same for a response of the typed-event framing, whatever the order
    of the range over the price table. *)
Theorem anthropic_step_text_sent_is_text_stored
    (unmarshal : string -> option anthropic.streamEvent)
    (order : list (string * anthropic.pricing))
    (l : llm.LLM anthropic.Stream) (model : string) (body : list string) (c : bool) :
  llm.generate l = anthropic.newStream model body ->
  llm.result (llm.step (PS := anthropic.providerStream unmarshal order) l)
  = llm.Returned c None ->
  textSent (llm.log (llm.step (PS := anthropic.providerStream unmarshal order) l))
  = content.fullText
      (llms.Content (stepReceived (PS := anthropic.providerStream unmarshal order) l))
  /\ stepReceived (PS := anthropic.providerStream unmarshal order) l
     ∈ llm.messages (llm.after (llm.step (PS := anthropic.providerStream unmarshal order) l)).
Proof.
  intros Hg Hr. split.
  - rewrite (step_textSent _ _ l c Hr). unfold stepReceived. rewrite Hg.
    cbn [llms.Iter llms.Text llms.streamMessage anthropic.providerStream].
    by rewrite anthropic_Iter_text.
  - rewrite step_messages, Hr. apply elem_of_app. right. apply list_elem_of_here.
Qed.

Lemma anthropic_step_text_witness :
  textSent (llm.log (llm.step (PS := fixtures.anthropicPS)
                       (fixtures.anthropicEngine fixtures.toolThenText)))
  = content.fullText
      (llms.Content (stepReceived (PS := fixtures.anthropicPS)
                       (fixtures.anthropicEngine fixtures.toolThenText)))
  /\ stepReceived (PS := fixtures.anthropicPS)
       (fixtures.anthropicEngine fixtures.toolThenText)
     ∈ llm.messages
         (llm.after (llm.step (PS := fixtures.anthropicPS)
                       (fixtures.anthropicEngine fixtures.toolThenText))).
Proof.
  apply (anthropic_step_text_sent_is_text_stored fixtures.anthropicUnmarshal
           (map_to_list anthropic.modelPricing)
           (fixtures.anthropicEngine fixtures.toolThenText)
           "claude-3-5-sonnet" fixtures.toolThenText true).
  - reflexivity.
  - vm_compute. reflexivity.
Defined.

(** X13.  The check of [runToolCall] for a tool call that was already run only
    warns: it prints one warning for each message of the history that
    answers the same call id (none for an empty id), and the tool is run and
    its messages are built all the same, whatever the history holds. *)
Theorem duplicate_tool_call_only_warns
    (S : Type) (l l' : llm.LLM S) (toolbox : tools.Toolbox) (toolCall : llms.ToolCall) :
  (llm.runToolCall l toolbox toolCall).2 = (llm.runToolCall l' toolbox toolCall).2
  /\ llm.Ran toolCall ∈ (llm.runToolCall l toolbox toolCall).1
  /\ length (warnings (llm.runToolCall l toolbox toolCall).1)
     = if decide (llms.ID toolCall = "") then 0
       else length (filter (fun m => llms.ToolCallID m = llms.ID toolCall) (llm.messages l)).
Proof.
  split; [|split].
  - unfold llm.runToolCall.
    by destruct (tools.Run toolbox (llms.Name toolCall) (llms.Arguments toolCall)).
  - apply runToolCall_events.
  - unfold llm.runToolCall.
    destruct (tools.Run toolbox (llms.Name toolCall) (llms.Arguments toolCall))
      as [statuses result]. cbn [fst]. unfold warnings.
    rewrite !omap_app. rewrite !length_app.
    assert (H0 : forall (A : Type) (f : A -> llm.Event) (xs : list A),
              (forall x, match f x with llm.Printed _ _ => False | _ => True end) ->
              length (omap (fun e => match e with
                                     | llm.Printed id name => Some (id, name)
                                     | _ => None end) (map f xs)) = 0).
    { intros A f xs Hf. induction xs as [|x xs IH]; simpl; [reflexivity|].
      specialize (Hf x). destruct (f x); try contradiction; exact IH. }
    rewrite H0 by (intros; exact I). simpl.
    destruct (decide (llms.ID toolCall = "")); [reflexivity|].
    rewrite Nat.add_0_r.
    assert (H1 : forall (A : Type) (id name : string) (xs : list A),
              length (omap (fun e => match e with
                                     | llm.Printed id name => Some (id, name)
                                     | _ => None end)
                        (map (fun _ => llm.Printed id name) xs)) = length xs).
    { intros A id name xs. induction xs as [|x xs IH]; simpl; [reflexivity|].
      f_equal. exact IH. }
    apply H1.
Qed.

(** * The cost of a response without usage *)

Lemma openai_price_of_nothing (k : string) (p : openai.pricing) :
  openai.modelPricing !! k = Some p -> openai.costUSD p 0 0 = 0%float.
Proof.
  intros H. unfold openai.modelPricing in H. apply elem_of_list_to_map_2 in H.
  repeat (apply elem_of_cons in H as [H|H]; [injection H as -> ->; vm_compute; reflexivity|]).
  by apply elem_of_nil in H.
Qed.

Lemma anthropic_price_of_nothing (k : string) (p : anthropic.pricing) :
  anthropic.modelPricing !! k = Some p -> anthropic.costUSD p 0 0 = 0%float.
Proof.
  intros H. unfold anthropic.modelPricing in H. apply elem_of_list_to_map_2 in H.
  repeat (apply elem_of_cons in H as [H|H]; [injection H as -> ->; vm_compute; reflexivity|]).
  by apply elem_of_nil in H.
Qed.

Lemma rangePrefix_elem (order : list (string * anthropic.pricing)) (m : string)
    (p : anthropic.pricing) :
  anthropic.rangePrefix order m = Some p -> exists k, (k, p) ∈ order.
Proof.
  induction order as [|[k q] order IH]; simpl; [discriminate|].
  destruct (HasPrefix m k).
  - intros [= ->]. exists k. apply list_elem_of_here.
  - intros H. destruct (IH H) as [k' Hk']. exists k'. by apply list_elem_of_further.
Qed.

(** X7.  A decoder whose usage counters are zero (no usage report was read) costs
    exactly 0, whatever the model: every price of the two tables gives 0 for
    no tokens. *)
Theorem no_usage_costs_nothing
    (order : list (string * anthropic.pricing)) (a : anthropic.Stream) (o : openai.Stream) :
  order ≡ₚ map_to_list anthropic.modelPricing ->
  anthropic.Usage a = (0, 0)%Z ->
  openai.Usage o = (0, 0)%Z ->
  anthropic.CostUSD order a = 0%float /\ openai.CostUSD o = 0%float.
Proof.
  intros Hperm Ha Ho. split.
  - unfold anthropic.CostUSD. unfold anthropic.Usage in Ha. injection Ha as -> ->.
    destruct (anthropic.modelPricing !! anthropic.model a) as [p|] eqn:Hp.
    + exact (anthropic_price_of_nothing _ _ Hp).
    + destruct (anthropic.rangePrefix order (anthropic.model a)) as [p|] eqn:Hr;
        [|reflexivity].
      apply rangePrefix_elem in Hr as [k Hk]. rewrite Hperm in Hk.
      apply elem_of_map_to_list in Hk. exact (anthropic_price_of_nothing _ _ Hk).
  - unfold openai.CostUSD. rewrite Ho.
    destruct (openai.modelPricing !! openai.model o) as [p|] eqn:Hp; [|reflexivity].
    exact (openai_price_of_nothing _ _ Hp).
Qed.

Lemma no_usage_costs_nothing_witness :
  anthropic.CostUSD (map_to_list anthropic.modelPricing)
    (anthropic.newStream "claude-3-opus-20240229" []) = 0%float
  /\ openai.CostUSD (openai.newStream "gpt-4o" []) = 0%float.
Proof.
  apply no_usage_costs_nothing; reflexivity.
Defined.

(** * openai/types.go: the messages of the API *)

Module openai_types.

Record imageURL := { URL : string; Detail : string }.

(** [contentPart]: [Text] and [ImageURL] are pointers, nil when absent. *)
Record contentPart := {
  Type_ : string;
  Text : option string;
  ImageURL : option imageURL
}.

Definition contentList := list contentPart.

(** The body of the loop of [convertContent]: the part for one item.  The
    items are of the three types of the switch, so its default case, which
    panics, is never taken. *)
Definition convertItem (item : content.Item) : contentPart :=
  match item with
  | content.Text text => {| Type_ := "text"; Text := Some text; ImageURL := None |}
  | content.ImageURL url =>
      {| Type_ := "image_url"; Text := None;
         ImageURL := Some {| URL := url; Detail := "auto" |} |}
  | content.JSON data => {| Type_ := "text"; Text := Some data; ImageURL := None |}
  end.

(** [convertContent]: [for _, item := range c { ...; cl = append(cl, cp) }]. *)
Definition convertContent (c : content.Content) : contentList :=
  fold_left (fun cl item => cl ++ [convertItem item]) c [].

Record toolCall := {
  ID : string;
  callType : string;
  Function : openai.toolCallFunction
}.

Record message := {
  Role : string;
  Content : contentList;
  ToolCalls : list toolCall;
  ToolCallID : string
}.

(** [toolCall.ToLLM]. *)
Definition ToLLM (t : toolCall) : llms.ToolCall :=
  {| llms.ID := ID t;
     llms.Name := openai.fnName (Function t);
     llms.Arguments := openai.fnArguments (Function t) |}.

Section Messages.

(** [json.Valid]. *)
Variable jsonValid : string -> bool.

(** The body of the loop over [m.ToolCalls] in [messagesFromLLM]. *)
Definition callFromLLM (tc : llms.ToolCall) : toolCall :=
  let args := llms.Arguments tc in
  let args := if negb (jsonValid args) then "{}" else args in
  {| ID := llms.ID tc;
     callType := "function";
     Function := {| openai.fnName := llms.Name tc; openai.fnArguments := args |} |}.

(** [messagesFromLLM]. *)
Definition messagesFromLLM (m : llms.Message) : list message :=
  if decide (llms.Role m = "tool") then
    let primaryResultString :=
      match llms.Content m with
      | firstItem :: _ =>
          match firstItem with
          | content.Text text => text
          | content.JSON data => data
          | content.ImageURL url => url
          end
      | [] => ""
      end in
    let secondaryContent :=
      match llms.Content m with
      | _ :: (_ :: _) as rest => rest
      | _ => []
      end in
    let primaryMessage :=
      {| Role := "tool";
         Content := [{| Type_ := "text"; Text := Some primaryResultString; ImageURL := None |}];
         ToolCalls := [];
         ToolCallID := llms.ToolCallID m |} in
    let messagesToReturn := [primaryMessage] in
    if (0 <? length secondaryContent)%nat then
      let secondaryAPIContent := convertContent secondaryContent in
      if (0 <? length secondaryAPIContent)%nat then
        messagesToReturn
        ++ [{| Role := "user"; Content := secondaryAPIContent;
               ToolCalls := []; ToolCallID := "" |}]
      else messagesToReturn
    else messagesToReturn
  else
    let apiRole := llms.Role m in
    let apiContent := convertContent (llms.Content m) in
    if (length apiContent =? 0)%nat && (length (llms.ToolCalls m) =? 0)%nat then []
    else
      let calls :=
        if bool_decide (llms.Role m = "assistant") && (0 <? length (llms.ToolCalls m))%nat
        then map callFromLLM (llms.ToolCalls m)
        else [] in
      [{| Role := apiRole; Content := apiContent; ToolCalls := calls; ToolCallID := "" |}].

End Messages.

End openai_types.

(** ** Properties of the conversion *)

Lemma convertContent_map (c : content.Content) :
  openai_types.convertContent c = map openai_types.convertItem c.
Proof.
  unfold openai_types.convertContent.
  assert (H : forall acc, fold_left (fun cl item => cl ++ [openai_types.convertItem item]) c acc
                        = acc ++ map openai_types.convertItem c).
  { induction c as [|item c IH]; intros acc; simpl; [by rewrite app_nil_r|].
    by rewrite IH, <- app_assoc. }
  apply H.
Qed.

(** The parts of all the messages of a list, in order. *)
Definition allParts (ms : list openai_types.message) : list openai_types.contentPart :=
  concat (map openai_types.Content ms).

(** X15.  What the API gets for a tool message: a tool-role message with the call
    id, whose content is one text part holding the first content item as a
    string (the empty string when the message has no content), and, when
    the message has more items, a user-role message with a part for each of
    the others. *)
Theorem messagesFromLLM_tool_message
    (jsonValid : string -> bool) (m : llms.Message) :
  llms.Role m = "tool" ->
  exists result,
    openai_types.messagesFromLLM jsonValid m
    = {| openai_types.Role := "tool";
         openai_types.Content :=
           [{| openai_types.Type_ := "text"; openai_types.Text := Some result;
               openai_types.ImageURL := None |}];
         openai_types.ToolCalls := [];
         openai_types.ToolCallID := llms.ToolCallID m |}
      :: match tail (llms.Content m) with
         | [] => []
         | others =>
             [{| openai_types.Role := "user";
                 openai_types.Content := map openai_types.convertItem others;
                 openai_types.ToolCalls := [];
                 openai_types.ToolCallID := "" |}]
         end
    /\ result = match llms.Content m with
                | content.Text text :: _ => text
                | content.JSON data :: _ => data
                | content.ImageURL url :: _ => url
                | [] => ""
                end.
Proof.
  intros Hrole. unfold openai_types.messagesFromLLM.
  destruct (decide (llms.Role m = "tool")); [|contradiction].
  destruct (llms.Content m) as [|first [|second others]]; cbv zeta.
  - eexists. split; reflexivity.
  - eexists. split; [reflexivity | by destruct first].
  - rewrite convertContent_map. eexists. split; [reflexivity | by destruct first].
Qed.

Lemma messagesFromLLM_tool_witness :
  exists result,
    openai_types.messagesFromLLM (fun _ => true)
      {| llms.Role := "tool";
         llms.Content := [content.JSON "{'ok':true}"; content.ImageURL "data:image/png;base64,AAAA"];
         llms.ToolCalls := []; llms.ToolCallID := "b" |}
    = {| openai_types.Role := "tool";
         openai_types.Content :=
           [{| openai_types.Type_ := "text"; openai_types.Text := Some result;
               openai_types.ImageURL := None |}];
         openai_types.ToolCalls := [];
         openai_types.ToolCallID := "b" |}
      :: [{| openai_types.Role := "user";
             openai_types.Content :=
               [openai_types.convertItem (content.ImageURL "data:image/png;base64,AAAA")];
             openai_types.ToolCalls := [];
             openai_types.ToolCallID := "" |}]
    /\ result = "{'ok':true}".
Proof.
  apply (messagesFromLLM_tool_message (fun _ => true)
           {| llms.Role := "tool";
              llms.Content := [content.JSON "{'ok':true}";
                               content.ImageURL "data:image/png;base64,AAAA"];
              llms.ToolCalls := []; llms.ToolCallID := "b" |}).
  reflexivity.
Defined.

(** X16.  The shape of what [messagesFromLLM] returns for any message: at most two
    messages; none exactly when the message is not a tool message and has
    neither content nor tool calls; the first in the role of the message and
    every further one in the role user; and one part for each content item
    of the message (one part for a tool message without content). *)
Theorem messagesFromLLM_shape (jsonValid : string -> bool) (m : llms.Message) :
  let out := openai_types.messagesFromLLM jsonValid m in
  length out <= 2
  /\ (out = [] <-> llms.Role m <> "tool" /\ llms.Content m = [] /\ llms.ToolCalls m = [])
  /\ map openai_types.Role out
     = take (length out) (llms.Role m :: ["user"])
  /\ length (allParts out)
     = if decide (llms.Role m = "tool") then max 1 (length (llms.Content m))
       else length (llms.Content m).
Proof.
  cbv zeta. unfold openai_types.messagesFromLLM.
  destruct (decide (llms.Role m = "tool")) as [Hr|Hr].
  - destruct (llms.Content m) as [|first [|second others]]; cbv zeta; simpl;
      rewrite ?convertContent_map; simpl; rewrite ?length_app, ?length_map, ?Hr; simpl;
      (split; [lia|]); (split; [split; [discriminate | tauto]|]);
      (split; [reflexivity | lia]).
  - cbv zeta. rewrite convertContent_map, length_map.
    destruct (llms.Content m) as [|first others] eqn:Hc;
      destruct (llms.ToolCalls m) as [|tc tcs] eqn:Ht; simpl;
      rewrite ?app_nil_r, ?length_map;
      (split; [lia|]); (split; [split; [try discriminate; auto | intros (_ & ? & ?); congruence]|]);
      (split; [reflexivity | try lia]).
Qed.

(** A tool call as the API gets it: the id and the name of the call, the
    type [function], and arguments that are valid JSON: those of the call
    when they are valid, so that [ToLLM] gives the call back, and [{}]
    otherwise. *)
Definition callSent (jsonValid : string -> bool) (tc : llms.ToolCall)
    (sent : openai_types.toolCall) : Prop :=
  openai_types.ID sent = llms.ID tc
  /\ openai.fnName (openai_types.Function sent) = llms.Name tc
  /\ openai_types.callType sent = "function"
  /\ jsonValid (openai.fnArguments (openai_types.Function sent)) = true
  /\ (if jsonValid (llms.Arguments tc) then openai_types.ToLLM sent = tc
      else openai.fnArguments (openai_types.Function sent) = "{}").

Lemma callFromLLM_sent (jsonValid : string -> bool) (tc : llms.ToolCall) :
  jsonValid "{}" = true -> callSent jsonValid tc (openai_types.callFromLLM jsonValid tc).
Proof.
  intros Hempty. unfold callSent, openai_types.callFromLLM, openai_types.ToLLM. simpl.
  destruct (jsonValid (llms.Arguments tc)) eqn:Hv; simpl; rewrite ?Hv, ?Hempty;
    repeat split. by destruct tc.
Qed.

(** X17.  The tool calls of an assistant message reach the API one for one, in
    order, each as [callSent] describes; the tool calls of a message in any
    other role are dropped. *)
Theorem messagesFromLLM_tool_calls (jsonValid : string -> bool) (m : llms.Message) :
  jsonValid "{}" = true ->
  llms.Role m <> "tool" ->
  llms.ToolCalls m <> [] ->
  exists msg,
    openai_types.messagesFromLLM jsonValid m = [msg]
    /\ if decide (llms.Role m = "assistant")
       then Forall2 (callSent jsonValid) (llms.ToolCalls m) (openai_types.ToolCalls msg)
       else openai_types.ToolCalls msg = [].
Proof.
  intros Hempty Hrole Hcalls. unfold openai_types.messagesFromLLM.
  destruct (decide (llms.Role m = "tool")); [contradiction|]. cbv zeta.
  destruct (llms.ToolCalls m) as [|tc tcs] eqn:Ht; [contradiction|].
  replace ((length (openai_types.convertContent (llms.Content m)) =? 0)%nat
           && (length (tc :: tcs) =? 0)%nat) with false
    by (simpl; by rewrite andb_false_r).
  eexists. split; [reflexivity|]. cbn [openai_types.ToolCalls].
  destruct (decide (llms.Role m = "assistant")) as [Ha|Ha].
  - rewrite (bool_decide_eq_true_2 _ Ha). simpl.
    constructor; [by apply callFromLLM_sent|]. clear Ht Hcalls.
    induction tcs as [|tc' tcs IH]; simpl; constructor;
      [by apply callFromLLM_sent | exact IH].
  - by rewrite (bool_decide_eq_false_2 _ Ha).
Qed.

Lemma messagesFromLLM_tool_calls_witness :
  exists msg,
    openai_types.messagesFromLLM (fun s => bool_decide (s = "{}"))
      {| llms.Role := "assistant"; llms.Content := [];
         llms.ToolCalls :=
           [{| llms.ID := "a"; llms.Name := "search"; llms.Arguments := "{}" |};
            {| llms.ID := "b"; llms.Name := "render"; llms.Arguments := "{'x':" |}];
         llms.ToolCallID := "" |} = [msg]
    /\ Forall2 (callSent (fun s => bool_decide (s = "{}")))
         [{| llms.ID := "a"; llms.Name := "search"; llms.Arguments := "{}" |};
          {| llms.ID := "b"; llms.Name := "render"; llms.Arguments := "{'x':" |}]
         (openai_types.ToolCalls msg).
Proof.
  apply (messagesFromLLM_tool_calls (fun s => bool_decide (s = "{}"))
           {| llms.Role := "assistant"; llms.Content := [];
              llms.ToolCalls :=
                [{| llms.ID := "a"; llms.Name := "search"; llms.Arguments := "{}" |};
                 {| llms.ID := "b"; llms.Name := "render"; llms.Arguments := "{'x':" |}];
              llms.ToolCallID := "" |}).
  - reflexivity.
  - discriminate.
  - discriminate.
Defined.

(** * The typed-event provider: the messages of the API *)

(** [strings.Cut(s, sep)]: [s] around the first instance of [sep], and
    whether there is one; without one, [s] and the empty string. *)
Fixpoint Cut (s sep : string) : string * string * bool :=
  match CutPrefix s sep with
  | Some after => ("", after, true)
  | None =>
      match s with
      | EmptyString => ("", "", false)
      | String c s' => let '(before, after, found) := Cut s' sep in (String c before, after, found)
      end
  end.

Module anthropic_messages.

(** The declarations of [contentItem], [source] and [message] are not part of
    the sources: the records hold the fields the conversions set. *)
Record source := { sourceType : string; MediaType : string; Data : string }.

#[local] Unset Elimination Schemes.

Inductive contentItem := ContentItem {
  Type_ : string;
  Text : string;
  Source : option source;
  ID : string;
  Name : string;
  Input : string;
  ToolUseID : string;
  Content : list contentItem
}.

#[local] Set Elimination Schemes.

Record message := { Role : string; messageContent : list contentItem }.

(** The zero value [contentItem{}]. *)
Definition zeroItem : contentItem :=
  {| Type_ := ""; Text := ""; Source := None; ID := ""; Name := ""; Input := "";
     ToolUseID := ""; Content := [] |}.

Definition textItem (text : string) : contentItem :=
  {| Type_ := "text"; Text := text; Source := None; ID := ""; Name := ""; Input := "";
     ToolUseID := ""; Content := [] |}.

Definition imageItem (src : source) : contentItem :=
  {| Type_ := "image"; Text := ""; Source := Some src; ID := ""; Name := ""; Input := "";
     ToolUseID := ""; Content := [] |}.

(** The values [contentFromLLM] panics with. *)
Inductive conversionPanic :=
| UnsupportedDataURI (url : string)   (* "unsupported data URI format %q" *)
| URLNotSupported.                    (* "Anthropic does not support URLs for images" *)

Section Conversions.

(** [strings.TrimSpace(s) == ""]. *)
Variable isBlank : string -> bool.

(** The body of the loop of [contentFromLLM]: the item for one content item,
    or the panic. *)
Definition itemFromLLM (item : content.Item) : conversionPanic + contentItem :=
  match item with
  | content.Text text =>
      inr (textItem (if isBlank text then "(Empty)" else text))
  | content.ImageURL url =>
      match CutPrefix url "data:" with
      | Some dataValue =>
          let '(mimeType, data, found) := Cut dataValue ";base64," in
          if negb found then inl (UnsupportedDataURI url)
          else inr (imageItem {| sourceType := "base64"; MediaType := mimeType; Data := data |})
      | None =>
          (* TODO: Download the image URL and turn it into base64. *)
          inl URLNotSupported
      end
  | content.JSON data => inr (textItem data)
  end.

(** [contentFromLLM]. *)
Fixpoint contentFromLLM (llmContent : content.Content) : conversionPanic + list contentItem :=
  match llmContent with
  | [] => inr []
  | item :: rest =>
      match itemFromLLM item with
      | inl p => inl p
      | inr ci =>
          match contentFromLLM rest with
          | inl p => inl p
          | inr cl => inr (ci :: cl)
          end
      end
  end.

Definition toolUseItem (toolCall : llms.ToolCall) : contentItem :=
  {| Type_ := "tool_use"; Text := ""; Source := None;
     ID := llms.ID toolCall; Name := llms.Name toolCall; Input := llms.Arguments toolCall;
     ToolUseID := ""; Content := [] |}.

(** [messageFromLLM]. *)
Definition messageFromLLM (m : llms.Message) : conversionPanic + message :=
  if decide (llms.Role m = "tool") then
    (* Anthropic considers tool responses to be from the user. *)
    match contentFromLLM (llms.Content m) with
    | inl p => inl p
    | inr cl =>
        inr {| Role := "user";
               messageContent :=
                 [{| Type_ := "tool_result"; Text := ""; Source := None; ID := ""; Name := "";
                     Input := ""; ToolUseID := llms.ToolCallID m; Content := cl |}] |}
    end
  else
    match contentFromLLM (llms.Content m) with
    | inl p => inl p
    | inr cl =>
        inr {| Role := llms.Role m;
               messageContent :=
                 fold_left (fun acc toolCall => acc ++ [toolUseItem toolCall])
                   (llms.ToolCalls m) cl |}
    end.

End Conversions.

End anthropic_messages.

(** ** Properties of the conversion *)

Lemma CutPrefix_nil (s : string) : CutPrefix s "" = Some s.
Proof. by destruct s. Qed.

Lemma CutPrefix_app (p r : string) : CutPrefix (p +:+ r) p = Some r.
Proof.
  induction p as [|c p IH]; [apply CutPrefix_nil|].
  rewrite string_app_cons. simpl. by rewrite Ascii.eqb_refl.
Qed.

Lemma CutPrefix_Some (s p r : string) : CutPrefix s p = Some r -> s = p +:+ r.
Proof.
  revert p. induction s as [|d s IH]; intros p; destruct p as [|c p]; simpl;
    try discriminate; try (by intros [= <-]).
  destruct (Ascii.eqb_spec c d) as [->|]; [|discriminate].
  intros H. rewrite string_app_cons. f_equal. by apply IH.
Qed.

Lemma Cut_cons (c : ascii) (s sep : string) :
  Cut (String c s) sep
  = match CutPrefix (String c s) sep with
    | Some after => ("", after, true)
    | None => let '(before, after, found) := Cut s sep in (String c before, after, found)
    end.
Proof. reflexivity. Qed.

Lemma Cut_found (s sep before after : string) :
  Cut s sep = (before, after, true) -> s = before +:+ sep +:+ after.
Proof.
  revert before. induction s as [|c s IH]; intros before.
  - simpl. destruct sep; [intros [= <- <-]; reflexivity | discriminate].
  - rewrite Cut_cons. destruct (CutPrefix (String c s) sep) as [r|] eqn:Hp.
    + intros [= <- <-]. by apply CutPrefix_Some in Hp.
    + destruct (Cut s sep) as [[b a] f]. intros [= <- <- ->].
      rewrite string_app_cons. f_equal. by apply IH.
Qed.

Lemma Cut_occurs (x sep y : string) :
  exists before after, Cut (x +:+ sep +:+ y) sep = (before, after, true).
Proof.
  induction x as [|c x IH].
  - change ("" +:+ sep +:+ y) with (sep +:+ y).
    pose proof (CutPrefix_app sep y) as Hp.
    destruct (sep +:+ y) as [|c s] eqn:Hs.
    + simpl. simpl in Hp. rewrite Hp. eauto.
    + rewrite Cut_cons, Hp. eauto.
  - rewrite string_app_cons, Cut_cons.
    destruct (CutPrefix (String c (x +:+ sep +:+ y)) sep); [eauto|].
    destruct IH as (b & a & ->). eauto.
Qed.

(** An image URL [contentFromLLM] takes: a base64 data URI. *)
Definition isDataURI (url : string) : Prop :=
  exists mime data, url = "data:" +:+ mime +:+ ";base64," +:+ data.

Definition itemOK (item : content.Item) : Prop :=
  match item with content.ImageURL url => isDataURI url | _ => True end.

Section AnthropicConversions.

Variable isBlank : string -> bool.

Lemma itemFromLLM_result (item : content.Item) :
  match anthropic_messages.itemFromLLM isBlank item with
  | inr _ => itemOK item
  | inl p =>
      exists url, item = content.ImageURL url /\ ~ isDataURI url
                  /\ p = if HasPrefix url "data:"
                         then anthropic_messages.UnsupportedDataURI url
                         else anthropic_messages.URLNotSupported
  end.
Proof.
  destruct item as [text|url|data]; simpl; try exact I.
  destruct (CutPrefix url "data:") as [dataValue|] eqn:Hp.
  - pose proof Hp as Hp0. apply CutPrefix_Some in Hp.
    destruct (Cut dataValue ";base64,") as [[mime data] found] eqn:Hc.
    destruct found; simpl.
    + apply Cut_found in Hc. exists mime, data. by rewrite Hp, Hc.
    + exists url. split; [reflexivity|].
      split; [|unfold HasPrefix; by rewrite Hp0].
      intros (mime' & data' & Hu). rewrite Hu in Hp.
      apply (f_equal (fun s => CutPrefix s "data:")) in Hp.
      rewrite !CutPrefix_app in Hp. injection Hp as Hp.
      destruct (Cut_occurs mime' ";base64," data') as (b & a & Hf).
      rewrite Hp, Hc in Hf. discriminate.
  - exists url. split; [reflexivity|]. split; [|unfold HasPrefix; by rewrite Hp].
    intros (mime & data & Hu). rewrite Hu, CutPrefix_app in Hp. discriminate.
Qed.

End AnthropicConversions.

(** X18.  [contentFromLLM] returns exactly when every image of the content is a
    base64 data URI, and then with one item for each content item.  It
    panics otherwise, at the first image that is not one: with the
    unsupported-format panic when the URL starts with [data:], and with the
    URLs-not-supported panic when it does not. *)
Theorem contentFromLLM_returns_iff_data_uris
    (isBlank : string -> bool) (c : content.Content) :
  match anthropic_messages.contentFromLLM isBlank c with
  | inr cl => Forall itemOK c /\ length cl = length c
  | inl p =>
      exists before url after,
        c = before ++ content.ImageURL url :: after
        /\ Forall itemOK before /\ ~ isDataURI url
        /\ p = if HasPrefix url "data:"
               then anthropic_messages.UnsupportedDataURI url
               else anthropic_messages.URLNotSupported
  end.
Proof.
  induction c as [|item rest IH]; simpl; [by split|].
  pose proof (itemFromLLM_result isBlank item) as Hi.
  destruct (anthropic_messages.itemFromLLM isBlank item) as [p|ci].
  - destruct Hi as (url & -> & Hn & Hp). exists [], url, rest. auto.
  - destruct (anthropic_messages.contentFromLLM isBlank rest) as [p|cl].
    + destruct IH as (before & url & after & -> & Hb & Hn & Hp).
      exists (item :: before), url, after. auto.
    + destruct IH as [Hf Hl]. split; [by constructor | simpl; by rewrite Hl].
Qed.

(** Whether a character occurs in a string. *)
Fixpoint occurs (c : ascii) (s : string) : bool :=
  match s with
  | EmptyString => false
  | String d s' => Ascii.eqb c d || occurs c s'
  end.

Lemma Cut_base64 (mime data : string) :
  occurs ";" mime = false ->
  Cut (mime +:+ ";base64," +:+ data) ";base64," = (mime, data, true).
Proof.
  induction mime as [|c mime IH]; intros Hm.
  - change ("" +:+ ";base64," +:+ data) with (";base64," +:+ data).
    change (";base64," +:+ data) with (String ";" ("base64," +:+ data)).
    rewrite Cut_cons.
    change (String ";" ("base64," +:+ data)) with (";base64," +:+ data).
    by rewrite CutPrefix_app.
  - simpl in Hm. apply orb_false_elim in Hm as [Hc Hm].
    rewrite string_app_cons, Cut_cons. simpl. rewrite Hc.
    by rewrite (IH Hm).
Qed.

(** X19.  A base64 data URI whose media type holds no [;] is taken apart into that
    media type and its data. *)
Theorem itemFromLLM_data_uri
    (isBlank : string -> bool) (mime data : string) :
  occurs ";" mime = false ->
  anthropic_messages.itemFromLLM isBlank
    (content.ImageURL ("data:" +:+ mime +:+ ";base64," +:+ data))
  = inr (anthropic_messages.imageItem
           {| anthropic_messages.sourceType := "base64";
              anthropic_messages.MediaType := mime;
              anthropic_messages.Data := data |}).
Proof.
  intros Hm. unfold anthropic_messages.itemFromLLM.
  rewrite CutPrefix_app, (Cut_base64 _ _ Hm). reflexivity.
Qed.

Lemma itemFromLLM_data_uri_witness :
  anthropic_messages.itemFromLLM (fun s => bool_decide (s = ""))
    (content.ImageURL ("data:" +:+ "image/png" +:+ ";base64," +:+ "AAAA"))
  = inr (anthropic_messages.imageItem
           {| anthropic_messages.sourceType := "base64";
              anthropic_messages.MediaType := "image/png";
              anthropic_messages.Data := "AAAA" |}).
Proof.
  apply (itemFromLLM_data_uri (fun s => bool_decide (s = "")) "image/png" "AAAA").
  reflexivity.
Defined.

(** X20.  A text item never reaches the API blank: a text that is empty once
    trimmed is replaced by [(Empty)]. *)
Theorem itemFromLLM_text_not_blank (isBlank : string -> bool) (text : string) :
  isBlank "(Empty)" = false ->
  exists sent,
    anthropic_messages.itemFromLLM isBlank (content.Text text)
    = inr (anthropic_messages.textItem sent)
    /\ isBlank sent = false
    /\ (isBlank text = false -> sent = text).
Proof.
  intros He. simpl. destruct (isBlank text) eqn:Hb.
  - exists "(Empty)". repeat split; [exact He | discriminate].
  - exists text. repeat split; exact Hb.
Qed.

Lemma itemFromLLM_text_witness :
  exists sent,
    anthropic_messages.itemFromLLM (fun s => bool_decide (s = "")) (content.Text "")
    = inr (anthropic_messages.textItem sent)
    /\ bool_decide (sent = "") = false
    /\ (bool_decide ("" = "") = false -> sent = "").
Proof.
  apply (itemFromLLM_text_not_blank (fun s => bool_decide (s = "")) "").
  reflexivity.
Defined.

(** X21.  [messageFromLLM] panics exactly when [contentFromLLM] does on the
    content.  Otherwise the message it returns is never in the role tool: a
    tool message becomes a user message with one [tool_result] item that
    holds the call id and the converted content; any other message keeps its
    role, and its content is the converted content followed by one
    [tool_use] item for each tool call, in order. *)
Theorem messageFromLLM_result (isBlank : string -> bool) (m : llms.Message) :
  match anthropic_messages.messageFromLLM isBlank m with
  | inl p => anthropic_messages.contentFromLLM isBlank (llms.Content m) = inl p
  | inr msg =>
      anthropic_messages.Role msg <> "tool"
      /\ exists cl,
           anthropic_messages.contentFromLLM isBlank (llms.Content m) = inr cl
           /\ if decide (llms.Role m = "tool") then
                anthropic_messages.Role msg = "user"
                /\ exists item,
                     anthropic_messages.messageContent msg = [item]
                     /\ anthropic_messages.Type_ item = "tool_result"
                     /\ anthropic_messages.ToolUseID item = llms.ToolCallID m
                     /\ anthropic_messages.Content item = cl
              else
                anthropic_messages.Role msg = llms.Role m
                /\ anthropic_messages.messageContent msg
                   = cl ++ map anthropic_messages.toolUseItem (llms.ToolCalls m)
  end.
Proof.
  unfold anthropic_messages.messageFromLLM.
  destruct (decide (llms.Role m = "tool")) as [Hr|Hr];
    destruct (anthropic_messages.contentFromLLM isBlank (llms.Content m)) as [p|cl];
    try reflexivity; simpl.
  - split; [discriminate|]. exists cl. split; [reflexivity|].
    split; [reflexivity|]. eexists. split; [reflexivity|]. auto.
  - split; [exact Hr|]. exists cl. split; [reflexivity|]. split; [reflexivity|].
    generalize cl. induction (llms.ToolCalls m) as [|tc tcs IH]; intros acc; simpl.
    + by rewrite app_nil_r.
    + by rewrite IH, <- app_assoc.
Qed.
